(** * Disk health monitor: unit normalizer, classifier, topology fallback,
      extraction paths and snapshot delta

    A shallow embedding of the pure core of
    [disk-health-monitor-enhanced-CHS-Delta.py].  External commands are
    represented by the text they return; Python text is a [string] (non-ASCII
    text is held as its UTF-8 bytes, and the character classes are those of
    ASCII); Python floats are IEEE-754 binary64 values of [SpecFloat]; Python
    dictionaries are [gmap]s; a Python exception that leaves a function is an
    explicit result.

    The first half of the file holds the definitions: the Python library
    functions that the program calls ([PyStr], [Re], [PyFloat], [PyInt]), the
    program's functions under their own names, and the definitions in which
    the properties are stated.  The second half holds the checks on concrete
    inputs, the facts about binary64 arithmetic, and the properties. *)

From Stdlib Require Import ZArith Lia Bool Ascii String List.
From Stdlib Require Import SpecFloat DecimalString DecimalZ.
From stdpp Require Import base option gmap strings.

Local Open Scope Z_scope.

(* ===================================================================== *)
(** * Python text operations *)
(* ===================================================================== *)

Module PyStr.

Definition code (c : ascii) : N := N_of_ascii c.

(** [str.isspace] on one ASCII character: TAB..CR, FS..US and the blank. *)
Definition isspace (c : ascii) : bool :=
  let n := code c in
  ((9 <=? n) && (n <=? 13) || (28 <=? n) && (n <=? 32))%N.

(** Decimal digits, as [\d] and [int()] see them in ASCII text. *)
Definition isdigit (c : ascii) : bool :=
  let n := code c in ((48 <=? n) && (n <=? 57))%N.

Definition digit_val (c : ascii) : Z := Z.of_N (code c) - 48.

Definition upper_char (c : ascii) : ascii :=
  let n := code c in
  if ((97 <=? n) && (n <=? 122))%N then ascii_of_N (n - 32) else c.

Definition lower_char (c : ascii) : ascii :=
  let n := code c in
  if ((65 <=? n) && (n <=? 90))%N then ascii_of_N (n + 32) else c.

Fixpoint upper (s : string) : string :=
  match s with
  | EmptyString => EmptyString
  | String c r => String (upper_char c) (upper r)
  end.

Fixpoint lower (s : string) : string :=
  match s with
  | EmptyString => EmptyString
  | String c r => String (lower_char c) (lower r)
  end.

Fixpoint lstrip (s : string) : string :=
  match s with
  | String c r => if isspace c then lstrip r else s
  | EmptyString => EmptyString
  end.

(** [rstrip] keeps a character when it is not a blank or when something
    that is kept follows it. *)
Fixpoint rstrip (s : string) : string :=
  match s with
  | EmptyString => EmptyString
  | String c r =>
      match rstrip r with
      | EmptyString => if isspace c then EmptyString else String c EmptyString
      | r' => String c r'
      end
  end.

Definition strip (s : string) : string := rstrip (lstrip s).

(** [s.startswith(p)] *)
Fixpoint startswith (p s : string) : bool :=
  match p, s with
  | EmptyString, _ => true
  | String a p', String b s' => if Ascii.eqb a b then startswith p' s' else false
  | String _ _, EmptyString => false
  end.

(** [sub in s] *)
Fixpoint contains (sub s : string) : bool :=
  startswith sub s ||
  match s with
  | EmptyString => false
  | String _ r => contains sub r
  end.

(** [s.split(sep)] for a one-character separator: always a non-empty list. *)
Fixpoint split_char (sep : ascii) (s : string) : list string :=
  match s with
  | EmptyString => [EmptyString]
  | String c r =>
      if Ascii.eqb c sep then EmptyString :: split_char sep r
      else match split_char sep r with
           | w :: ws => String c w :: ws
           | [] => [String c EmptyString]
           end
  end.

(** [s.split(sep, 1)]: at most one cut. *)
Fixpoint split_once (sep : ascii) (s : string) : list string :=
  match s with
  | EmptyString => [EmptyString]
  | String c r =>
      if Ascii.eqb c sep then [EmptyString; r]
      else match split_once sep r with
           | w :: ws => String c w :: ws
           | [] => [String c EmptyString]
           end
  end.

(** [s.split()]: maximal runs of non-blank characters. *)
Fixpoint split_ws_go (cur : option string) (s : string) : list string :=
  match s with
  | EmptyString => match cur with Some w => [String.rev w] | None => [] end
  | String c r =>
      if isspace c then
        match cur with
        | Some w => String.rev w :: split_ws_go None r
        | None => split_ws_go None r
        end
      else
        split_ws_go (Some (String c (default EmptyString cur))) r
  end.

Definition split_ws (s : string) : list string := split_ws_go None s.

(** [" ".join(parts)] *)
Fixpoint join (sep : string) (parts : list string) : string :=
  match parts with
  | [] => EmptyString
  | [p] => p
  | p :: ps => p +:+ sep +:+ join sep ps
  end.

(** [str(n)] for an integer. *)
Definition of_Z (n : Z) : string := NilZero.string_of_int (Z.to_int n).

(** [s.replace(c, '')] for one character [c]. *)
Fixpoint remove_char (c : ascii) (s : string) : string :=
  match s with
  | EmptyString => EmptyString
  | String a r => if Ascii.eqb a c then remove_char c r else String a (remove_char c r)
  end.

(** The first [n] characters. *)
Fixpoint take (n : nat) (s : string) : string :=
  match n, s with
  | S n', String c r => String c (take n' r)
  | _, _ => EmptyString
  end.

(** A line boundary of [str.splitlines] in ASCII text: LF, VT, FF, CR and
    the separators FS, GS and RS. *)
Definition islinebreak (c : ascii) : bool :=
  let n := code c in
  ((10 <=? n) && (n <=? 13) || (28 <=? n) && (n <=? 30))%N.

(** [s.splitlines()]: the lines without their boundaries, CR LF counting
    as one boundary, and no empty line after a final boundary. *)
Fixpoint splitlines (s : string) : list string :=
  match s with
  | EmptyString => []
  | String c r =>
      if islinebreak c then
        EmptyString ::
        match r with
        | String c2 r2 =>
            if Ascii.eqb c "013" && Ascii.eqb c2 "010" then splitlines r2 else splitlines r
        | EmptyString => []
        end
      else
        match splitlines r with
        | w :: ws => String c w :: ws
        | [] => [String c EmptyString]
        end
  end.

(** [len(s)]: the number of characters of a text held as UTF-8 bytes, the
    bytes that do not continue a character. *)
Fixpoint len (s : string) : nat :=
  match s with
  | EmptyString => O
  | String c r =>
      let n := code c in
      if ((128 <=? n) && (n <? 192))%N then len r else S (len r)
  end.

(** [c * n] for a one-character text. *)
Fixpoint replicate (n : nat) (c : ascii) : string :=
  match n with
  | O => EmptyString
  | S n' => String c (replicate n' c)
  end.

(** [f"{s:{w}}"]: the text, filled with blanks on the right to [w]
    characters. *)
Definition ljust (w : nat) (s : string) : string :=
  s +:+ replicate (w - len s) " ".

End PyStr.
(* ===================================================================== *)
(** * Regular expressions of Python's [re], as far as the program uses them *)
(* ===================================================================== *)

(** A backtracking matcher in continuation-passing style: alternatives are
    tried in the priority order of [re] (greedy repetition longest first,
    lazy repetition shortest first, the left branch of [|] first), and the
    first complete match wins.  Every repetition in the program's patterns
    ranges over a character class, so [Rep] repeats classes only; a counted
    group such as [(?:\s+\d+){5}] is written out with [times]. *)
Module Re.

Inductive regex : Type :=
| Emp
| Lit (icase : bool) (s : string)          (* literal text *)
| Cls (p : ascii -> bool)                  (* one character of a class *)
| Rep (greedy : bool) (lo : nat) (p : ascii -> bool)  (* p{lo,} or p{lo,}? *)
| Opt (r : regex)                          (* r? *)
| Seq (r1 r2 : regex)
| Alt (r1 r2 : regex)
| Grp (i : nat) (r : regex)                (* capture group i *)
| Eol (multiline : bool).                  (* $ *)

Definition captures := list (nat * string).

Fixpoint group (i : nat) (cs : captures) : option string :=
  match cs with
  | [] => None
  | (j, s) :: r => if Nat.eqb i j then Some s else group i r
  end.

(** Character classes. *)
Definition any : ascii -> bool := fun _ => true.            (* . with DOTALL *)
Definition dot : ascii -> bool := fun c => negb (Ascii.eqb c "010").  (* . *)
Definition d : ascii -> bool := PyStr.isdigit.              (* \d *)
Definition s : ascii -> bool := PyStr.isspace.              (* \s *)
Definition one_of (l : string) : ascii -> bool :=
  fun c => existsb (Ascii.eqb c) (list_ascii_of_string l).
Definition none_of (l : string) : ascii -> bool := fun c => negb (one_of l c).
Definition either (p q : ascii -> bool) : ascii -> bool := fun c => p c || q c.

Fixpoint strip_lit (icase : bool) (l t : string) : option string :=
  match l, t with
  | EmptyString, _ => Some t
  | String a l', String b t' =>
      if (if icase then Ascii.eqb (PyStr.lower_char a) (PyStr.lower_char b)
          else Ascii.eqb a b)
      then strip_lit icase l' t' else None
  | String _ _, EmptyString => None
  end.

(** [$]: at the end of the text, before a final newline, and with
    MULTILINE before any newline. *)
Definition at_eol (multiline : bool) (t : string) : bool :=
  match t with
  | EmptyString => true
  | String c EmptyString => Ascii.eqb c "010"
  | String c _ => multiline && Ascii.eqb c "010"
  end.

Section Matcher.
Context {A : Type}.

Fixpoint rep_greedy (lo : nat) (p : ascii -> bool) (t : string)
    (k : string -> option A) : option A :=
  let stop := match lo with O => k t | S _ => None end in
  match t with
  | String c t' =>
      if p c then
        match rep_greedy (Nat.pred lo) p t' k with
        | Some x => Some x
        | None => stop
        end
      else stop
  | EmptyString => stop
  end.

Fixpoint rep_lazy (lo : nat) (p : ascii -> bool) (t : string)
    (k : string -> option A) : option A :=
  let more :=
    match t with
    | String c t' => if p c then rep_lazy (Nat.pred lo) p t' k else None
    | EmptyString => None
    end in
  match lo with
  | O => match k t with Some x => Some x | None => more end
  | S _ => more
  end.

Fixpoint run (r : regex) (t : string) (cs : captures)
    (k : string -> captures -> option A) : option A :=
  match r with
  | Emp => k t cs
  | Lit ic l =>
      match strip_lit ic l t with Some t' => k t' cs | None => None end
  | Cls p =>
      match t with
      | String c t' => if p c then k t' cs else None
      | EmptyString => None
      end
  | Rep true lo p => rep_greedy lo p t (fun t' => k t' cs)
  | Rep false lo p => rep_lazy lo p t (fun t' => k t' cs)
  | Opt r1 =>
      match run r1 t cs k with Some x => Some x | None => k t cs end
  | Seq r1 r2 => run r1 t cs (fun t' cs' => run r2 t' cs' k)
  | Alt r1 r2 =>
      match run r1 t cs k with Some x => Some x | None => run r2 t cs k end
  | Grp i r1 =>
      run r1 t cs (fun t' cs' =>
        k t' ((i, PyStr.take (String.length t - String.length t') t) :: cs'))
  | Eol ml => if at_eol ml t then k t cs else None
  end.
End Matcher.

Fixpoint seq (rs : list regex) : regex :=
  match rs with
  | [] => Emp
  | [r] => r
  | r :: rs' => Seq r (seq rs')
  end.

Fixpoint times (n : nat) (r : regex) : regex :=
  match n with
  | O => Emp
  | S n' => Seq r (times n' r)
  end.

(** One attempt at the start of [t]: the captures (group 0 is the whole
    match) and the text left after the match. *)
Definition match_here (r : regex) (t : string) : option (captures * string) :=
  run (Grp 0 r) t [] (fun t' cs => Some (cs, t')).

(** [re.match]: anchored at the start. *)
Definition rmatch (r : regex) (t : string) : option captures :=
  fst <$> match_here r t.

(** [re.search]: the leftmost start position that matches. *)
Fixpoint search (r : regex) (t : string) : option captures :=
  match match_here r t with
  | Some (cs, _) => Some cs
  | None =>
      match t with
      | String _ t' => search r t'
      | EmptyString => None
      end
  end.

(** [re.findall] for a pattern with two groups and no empty match: the
    pairs (group 1, group 2) of the successive non-overlapping matches. *)
Fixpoint findall2_go (fuel : nat) (r : regex) (t : string) : list (string * string) :=
  match fuel with
  | O => []
  | S fuel' =>
      match match_here r t with
      | Some (cs, t') =>
          let hit := (default EmptyString (group 1 cs), default EmptyString (group 2 cs)) in
          if Nat.ltb (String.length t') (String.length t)
          then hit :: findall2_go fuel' r t'
          else match t with
               | String _ t1 => hit :: findall2_go fuel' r t1
               | EmptyString => [hit]
               end
      | None =>
          match t with
          | String _ t1 => findall2_go fuel' r t1
          | EmptyString => []
          end
      end
  end.

Definition findall2 (r : regex) (t : string) : list (string * string) :=
  findall2_go (S (String.length t)) r t.

(** [re.sub(r, '', t)] for a pattern that matches no empty text: the
    successive non-overlapping matches, leftmost first, are removed. *)
Fixpoint remove_go (fuel : nat) (r : regex) (t : string) : string :=
  match fuel with
  | O => t
  | S fuel' =>
      let skip :=
        match t with
        | String c t1 => String c (remove_go fuel' r t1)
        | EmptyString => EmptyString
        end in
      match match_here r t with
      | Some (_, t') =>
          if Nat.ltb (String.length t') (String.length t) then remove_go fuel' r t' else skip
      | None => skip
      end
  end.

Definition remove (r : regex) (t : string) : string :=
  remove_go (S (String.length t)) r t.

End Re.
(* ===================================================================== *)
(** * Python floats: IEEE-754 binary64 *)
(* ===================================================================== *)

(** A Python exception that the program can meet in the modelled functions. *)
Inductive exn : Type := ValueError | TypeError | OverflowError.

(** The outcome of a call: a returned value or a raised exception. *)
Inductive py (A : Type) : Type :=
| Ret (a : A)
| Raise (e : exn).
Arguments Ret {A} a.
Arguments Raise {A} e.

Module PyFloat.

Definition prec : Z := 53.
Definition emax : Z := 1024.

Definition float : Type := spec_float.

Definition zero : float := S754_zero false.
Definition inf : float := S754_infinity false.
Definition nan : float := S754_nan.

Definition mul : float -> float -> float := SFmul prec emax.
Definition div : float -> float -> float := SFdiv prec emax.
Definition sub : float -> float -> float := SFsub prec emax.
Definition ltb : float -> float -> bool := SFltb.
Definition leb : float -> float -> bool := SFleb.
Definition eqb : float -> float -> bool := SFeqb.
(** [x >= y] *)
Definition geb (x y : float) : bool := SFleb y x.

(** The nearest float to an integer (ties to even). *)
Definition of_Z (n : Z) : float := binary_normalize prec emax n 0 false.

(** [float(n)] for a Python integer: too large a magnitude raises. *)
Definition of_int (n : Z) : py float :=
  match of_Z n with
  | S754_infinity _ => Raise OverflowError
  | x => Ret x
  end.

(** The nearest float to [n / d] (ties to even). *)
Definition of_ratio (neg : bool) (n d : positive) : float :=
  let '(q, e, l) := SFdiv_core_binary prec emax (Zpos n) 0 (Zpos d) 0 in
  binary_round_aux prec emax neg q e l.

(** The nearest float to [n * 10^e], the value of a decimal numeral. *)
Definition of_decimal (neg : bool) (n : Z) (e : Z) : float :=
  match n with
  | Zpos p =>
      if 0 <=? e then binary_normalize prec emax (cond_Zopp neg (Zpos p * 10 ^ e)) 0 false
      else of_ratio neg p (Z.to_pos (10 ^ (- e)))
  | _ => S754_zero neg
  end.

(** ** [float(text)] *)

(** A digit part [digit (_? digit)*], read into the accumulator; returns the
    accumulator, the number of digits read and the rest of the text. *)
Fixpoint digitpart (started : bool) (acc : Z) (n : nat) (t : string)
    : Z * nat * string :=
  match t with
  | String c r =>
      if PyStr.isdigit c then digitpart true (10 * acc + PyStr.digit_val c) (S n) r
      else if Ascii.eqb c "_" && started then
        match r with
        | String c2 r2 =>
            if PyStr.isdigit c2
            then digitpart true (10 * acc + PyStr.digit_val c2) (S n) r2
            else (acc, n, t)
        | EmptyString => (acc, n, t)
        end
      else (acc, n, t)
  | EmptyString => (acc, n, t)
  end.

Definition take_sign (t : string) : bool * string :=
  match t with
  | String "-" r => (true, r)
  | String "+" r => (false, r)
  | _ => (false, t)
  end.

(** The exponent part, if any: [None] when it is malformed. *)
Definition exponent (t : string) : option (Z * string) :=
  match t with
  | String c r =>
      if Ascii.eqb c "e" || Ascii.eqb c "E" then
        let '(neg, r1) := take_sign r in
        match digitpart false 0 0 r1 with
        | (_, O, _) => None
        | (v, S _, r2) => Some (cond_Zopp neg v, r2)
        end
      else Some (0, t)
  | EmptyString => Some (0, t)
  end.

(** The fraction part, if any, read on after the integer part [ip]. *)
Definition fraction (ip : Z) (t : string) : Z * nat * string :=
  match t with
  | String c r => if Ascii.eqb c "." then digitpart false ip 0 r else (ip, O, t)
  | EmptyString => (ip, O, t)
  end.

Definition of_string (text : string) : option float :=
  let '(neg, t) := take_sign (PyStr.strip text) in
  let low := PyStr.lower t in
  if String.eqb low "inf" || String.eqb low "infinity" then Some (S754_infinity neg)
  else if String.eqb low "nan" then Some S754_nan
  else
    let '(ip, ni, r1) := digitpart false 0 0 t in
    let '(v, nf, r2) := fraction ip r1 in
    match (ni + nf)%nat with
    | O => None
    | S _ =>
        match exponent r2 with
        | Some (ex, EmptyString) => Some (of_decimal neg v (ex - Z.of_nat nf))
        | _ => None
        end
    end.

(** ** [int(x)] *)
Definition to_int (x : float) : py Z :=
  match x with
  | S754_nan => Raise ValueError
  | S754_infinity _ => Raise OverflowError
  | S754_zero _ => Ret 0
  | S754_finite s m e =>
      Ret (cond_Zopp s (if 0 <=? e then Zpos m * 2 ^ e else Zpos m / 2 ^ (- e)))
  end.

(** ** Decimal output *)

(** [n / d] rounded to the nearest integer, ties to even. *)
Definition round_half_even (n d : Z) : Z :=
  let q := n / d in
  let r := n mod d in
  match 2 * r ?= d with
  | Lt => q
  | Gt => q + 1
  | Eq => if Z.even q then q else q + 1
  end.

Fixpoint zeros (n : nat) : string :=
  match n with
  | O => EmptyString
  | S n' => String "0" (zeros n')
  end.

(** [n] in decimal, padded on the left with zeros to [w] digits. *)
Definition pad (w : nat) (n : Z) : string :=
  let t := PyStr.of_Z n in
  zeros (w - String.length t) +:+ t.

Definition sign_text (s : bool) : string := if s then "-" else "".

(** The digits of [|x| * 10^nd] to the nearest integer, for finite [x]. *)
Definition scaled_round (nd : nat) (m : positive) (e : Z) : Z :=
  if 0 <=? e then Zpos m * 2 ^ e * 10 ^ Z.of_nat nd
  else round_half_even (Zpos m * 10 ^ Z.of_nat nd) (2 ^ (- e)).

Definition fixed_text (s : bool) (nd : nat) (r : Z) : string :=
  sign_text s +:+ PyStr.of_Z (r / 10 ^ Z.of_nat nd) +:+
  match nd with
  | O => EmptyString
  | S _ => "." +:+ pad nd (r mod 10 ^ Z.of_nat nd)
  end.

(** [f"{x:.<nd>f}"] *)
Definition format_fixed (nd : nat) (x : float) : string :=
  match x with
  | S754_nan => "nan"
  | S754_infinity s => sign_text s +:+ "inf"
  | S754_zero s => fixed_text s nd 0
  | S754_finite s m e => fixed_text s nd (scaled_round nd m e)
  end.

(** [round(x, nd)]: the float nearest to the [nd]-decimal rendering. *)
Definition round_to (nd : nat) (x : float) : float :=
  match x with
  | S754_finite s m e => of_decimal s (scaled_round nd m e) (- Z.of_nat nd)
  | _ => x
  end.

(** ** [repr(x)], which is also [str(x)] and what an f-string prints *)

(** The number of decimal digits of a positive integer. *)
Fixpoint ndigits10 (fuel : nat) (q : Z) : Z :=
  match fuel with
  | O => 0
  | S f => if q <? 10 then 1 else 1 + ndigits10 f (q / 10)
  end.

(** The least [j >= j0] with [num * 10^(j - j0) >= den]. *)
Fixpoint lead_zeros (fuel : nat) (num den j0 : Z) : Z :=
  match fuel with
  | O => j0
  | S f => if den <=? num then j0 else lead_zeros f (num * 10) den (j0 + 1)
  end.

(** The decimal point position [k] of [num / den > 0]:
    [10^(k-1) <= num / den < 10^k].  The fuel covers every binary64. *)
Definition decpt_of (num den : Z) : Z :=
  if den <=? num then ndigits10 400 (num / den)
  else 1 - lead_zeros 400 (num * 10) den 1.

(** The [n]-digit decimals next to [num / den]: the nearest one (ties to
    even) first, then its neighbour on the other side. *)
Definition neighbours (num den k : Z) (n : Z) : list Z :=
  let p := n - k in
  let '(a, b) := if 0 <=? p then (num * 10 ^ p, den) else (num, den * 10 ^ (- p)) in
  let q := a / b in
  let r := a mod b in
  if r =? 0 then [q]
  else match 2 * r ?= b with
       | Lt => [q; q + 1]
       | Gt => [q + 1; q]
       | Eq => if Z.even q then [q; q + 1] else [q + 1; q]
       end.

(** The shortest decimal [D * 10^(k - n)] that reads back as [x]. *)
Fixpoint shortest (x : float) (num den k : Z) (ns : list Z) : Z * Z :=
  match ns with
  | [] => (round_half_even (num * 10 ^ (17 - Z.min k 17)) (den * 10 ^ (Z.max k 17 - 17)), k - 17)
  | n :: ns' =>
      match filter (fun D => eqb (of_decimal false D (k - n)) x) (neighbours num den k n) with
      | D :: _ => (D, k - n)
      | [] => shortest x num den k ns'
      end
  end.

Fixpoint strip_zeros (fuel : nat) (D e : Z) : Z * Z :=
  match fuel with
  | O => (D, e)
  | S f => if (D mod 10 =? 0) && (0 <? D) then strip_zeros f (D / 10) (e + 1) else (D, e)
  end.

(** The layout of [repr]: plain notation when the decimal point position
    lies in (-4, 16], exponent notation otherwise. *)
Definition layout (ds : string) (decpt : Z) : string :=
  let nd := Z.of_nat (String.length ds) in
  if (-4 <? decpt) && (decpt <=? 16) then
    if decpt <=? 0 then "0." +:+ zeros (Z.to_nat (- decpt)) +:+ ds
    else if nd <=? decpt then ds +:+ zeros (Z.to_nat (decpt - nd)) +:+ ".0"
    else PyStr.take (Z.to_nat decpt) ds +:+ "." +:+
         String.substring (Z.to_nat decpt) (Z.to_nat (nd - decpt)) ds
  else
    let ex := decpt - 1 in
    let mant :=
      match ds with
      | String c EmptyString => ds
      | String c r => String c ("." +:+ r)
      | EmptyString => ds
      end in
    mant +:+ "e" +:+ (if ex <? 0 then "-" else "+") +:+ pad 2 (Z.abs ex).

Definition repr (x : float) : string :=
  match x with
  | S754_nan => "nan"
  | S754_infinity s => sign_text s +:+ "inf"
  | S754_zero s => sign_text s +:+ "0.0"
  | S754_finite s m e =>
      let '(num, den) := if 0 <=? e then (Zpos m * 2 ^ e, 1) else (Zpos m, 2 ^ (- e)) in
      let k := decpt_of num den in
      let '(D0, e0) := shortest (S754_finite false m e) num den k
                         [1;2;3;4;5;6;7;8;9;10;11;12;13;14;15;16;17] in
      let '(D, e1) := strip_zeros 20 D0 e0 in
      let ds := PyStr.of_Z D in
      sign_text s +:+ layout ds (e1 + Z.of_nat (String.length ds))
  end.

End PyFloat.


(** [int(text)]: blanks stripped, an optional sign, decimal digits with
    single underscores between them; [None] stands for [ValueError]. *)
Module PyInt.
Definition of_string (text : string) : option Z :=
  let '(neg, t) := PyFloat.take_sign (PyStr.strip text) in
  match PyFloat.digitpart false 0 0 t with
  | (v, S _, EmptyString) => Some (cond_Zopp neg v)
  | _ => None
  end.
End PyInt.

(** Exceptions propagate through sequenced calls. *)
#[global] Instance py_ret : MRet py := fun _ a => Ret a.
#[global] Instance py_bind : MBind py := fun _ _ f m =>
  match m with
  | Ret a => f a
  | Raise e => Raise e
  end.


(* ===================================================================== *)
(** * Python values decoded from JSON *)
(* ===================================================================== *)

(** The disk list comes from [json.loads]: a field of a disk is whatever
    the document holds, a text, a number, a null, a list or an object. *)
Module PyValue.

#[warnings="-register-all"] Inductive value : Type :=
| Null                                  (* None *)
| Bool (b : bool)
| Int (n : Z)
| Float (x : spec_float)
| Str (s : string)
| Arr (l : list value)                  (* a list *)
| Obj (d : list (string * value)).      (* a dict, in the order of the document *)

(** The exceptions that the operations on a value raise. *)
Inductive error : Type := Type_error | Attribute_error.

Inductive outcome (A : Type) : Type :=
| Returns (a : A)
| Raises (e : error).
Arguments Returns {A} a.
Arguments Raises {A} e.

(** [sub in v]: a substring test on a text, a membership test on a list
    and on the keys of a dict; the other values are not iterable. *)
Definition contains (sub : string) (v : value) : outcome bool :=
  match v with
  | Str s => Returns (PyStr.contains sub s)
  | Arr l =>
      Returns (existsb (fun x => match x with Str t => String.eqb sub t | _ => false end) l)
  | Obj d => Returns (existsb (fun kv => String.eqb sub (fst kv)) d)
  | Null | Bool _ | Int _ | Float _ => Raises Type_error
  end.

(** [v.startswith(p)] and [v.upper()]: methods of a text only. *)
Definition startswith (p : string) (v : value) : outcome bool :=
  match v with
  | Str s => Returns (PyStr.startswith p s)
  | _ => Raises Attribute_error
  end.

Definition upper (v : value) : outcome string :=
  match v with
  | Str s => Returns (PyStr.upper s)
  | _ => Raises Attribute_error
  end.

(** [v.get(key, default)]: the value of the key, of its last occurrence in
    the document, and the default when the dict has no such key; a key
    that holds null gives null. *)
Definition get (key : string) (default : value) (v : value) : outcome value :=
  match v with
  | Obj d =>
      Returns (fold_left (fun found kv => if String.eqb key (fst kv) then snd kv else found)
                         d default)
  | _ => Raises Attribute_error
  end.

End PyValue.

#[global] Instance outcome_ret : MRet PyValue.outcome := fun _ a => PyValue.Returns a.
#[global] Instance outcome_bind : MBind PyValue.outcome := fun _ _ f m =>
  match m with
  | PyValue.Returns a => f a
  | PyValue.Raises e => PyValue.Raises e
  end.
(* ===================================================================== *)
(** * The program *)
(* ===================================================================== *)

Import PyFloat.

(** ** [format_hours] *)

Definition format_hours (hours_str : string) : string :=
  match PyInt.of_string hours_str with
  | Some hours =>
      let years := hours / (365 * 24) in
      let hours := hours mod (365 * 24) in
      let months := hours / (30 * 24) in
      let hours := hours mod (30 * 24) in
      let days := hours / 24 in
      let hours := hours mod 24 in
      let result : list string := [] in
      let result := if 0 <? years then result ++ [PyStr.of_Z years +:+ "y"] else result in
      let result := if 0 <? months then result ++ [PyStr.of_Z months +:+ "m"] else result in
      let result := if 0 <? days then result ++ [PyStr.of_Z days +:+ "d"] else result in
      let result :=
        if (0 <? hours) || (match result with [] => true | _ => false end)
        then result ++ [PyStr.of_Z hours +:+ "hrs"] else result in
      PyStr.join " " result
  | None => hours_str     (* except (ValueError, TypeError) *)
  end.

(** ** [format_size] *)

Definition units : list string := ["B"; "KB"; "MB"; "GB"; "TB"; "PB"].

Definition unit_at (unit_index : nat) : string := nth unit_index units "".

Definition f1024 : float := of_Z 1024.
Definition f1000 : float := of_Z 1000.
Definition f100 : float := of_Z 100.
Definition f10 : float := of_Z 10.

(** [while size >= 1024 and unit_index < len(units) - 1]: each turn raises
    [unit_index], so [len(units) - 1] turns are enough (see
    [climb_exits]). *)
Fixpoint climb (turns : nat) (size : float) (unit_index : nat) : float * nat :=
  match turns with
  | O => (size, unit_index)
  | S turns' =>
      if geb size f1024 && (unit_index <? length units - 1)%nat
      then climb turns' (div size f1024) (S unit_index)
      else (size, unit_index)
  end.

(** The two display adjustments that follow the loop, in source order. *)
Definition escalate (st : float * nat) : float * nat :=
  let '(size, unit_index) := st in
  let '(size, unit_index) :=
    if String.eqb (unit_at unit_index) "GB" && geb size f1000
    then (div size f1024, S unit_index) else (size, unit_index) in
  if String.eqb (unit_at unit_index) "MB" && geb size f1000
  then (div size f1024, S unit_index) else (size, unit_index).

(** The argument is the value of [float(size_bytes)]. *)
Definition format_size (size_bytes : float) : py string :=
  let '(size, unit_index) := escalate (climb (length units - 1) size_bytes 0) in
  if ltb size f10 then Ret (format_fixed 2 size +:+ " " +:+ unit_at unit_index)
  else if ltb size f100 then Ret (format_fixed 1 size +:+ " " +:+ unit_at unit_index)
  else
    match to_int size with
    | Ret n => Ret (PyStr.of_Z n +:+ " " +:+ unit_at unit_index)
    | Raise OverflowError => Raise OverflowError
    | Raise _ => Ret (repr size_bytes)     (* except (ValueError, TypeError) *)
    end.

(** ** [normalize_size_unit] and [parse_size_to_bytes] *)

(** The size pattern of both functions: group 1 is [\d+\.?\d*], then [\s*],
    and group 2 is [[KMGTP]?B]. *)
Definition size_re : Re.regex :=
  Re.seq [Re.Grp 1 (Re.seq [Re.Rep true 1 Re.d; Re.Opt (Re.Lit false "."); Re.Rep true 0 Re.d]);
          Re.Rep true 0 Re.s;
          Re.Grp 2 (Re.seq [Re.Opt (Re.Cls (Re.one_of "KMGTP")); Re.Lit false "B"])].

(** The table [units] / [multipliers] of the two functions. *)
Definition multipliers : list (string * Z) :=
  [("B", 1); ("KB", 1024); ("MB", 1024 ^ 2); ("GB", 1024 ^ 3);
   ("TB", 1024 ^ 4); ("PB", 1024 ^ 5)].

Fixpoint lookup_unit (u : string) (tbl : list (string * Z)) : option Z :=
  match tbl with
  | [] => None
  | (k, v) :: r => if String.eqb u k then Some v else lookup_unit u r
  end.

(** The two captured groups of [size_re], the first one as a float. *)
Definition size_groups (cs : Re.captures) : py (float * string) :=
  match of_string (default "" (Re.group 1 cs)) with
  | Some value => Ret (value, PyStr.upper (default "" (Re.group 2 cs)))
  | None => Raise ValueError
  end.

(** The last three lines: a bare number is taken as a byte count. *)
Definition normalize_plain (size_str : string) : py string :=
  match of_string size_str with
  | Some v =>
      match format_size v with
      | Raise OverflowError => Raise OverflowError
      | Raise _ => Ret size_str
      | r => r
      end
  | None => Ret size_str
  end.

Definition normalize_size_unit (size_str : string) : py string :=
  if String.eqb size_str "" then Ret "N/A"
  else
    match Re.rmatch size_re size_str with
    | Some cs =>
        '(value, unit) ← size_groups cs;
        match lookup_unit unit multipliers with
        | Some mult => format_size (mul value (of_Z mult))
        | None => normalize_plain size_str
        end
    | None => normalize_plain size_str
    end.

Definition parse_size_to_bytes (size_str : string) : option float :=
  if String.eqb size_str "" || String.eqb size_str "N/A" then None
  else
    match Re.rmatch size_re size_str with
    | None => None
    | Some cs =>
        match size_groups cs with
        | Ret (value, unit) =>
            match lookup_unit unit multipliers with
            | Some mult => Some (mul value (of_Z mult))
            | None => Some value
            end
        | Raise _ => None      (* except Exception *)
        end
    end.

(** ** [calculate_size_increment] *)

Definition NOT_AVAILABLE : string := "N/A".
(** The reset marker of the source, two CJK characters. *)
Definition RESET : string := "重置".

Definition calculate_size_increment (old_value new_value : string) : py string :=
  match parse_size_to_bytes old_value, parse_size_to_bytes new_value with
  | Some old_bytes, Some new_bytes =>
      let diff_bytes := sub new_bytes old_bytes in
      if ltb diff_bytes zero then Ret RESET
      else normalize_size_unit (repr diff_bytes)
  | _, _ => Ret NOT_AVAILABLE
  end.

(** ** [classify_disk] *)

(** The arguments are the fields of a disk as [process_disk_info] reads
    them from the decoded list (or from the fallback list, whose fields
    are texts).  [a or b] tests [b] only when [a] is false. *)
Definition classify_disk (disk_name disk_type disk_model : PyValue.value)
    : PyValue.outcome string :=
  vmware ← PyValue.contains "VMware" disk_model;
  virtual ← match vmware with
            | true => PyValue.Returns true
            | false => PyValue.contains "Virtual" disk_model
            end;
  match virtual with
  | true => PyValue.Returns "VIRTUAL"
  | false =>
      nvme ← PyValue.startswith "nvme" disk_name;
      match nvme with
      | true => PyValue.Returns "NVME_SSD"
      | false =>
          type ← PyValue.upper disk_type;
          PyValue.Returns (if String.eqb type "HDD" then "SAS_HDD" else "SAS_SSD")
      end
  end.

(** The three fields as [process_disk_info] reads them from a disk of the
    list: [disk.get("name", "")], [disk.get("type", "")] and
    [disk.get("model", "")]. *)
Definition descriptor (disk : PyValue.value)
    : PyValue.outcome (PyValue.value * PyValue.value * PyValue.value) :=
  disk_name ← PyValue.get "name" (PyValue.Str "") disk;
  disk_type ← PyValue.get "type" (PyValue.Str "") disk;
  disk_model ← PyValue.get "model" (PyValue.Str "") disk;
  PyValue.Returns (disk_name, disk_type, disk_model).

(** ** [get_pool_name_from_zfs] and its use in [process_disk_info] *)

Definition newline : ascii := "010".

Definition structural_keywords : list string := ["mirror"; "raidz1"; "raidz2"; "raidz3"].

(** [disk_name.split('/')[-1]] when the name holds a slash. *)
Definition basename (disk_name : string) : string :=
  if PyStr.contains "/" disk_name
  then List.last (PyStr.split_char "/" disk_name) ""
  else disk_name.

(** One turn of the loop over the lines; the state is [current_pool]
    ([None] at first) and [disk_to_pool]. *)
Definition zfs_line (st : option string * gmap string string) (line : string)
    : option string * gmap string string :=
  let '(current_pool, disk_to_pool) := st in
  let line := PyStr.strip line in
  if PyStr.startswith "pool:" line then
    (Some (PyStr.strip (nth 1 (PyStr.split_once ":" line) "")), disk_to_pool)
  else
    match current_pool with
    | None | Some EmptyString => st                       (* not current_pool *)
    | Some pool =>
        if PyStr.contains "state:" line || PyStr.contains "scan:" line
           || PyStr.contains "config:" line || String.eqb line ""
           || PyStr.startswith "NAME" line
        then st
        else
          match PyStr.split_ws line with
          | part0 :: _ =>
              if negb (PyStr.startswith pool part0)
                 && negb (existsb (String.eqb part0) structural_keywords)
              then (current_pool, <[basename part0 := pool]> disk_to_pool)
              else st
          | [] => st
          end
    end.

Definition zfs_lines (lines : list string) : option string * gmap string string :=
  fold_left zfs_line lines (None, ∅).

(** The argument is what [run_command("zpool status")] returned. *)
Definition get_pool_name_from_zfs (output : option string) : gmap string string :=
  match output with
  | None | Some EmptyString => ∅
  | Some text => snd (zfs_lines (PyStr.split_char newline text))
  end.

(** The pool map of [process_disk_info]: the primary source, and the
    pool-status text when the primary map is empty. *)
Definition process_disk_info_pools (get_pool_info : gmap string string)
    (zpool_status : option string) : gmap string string :=
  if decide (get_pool_info = ∅) then get_pool_name_from_zfs zpool_status
  else get_pool_info.

(** ** SMART extraction: [get_nvme_smart_data] and [get_sata_smart_data] *)

(** The text a command returned, when it returned any: the test
    [if output:] on the result of [run_command]. *)
Definition some_text (o : option string) : option string :=
  match o with
  | Some (String _ _ as t) => Some t
  | _ => None
  end.

Definition nl : string := String newline "".

(** Pieces that recur in the patterns. *)
Definition lit (t : string) : Re.regex := Re.Lit false t.
Definition ilit (t : string) : Re.regex := Re.Lit true t.
Definition sp1 : Re.regex := Re.Rep true 1 Re.s.          (* \s+ *)
Definition sp0 : Re.regex := Re.Rep true 0 Re.s.          (* \s* *)
Definition digits : Re.regex := Re.Rep true 1 Re.d.       (* \d+ *)
Definition lazy_dot : Re.regex := Re.Rep false 0 Re.dot.  (* .*? *)
Definition lazy_any : Re.regex := Re.Rep false 0 Re.any.  (* .*? with DOTALL *)
(** [\d+[,\d]*] *)
Definition grouped_digits : Re.regex :=
  Re.Seq digits (Re.Rep true 0 (Re.either (Re.one_of ",") Re.d)).
(** [\d+\.\d+] *)
Definition decimal : Re.regex := Re.seq [digits; lit "."; digits].

(** The first pattern of the list that is found gives its group 1. *)
Fixpoint first_group (patterns : list Re.regex) (text : string) : option string :=
  match patterns with
  | [] => None
  | p :: ps =>
      match Re.search p text with
      | Some cs => Some (default "" (Re.group 1 cs))
      | None => first_group ps text
      end
  end.

(** [smart_data[key] = value] when a value was found. *)
Definition store (key : string) (value : option string) (smart_data : gmap string string)
    : gmap string string :=
  match value with
  | Some v => <[key := v]> smart_data
  | None => smart_data
  end.

(** The health status, by the substrings of the health report. *)
Definition smart_status (health_output : string) : string :=
  if PyStr.contains "PASSED" health_output then "PASSED"
  else if PyStr.contains "OK" health_output then "OK"
  else if PyStr.contains "FAILED" health_output then "FAILED"
  else "未知".

(** *** NVMe *)

(** [Temperature:\s+(\d+)\s+Celsius] *)
Definition nvme_temp_re : Re.regex :=
  Re.seq [lit "Temperature:"; sp1; Re.Grp 1 digits; sp1; lit "Celsius"].

Definition f273_15 : float := of_decimal false 27315 (-2).

(** The temperature block: a reading above 200 is taken as Kelvin. *)
Definition nvme_temperature (output : string) (smart_data : gmap string string)
    : py (gmap string string) :=
  match Re.search nvme_temp_re output with
  | Some cs =>
      let temp := default "" (Re.group 1 cs) in
      match PyInt.of_string temp with
      | Some t =>
          if 200 <? t then
            t_float ← of_int t;
            let temp_c := round_to 1 (sub t_float f273_15) in
            Ret (<["Temperature" := repr temp_c]> smart_data)
          else Ret (<["Temperature" := temp]> smart_data)
      | None => Raise ValueError
      end
  | None => Ret smart_data
  end.

Definition nvme_warning_re : Re.regex :=
  Re.seq [lit "Warning"; sp1; lit "Comp."; sp1; lit "Temp."; sp1; lit "Threshold:"; sp1;
          Re.Grp 1 digits; sp1; lit "Celsius"].

Definition nvme_critical_re : Re.regex :=
  Re.seq [lit "Critical"; sp1; lit "Comp."; sp1; lit "Temp."; sp1; lit "Threshold:"; sp1;
          Re.Grp 1 digits; sp1; lit "Celsius"].

(** The number of group 1 of the Seagate pattern: [\d+\.?\d*]. *)
Definition number_dot : Re.regex :=
  Re.seq [digits; Re.Opt (lit "."); Re.Rep true 0 Re.d].

(** [hours_patterns] of the NVMe path, matched with IGNORECASE. *)
Definition nvme_hours_patterns : list Re.regex :=
  [Re.seq [ilit "Power On Hours:"; sp1; Re.Grp 1 grouped_digits];
   Re.seq [ilit "Power_On_Hours"; lazy_dot; Re.Grp 1 digits];
   Re.seq [ilit "Accumulated power on time"; lazy_dot; Re.Grp 1 digits;
           Re.Cls (Re.either (Re.one_of ":") Re.s)];
   Re.seq [ilit "number of hours powered up"; sp0; ilit "="; sp0; Re.Grp 1 number_dot]].

(** The dictionary [patterns] of the NVMe path, in its order. *)
Definition nvme_patterns : list (string * Re.regex) :=
  [("Available_Spare", Re.seq [lit "Available Spare:"; sp1; Re.Grp 1 digits; lit "%"]);
   ("Percentage_Used", Re.seq [lit "Percentage Used:"; sp1; Re.Grp 1 digits; lit "%"]);
   ("Power_Cycles", Re.seq [lit "Power Cycles:"; sp1; Re.Grp 1 grouped_digits])].

(** The label, [\s+], the count as group 1, [\s+], and the bracketed
    size [\[([^\]]+)\]] with its inside as group 2. *)
Definition data_units_re (label : string) : Re.regex :=
  Re.seq [lit label; sp1; Re.Grp 1 grouped_digits; sp1; lit "[";
          Re.Grp 2 (Re.Rep true 1 (Re.none_of "]")); lit "]"].

Definition nvme_data_units (key label output : string) (smart_data : gmap string string)
    : py (gmap string string) :=
  match Re.search (data_units_re label) output with
  | Some cs =>
      v ← normalize_size_unit (PyStr.strip (default "" (Re.group 2 cs)));
      Ret (<[key := v]> smart_data)
  | None => Ret smart_data
  end.

(** The arguments are the results of the three commands, in source order:
    the vendor check, the health report and the full report. *)
Definition get_nvme_smart_data (vendor_check health_output output : option string)
    : py (gmap string string) :=
  let smart_data : gmap string string := ∅ in
  if match some_text vendor_check with
     | Some v => PyStr.contains "0x15ad" v
     | None => false
     end
  then Ret (<["Type" := "虚拟NVMe设备"]> (<["Smart_Status" := "虚拟设备"]> smart_data))
  else
    let smart_data := store "Smart_Status" (smart_status <$> some_text health_output) smart_data in
    match some_text output with
    | None => Ret smart_data
    | Some output =>
        smart_data ← nvme_temperature output smart_data;
        let smart_data :=
          store "Warning_Temperature" (first_group [nvme_warning_re] output) smart_data in
        let smart_data :=
          store "Critical_Temperature" (first_group [nvme_critical_re] output) smart_data in
        let smart_data :=
          store "Power_On_Hours"
                (PyStr.remove_char "," <$> first_group nvme_hours_patterns output) smart_data in
        let smart_data :=
          fold_left (fun sd kp =>
                       store (fst kp) (PyStr.remove_char "," <$> first_group [snd kp] output) sd)
                    nvme_patterns smart_data in
        smart_data ← nvme_data_units "Data_Read" "Data Units Read:" output smart_data;
        smart_data ← nvme_data_units "Data_Written" "Data Units Written:" output smart_data;
        Ret smart_data
    end.

(** *** SAS/SATA *)

Definition sata_temp_patterns : list Re.regex :=
  [Re.seq [lit "Current Drive Temperature:"; sp1; Re.Grp 1 digits; sp1; lit "C"];
   Re.seq [lit "Temperature:"; sp1; Re.Grp 1 digits; sp1; lit "Celsius"];
   Re.seq [lit "Temperature_Celsius"; lazy_dot; Re.Grp 1 digits];
   Re.seq [lit "Temperature"; lazy_dot; Re.Grp 1 digits]].

Definition sata_trip_patterns : list Re.regex :=
  [Re.seq [lit "Drive Trip Temperature:"; sp1; Re.Grp 1 digits; sp1; lit "C"];
   Re.seq [lit "Warning"; sp1; lit "Comp."; sp1; lit "Temp."; sp1; lit "Threshold:"; sp1;
           Re.Grp 1 digits]].

Definition sata_hours_patterns : list Re.regex :=
  [Re.seq [ilit "Power On Hours:"; sp1; Re.Grp 1 grouped_digits];
   Re.seq [ilit "Power_On_Hours"; lazy_dot; Re.Grp 1 digits];
   Re.seq [ilit "Accumulated power on time"; lazy_dot; Re.Grp 1 digits;
           Re.Cls (Re.either (Re.one_of ":") Re.s)];
   Re.seq [ilit "power on time"; lazy_dot; Re.Grp 1 digits; sp1; ilit "hours"];
   Re.seq [ilit "number of hours powered up"; sp0; ilit "="; sp0; Re.Grp 1 number_dot];
   Re.seq [ilit "Accumulated power on time, hours:minutes "; Re.Grp 1 digits; ilit ":"]].

Definition sata_cycles_patterns : list Re.regex :=
  [Re.seq [ilit "Power Cycles:"; sp1; Re.Grp 1 grouped_digits];
   Re.seq [ilit "Power_Cycle_Count"; lazy_dot; Re.Grp 1 digits];
   Re.seq [ilit "Accumulated start-stop cycles:"; sp1; Re.Grp 1 digits];
   Re.seq [ilit "start-stop cycles:"; sp1; Re.Grp 1 digits];
   Re.seq [ilit "Power Cycle Count:"; sp1; Re.Grp 1 digits];
   Re.seq [ilit "Specified cycle count over device lifetime:"; sp1; Re.Grp 1 digits]].

Definition endurance_re : Re.regex :=
  Re.seq [lit "Percentage used endurance indicator:"; sp1; Re.Grp 1 digits; lit "%"].

Definition non_medium_re : Re.regex :=
  Re.seq [lit "Non-medium error count:"; sp1; Re.Grp 1 digits].

(** The head of the error counter log up to the [write:] label, matched
    with DOTALL; [closed] adds the rest of the write row and its newline. *)
Definition error_log_re (closed : bool) : Re.regex :=
  Re.seq ([lit "Error counter log:"; lazy_any; lit "Gigabytes"; sp1; lit "processed";
           lazy_any; lit "errors"; sp0; lit nl; sp0; lit "read:"; lazy_any; lit nl;
           sp0; lit "write:"]
          ++ (if closed then [lazy_any; lit nl] else [])).

(** [\[(\d+)\^(\d+)\s+bytes\]] *)
Definition bytes_unit_re : Re.regex :=
  Re.seq [lit "["; Re.Grp 1 digits; lit "^"; Re.Grp 2 digits; sp1; lit "bytes]"].

(** The unit declared by the table heading: GB unless it says 10^12. *)
Definition table_unit (error_log_text : string) : string :=
  match Re.search bytes_unit_re error_log_text with
  | Some cs =>
      let base := PyInt.of_string (default "" (Re.group 1 cs)) in
      let exponent := PyInt.of_string (default "" (Re.group 2 cs)) in
      if bool_decide (base = Some 10 /\ exponent = Some 9) then "GB"
      else if bool_decide (base = Some 10 /\ exponent = Some 12) then "TB"
      else "GB"
  | None => "GB"
  end.

(** [<row>.*?processed\s+\[[^\]]+\]\s+uncorrected\s*\n], IGNORECASE. *)
Definition row_heading_re (row : string) : Re.regex :=
  Re.seq [ilit row; lazy_dot; ilit "processed"; sp1; ilit "[";
          Re.Rep true 1 (Re.none_of "]"); ilit "]"; sp1; ilit "uncorrected"; sp0; ilit nl].

(** [smart_data[key] = normalize_size_unit(f"{value} {unit}")] for the
    number text [size]. *)
Definition store_size (key size unit : string) (smart_data : gmap string string)
    : py (gmap string string) :=
  match of_string size with
  | Some value =>
      v ← normalize_size_unit (repr value +:+ " " +:+ unit);
      Ret (<[key := v]> smart_data)
  | None => Raise ValueError
  end.

(** The first attempt inside the log section: a row that carries the
    heading words. *)
Definition primary_row (key row error_log_text unit : string)
    (smart_data : gmap string string) : py (gmap string string) :=
  match Re.search (row_heading_re row) error_log_text with
  | Some cs =>
      let line := default "" (Re.group 0 cs) in
      match Re.search (Re.Grp 1 decimal) (hd "" (PyStr.split_char "[" line)) with
      | Some cs1 => store_size key (default "" (Re.group 1 cs1)) unit smart_data
      | None => Ret smart_data
      end
  | None => Ret smart_data
  end.

(** [(read|write):(?:\s+\d+){5}\s+(\d+\.\d+)] *)
Definition column_re : Re.regex :=
  Re.seq [Re.Grp 1 (Re.Alt (lit "read") (lit "write")); lit ":";
          Re.times 5 (Re.Seq sp1 digits); sp1; Re.Grp 2 decimal].

(** [smart_data[key] = normalize_size_unit(str(size_float * 1024**3))] *)
Definition store_gigabytes (key size : string) (smart_data : gmap string string)
    : py (gmap string string) :=
  match of_string size with
  | Some size_float =>
      v ← normalize_size_unit (repr (mul size_float (of_Z (1024 ^ 3))));
      Ret (<[key := v]> smart_data)
  | None => Raise ValueError
  end.

Definition absent (key : string) (smart_data : gmap string string) : bool :=
  bool_decide (smart_data !! key = None).

(** The loop over the rows found by column position. *)
Fixpoint column_rows (rows : list (string * string)) (smart_data : gmap string string)
    : py (gmap string string) :=
  match rows with
  | [] => Ret smart_data
  | (io_type, size) :: rest =>
      smart_data ←
        (if String.eqb io_type "read" && absent "Data_Read" smart_data
         then store_gigabytes "Data_Read" size smart_data
         else if String.eqb io_type "write" && absent "Data_Written" smart_data
         then store_gigabytes "Data_Written" size smart_data
         else Ret smart_data);
      column_rows rest smart_data
  end.

(** The fallback by column position. *)
Definition column_fallback (output : string) (smart_data : gmap string string)
    : py (gmap string string) :=
  if absent "Data_Read" smart_data || absent "Data_Written" smart_data
  then column_rows (Re.findall2 column_re output) smart_data
  else Ret smart_data.

(** The body of [if non_medium_match:]: the error count, the first attempt
    on the log section, and the fallback by column position, all three at
    the indentation of that branch. *)
Definition non_medium_block (output : string) (smart_data : gmap string string)
    : py (gmap string string) :=
  match Re.search non_medium_re output with
  | Some cs =>
      let smart_data := <["Non_Medium_Errors" := default "" (Re.group 1 cs)]> smart_data in
      smart_data ←
        match Re.search (error_log_re false) output with
        | Some sec =>
            let error_log_text := default "" (Re.group 0 sec) in
            let unit := table_unit error_log_text in
            smart_data ← primary_row "Data_Read" "read:" error_log_text unit smart_data;
            primary_row "Data_Written" "write:" error_log_text unit smart_data
        | None => Ret smart_data
        end;
      column_fallback output smart_data
  | None => Ret smart_data
  end.

(** [errors\s*\n.*?(\d+)\s*$] with MULTILINE. *)
Definition uncorrected_re : Re.regex :=
  Re.seq [lit "errors"; sp0; lit nl; lazy_dot; Re.Grp 1 digits; sp0; Re.Eol true].

(** [<row>.*?(\d+\.\d+)\s*$] with MULTILINE. *)
Definition row_trailing_re (row : string) : Re.regex :=
  Re.seq [lit row; lazy_dot; Re.Grp 1 decimal; sp0; Re.Eol true].

Definition trailing_row (key row error_log_text unit : string)
    (smart_data : gmap string string) : py (gmap string string) :=
  match Re.search (row_trailing_re row) error_log_text with
  | Some cs => store_size key (default "" (Re.group 1 cs)) unit smart_data
  | None => Ret smart_data
  end.

(** The last block, at the indentation of the function body. *)
Definition error_log_block (output : string) (smart_data : gmap string string)
    : py (gmap string string) :=
  match Re.search (error_log_re true) output with
  | Some sec =>
      let error_log_text := default "" (Re.group 0 sec) in
      let unit := table_unit error_log_text in
      smart_data ← trailing_row "Data_Read" "read:" error_log_text unit smart_data;
      trailing_row "Data_Written" "write:" error_log_text unit smart_data
  | None => Ret smart_data
  end.

(** The arguments are the health report and the full report.  (The flag
    [is_ssd] of the source is computed and never used.) *)
Definition get_sata_smart_data (health_output output : option string)
    : py (gmap string string) :=
  let smart_data : gmap string string := ∅ in
  let smart_data := store "Smart_Status" (smart_status <$> some_text health_output) smart_data in
  let smart_data :=
    match some_text health_output with
    | Some h =>
        if PyStr.contains "Percentage used endurance indicator:" h
        then store "Percentage_Used" (first_group [endurance_re] h) smart_data
        else smart_data
    | None => smart_data
    end in
  match some_text output with
  | None => Ret smart_data
  | Some output =>
      let smart_data := store "Temperature" (first_group sata_temp_patterns output) smart_data in
      let smart_data :=
        store "Trip_Temperature" (first_group sata_trip_patterns output) smart_data in
      let smart_data :=
        store "Power_On_Hours"
              (PyStr.remove_char "," <$> first_group sata_hours_patterns output) smart_data in
      let smart_data :=
        store "Power_Cycles"
              (PyStr.remove_char "," <$> first_group sata_cycles_patterns output) smart_data in
      smart_data ← non_medium_block output smart_data;
      let smart_data :=
        store "Uncorrected_Errors" (first_group [uncorrected_re] output) smart_data in
      error_log_block output smart_data
  end.

(** ** [get_disks_from_lsblk] *)

(** A disk of the fallback list: the keys [name], [type], [model] and
    [size] of its dictionary. *)
Record Disk : Type := {
  disk_name : string;
  disk_type : string;
  disk_model : string;
  disk_size : string
}.

(** [parts[2:-1]] of a list with three parts or more. *)
Definition middle (parts : list string) : list string := removelast (skipn 2 parts).

(** One turn of the loop over the lines of the listing. *)
Definition lsblk_line (line : string) : option Disk :=
  let parts := PyStr.split_ws line in
  if (3 <=? length parts)%nat then
    let name := nth 0 parts "" in
    let disk_type := if PyStr.contains "nvme" (PyStr.lower name) then "SSD" else "HDD" in
    let model := PyStr.join " " (middle parts) in
    let size := List.last parts "" in
    Some {| disk_name := name; disk_type := disk_type; disk_model := model; disk_size := size |}
  else None.

(** The argument is what [run_command] returned for the [lsblk] line. *)
Definition get_disks_from_lsblk (output : option string) : list Disk :=
  match some_text output with
  | None => []
  | Some output => omap lsblk_line (PyStr.splitlines output)
  end.

(** ** [get_pool_info] *)

(** A device of the decoded pool topology: its fields [disk], [path] and
    [device], each a text; the empty text stands for a field that is
    missing, null or empty, which the tests of the source treat alike. *)
Record Device : Type := {
  dev_disk : string;
  dev_path : string;
  dev_device : string
}.

(** A vdev: its own device fields and its [children]. *)
Record Vdev : Type := {
  vdev_self : Device;
  vdev_children : list Device
}.

(** A pool: its [name] and its [topology], the vdev lists by kind in the
    order of the document. *)
Record Pool : Type := {
  pool_name : string;
  pool_topology : list (string * list Vdev)
}.

(** [p?\d+$] *)
Definition partition_re : Re.regex := Re.seq [Re.Opt (lit "p"); digits; Re.Eol false].

(** The lines that take the name from [path] or [device]. *)
Definition assign_by_path (pool : string) (d : Device) (disk_to_pool : gmap string string)
    : gmap string string :=
  let disk_path := if String.eqb (dev_path d) "" then dev_device d else dev_path d in
  if String.eqb disk_path "" then disk_to_pool
  else
    let disk_name := basename disk_path in
    let base_disk_name := Re.remove partition_re disk_name in
    <[base_disk_name := pool]> disk_to_pool.

(** What the loop does for one child, and after the children for the vdev
    itself: the [disk] field when it is set, the path otherwise. *)
Definition assign_device (pool : string) (disk_to_pool : gmap string string) (d : Device)
    : gmap string string :=
  if String.eqb (dev_disk d) "" then assign_by_path pool d disk_to_pool
  else <[dev_disk d := pool]> disk_to_pool.

Definition assign_vdev (pool : string) (disk_to_pool : gmap string string) (vdev : Vdev)
    : gmap string string :=
  assign_device pool (fold_left (assign_device pool) (vdev_children vdev) disk_to_pool)
                (vdev_self vdev).

Definition assign_pool (disk_to_pool : gmap string string) (pool : Pool)
    : gmap string string :=
  if String.eqb (pool_name pool) "" then disk_to_pool
  else
    fold_left (fun m kind => fold_left (assign_vdev (pool_name pool)) (snd kind) m)
              (pool_topology pool) disk_to_pool.

(** The argument is the decoded answer of [midclt call pool.query], [None]
    when the command returned nothing. *)
Definition get_pool_info (pools_data : option (list Pool)) : gmap string string :=
  match pools_data with
  | None => ∅
  | Some pools => fold_left assign_pool pools ∅
  end.

(** ** [format_value] and the rows of [process_disk_info] *)

(** The attributes by class: the name, the column heading and the unit. *)
Definition DISK_TYPE_ATTRIBUTES : list (string * list (string * string * string)) :=
  [("SAS_SSD",
    [("Temperature", "温度", "°C");
     ("Trip_Temperature", "警告温度", "°C");
     ("Power_On_Hours", "通电时间", "小时");
     ("Power_Cycles", "通电周期", "次");
     ("Percentage_Used", "已用寿命", "%");
     ("Smart_Status", "SMART状态", "");
     ("Data_Read", "已读数据", "");
     ("Data_Written", "已写数据", "");
     ("Non_Medium_Errors", "非介质错误", "个");
     ("Uncorrected_Errors", "未修正错误", "个")]);
   ("SAS_HDD",
    [("Temperature", "温度", "°C");
     ("Trip_Temperature", "警告温度", "°C");
     ("Power_On_Hours", "通电时间", "小时");
     ("Power_Cycles", "通电周期", "次");
     ("Smart_Status", "SMART状态", "");
     ("Data_Read", "已读数据", "");
     ("Data_Written", "已写数据", "");
     ("Non_Medium_Errors", "非介质错误", "个");
     ("Uncorrected_Errors", "未修正错误", "个")]);
   ("NVME_SSD",
    [("Temperature", "温度", "°C");
     ("Warning_Temperature", "警告温度", "°C");
     ("Critical_Temperature", "临界温度", "°C");
     ("Power_On_Hours", "通电时间", "小时");
     ("Power_Cycles", "通电周期", "次");
     ("Percentage_Used", "已用寿命", "%");
     ("Available_Spare", "可用备件", "%");
     ("Smart_Status", "SMART状态", "");
     ("Data_Read", "已读数据", "");
     ("Data_Written", "已写数据", "")]);
   ("VIRTUAL",
    [("Type", "设备类型", "")])].

(** [DISK_TYPE_ATTRIBUTES.get(device_class, [])] *)
Fixpoint attributes_in (tbl : list (string * list (string * string * string)))
    (device_class : string) : list (string * string * string) :=
  match tbl with
  | [] => []
  | (k, v) :: r => if String.eqb device_class k then v else attributes_in r device_class
  end.

Definition attributes_of : string -> list (string * string * string) :=
  attributes_in DISK_TYPE_ATTRIBUTES.

Definition attr_name (a : string * string * string) : string := fst (fst a).
Definition display_name (a : string * string * string) : string := snd (fst a).

(** [None] is the [None] of Python. *)
Definition format_value (value : option string) (attribute : string) : string :=
  match value with
  | None => "N/A"
  | Some value =>
      if String.eqb attribute "Power_On_Hours" then format_hours value else value
  end.

(** [format_value(smart_data.get(attr_name, "N/A"), attr_name)] *)
Definition cell (smart_data : gmap string string) (a : string * string * string) : string :=
  format_value (Some (default "N/A" (smart_data !! attr_name a))) (attr_name a).

(** The read or write increment of a disk: computed when the attribute is
    in the current data and in the entry of the previous run. *)
Definition increment (key : string) (smart_data prev_disk : gmap string string)
    : py string :=
  match smart_data !! key, prev_disk !! key with
  | Some new_value, Some old_value => calculate_size_increment old_value new_value
  | _, _ => Ret "N/A"
  end.

(** The row of one disk, and what is kept of it for the next run. *)
Definition disk_row (name type model formatted_size pool device_class : string)
    (smart_data prev_disk : gmap string string) : py (list string) :=
  let row := [name; type; model; formatted_size; pool] in
  let row := row ++ map (cell smart_data) (attributes_of device_class) in
  read_increment ← increment "Data_Read" smart_data prev_disk;
  let row := row ++ [read_increment] in
  write_increment ← increment "Data_Written" smart_data prev_disk;
  Ret (row ++ [write_increment]).

Definition current_disk_entry (device_class : string) (smart_data : gmap string string)
    : gmap string string :=
  fold_left (fun entry a =>
               if existsb (String.eqb (attr_name a)) ["Data_Read"; "Data_Written"]
               then <[attr_name a := cell smart_data a]> entry else entry)
            (attributes_of device_class) ∅.

Definition base_headers : list string := ["磁盘名称"; "类型"; "型号"; "容量"; "存储池"].

(** The headings of the table of one class. *)
Definition grouped_headers (device_class : string) : list string :=
  base_headers ++ map display_name (attributes_of device_class).

(** The headings of the single table: every heading once, in the order of
    first appearance. *)
Definition all_attributes : list string :=
  fold_left (fun acc a => if existsb (String.eqb (display_name a)) acc
                          then acc else acc ++ [display_name a])
            (concat (map snd DISK_TYPE_ATTRIBUTES)) [].

Definition ungrouped_headers : list string := base_headers ++ all_attributes.

(** [while len(row) < len(headers): row.append("N/A")]: each turn makes the
    row longer, so [len(headers)] turns are enough. *)
Fixpoint pad_row (turns : nat) (headers row : list string) : list string :=
  match turns with
  | O => row
  | S turns' =>
      if (length row <? length headers)%nat
      then pad_row turns' headers (row ++ ["N/A"])
      else row
  end.

(** The row as it is handed to the table: filled, then cut. *)
Definition fit_row (headers row_data : list string) : list string :=
  let row := pad_row (length headers) headers row_data in
  if (length headers <? length row)%nat then firstn (length headers) row else row.

(** The second pass of [process_disk_info], for the table of increments:
    the data of the disk is extracted again, by class. *)
Definition increment_data (device_class : string)
    (nvme sata : py (gmap string string)) : py (gmap string string) :=
  if String.eqb device_class "NVME_SSD" then nvme
  else if negb (String.eqb device_class "VIRTUAL") then sata
  else Ret ∅.

(** The row of a disk in the table of increments, when it has one. *)
Definition increment_row (name type model pool : string) (smart_data : gmap string string)
    : option (list string) :=
  let read_incr := default "N/A" (smart_data !! "Read_Increment") in
  let write_incr := default "N/A" (smart_data !! "Write_Increment") in
  if negb (String.eqb read_incr "N/A") || negb (String.eqb write_incr "N/A")
  then Some [name; type; model; pool;
             default "N/A" (smart_data !! "Data_Read"); read_incr;
             default "N/A" (smart_data !! "Data_Written"); write_incr]
  else None.

(** ** [create_simple_table] *)

(** [max(len(str(row[i])) for row in rows + [headers])]; [None] stands for
    the [IndexError] of a row that has no cell [i]. *)
Definition column_width (table : list (list string)) (i : nat) : option nat :=
  max_list <$> mapM (fun row : list string => PyStr.len <$> row !! i) table.

(** The cells of a line, each filled to the width of its column; [None]
    stands for the [IndexError] of a cell without a column. *)
Fixpoint filled (widths : list nat) (cells : list string) : option (list string) :=
  match cells, widths with
  | [], _ => Some []
  | c :: cells', w :: widths' => (fun l => PyStr.ljust w c :: l) <$> filled widths' cells'
  | _ :: _, [] => None
  end.

Definition create_simple_table (headers : list string) (rows : list (list string))
    : option string :=
  widths ← mapM (column_width (rows ++ [headers])) (seq 0 (length headers));
  header_line ← PyStr.join " | " <$> filled widths headers;
  let separator := PyStr.join "-+-" (map (fun width => PyStr.replicate width "-") widths) in
  lines ← mapM (fun row => PyStr.join " | " <$> filled widths row) rows;
  Some (PyStr.join nl (header_line :: separator :: lines)).
(* ===================================================================== *)
(** * Definitions used to state the properties *)
(* ===================================================================== *)

(** The components that are not zero, each with its suffix. *)
Definition nonzero_parts (l : list (Z * string)) : list string :=
  map (fun p => PyStr.of_Z (fst p) +:+ snd p)
      (filter (fun p => fst p <> 0) l).

Module Classifier.

(** The four classes, the keys of [DEVICE_TYPES]. *)
Inductive DeviceClass : Type := SAS_SSD | SAS_HDD | NVME_SSD | VIRTUAL.

Definition class_name (c : DeviceClass) : string :=
  match c with
  | SAS_SSD => "SAS_SSD"
  | SAS_HDD => "SAS_HDD"
  | NVME_SSD => "NVME_SSD"
  | VIRTUAL => "VIRTUAL"
  end.

Definition virtualization_marker (disk_model : string) : bool :=
  PyStr.contains "VMware" disk_model || PyStr.contains "Virtual" disk_model.

Definition nvme_named (disk_name : string) : bool := PyStr.startswith "nvme" disk_name.

Definition rotational (disk_type : string) : bool :=
  String.eqb (PyStr.upper disk_type) "HDD".

(** The decision in priority order: the marker, then the name, then the
    type, and the default. *)
Definition decide (marker nvme rotates : bool) : DeviceClass :=
  if marker then VIRTUAL
  else if nvme then NVME_SSD
  else if rotates then SAS_HDD
  else SAS_SSD.

End Classifier.

(** [size_bytes] divided [k] times by 1024, the value in unit [k]. *)
Definition scaled (size_bytes : float) (k : nat) : float :=
  Nat.iter k (fun s => div s f1024) size_bytes.

(** The first unit of the ladder in which the value is below 1024, and the
    last unit when there is none. *)
Definition ladder_index (size_bytes : float) : nat :=
  match find (fun k => negb (geb (scaled size_bytes k) f1024)) [0; 1; 2; 3; 4]%nat with
  | Some k => k
  | None => 5%nat
  end.

(** One more unit is taken when the value reads 1000 or more in GB or MB. *)
Definition escalates (k : nat) (s : float) : bool :=
  (String.eqb (unit_at k) "GB" || String.eqb (unit_at k) "MB") && geb s f1000.

Definition final_index (size_bytes : float) : nat :=
  let k := ladder_index size_bytes in
  if escalates k (scaled size_bytes k) then S k else k.

Definition final_value (size_bytes : float) : float :=
  let k := ladder_index size_bytes in
  let s := scaled size_bytes k in
  if escalates k s then div s f1024 else s.

(** The byte count that [normalize_size_unit] reads from its input: a
    labeled size is its number times the multiplier of its unit, a bare
    number is the byte count itself. *)
Inductive byte_count_of (text : string) (b : float) : Prop :=
| labeled_size (cs : Re.captures) (value : float) (unit : string) (mult : Z) :
    Re.rmatch size_re text = Some cs ->
    size_groups cs = Ret (value, unit) ->
    lookup_unit unit multipliers = Some mult ->
    b = mul value (of_Z mult) ->
    byte_count_of text b
| bare_number :
    Re.rmatch size_re text = None ->
    of_string text = Some b ->
    byte_count_of text b.


(** Between and after the two shifts of [binary_round_aux] the mantissa is
    canonical for its exponent, or it is zero at the least exponent. *)
Definition aligned (m e : Z) : Prop :=
  (0 < m /\ fexp prec emax (Zdigits2 m + e) = e) \/ (m = 0 /\ e = -1074).

(** A float that is not zero and has the sign [s]. *)
Definition signed_nonzero (s : bool) (x : float) : Prop :=
  (exists m e, x = S754_finite s m e) \/ x = S754_infinity s.

(** A number, as opposed to an infinity or a NaN. *)
Definition is_finite (x : float) : bool :=
  match x with
  | S754_finite _ _ _ | S754_zero _ => true
  | _ => false
  end.

(** A float in canonical form, the only form the operations produce. *)
Definition valid (x : float) : Prop := valid_binary prec emax x = true.

(** A line of the form [pool: <name>], and the name it gives. *)
Definition is_pool_header (line : string) : bool :=
  PyStr.startswith "pool:" (PyStr.strip line).

Definition header_pool (line : string) : string :=
  PyStr.strip (nth 1 (PyStr.split_once ":" (PyStr.strip line)) "").

(** A pool report as [zpool status] prints it for a healthy mirror of two
    disks. *)
Definition zpool_status_report : string :=
  PyStr.join nl
    ["  pool: tank";
     " state: ONLINE";
     "  scan: scrub repaired 0B in 00:10:12 with 0 errors on Sun Oct  1 00:34:13 2023";
     "config:";
     "";
     "        NAME        STATE     READ WRITE CKSUM";
     "        tank        ONLINE       0     0     0";
     "          mirror-0  ONLINE       0     0     0";
     "            ada0    ONLINE       0     0     0";
     "            ada1    ONLINE       0     0     0";
     "";
     "errors: No known data errors"].

(** The line that ends the report of every pool. *)
Definition errors_line : string := "errors: No known data errors".

(** An NVMe report with the temperature line [temp]. *)
Definition nvme_report (temp : string) : string :=
  PyStr.join nl
    ["SMART/Health Information (NVMe Log 0x02)";
     "Critical Warning:                   0x00";
     "Temperature:                        " +:+ temp +:+ " Celsius";
     "Available Spare:                    100%";
     "Percentage Used:                    2%";
     "Data Units Read:                    1,234,567 [632 GB]";
     "Data Units Written:                 2,345,678 [1.20 TB]";
     "Power Cycles:                       45";
     "Power On Hours:                     1,234";
     "Warning  Comp. Temp. Threshold:     85 Celsius";
     "Critical Comp. Temp. Threshold:     95 Celsius"].

(** The error counter log of a SAS report, as smartctl lays it out: the
    heading runs over three lines and the rows are in columns; [read] and
    [written] are the gigabyte figures of the two rows. *)
Definition error_counter_log (read written : string) : list string :=
  ["Error counter log:";
   "           Errors Corrected by           Total   Correction     Gigabytes    Total";
   "               ECC          rereads/    errors   algorithm      processed    uncorrected";
   "           fast | delayed   rewrites  corrected  invocations   [10^9 bytes]  errors";
   "read:          0        0         0         0          0      " +:+ read +:+ "           0";
   "write:         0        0         0         0          0      " +:+ written +:+ "           0";
   ""].

(** A SAS report with these figures, without or with the line of the
    non-medium error count. *)
Definition sas_report_of (read written : string) (non_medium : bool) : string :=
  PyStr.join nl
    (["Current Drive Temperature:     30 C";
      "Drive Trip Temperature:        65 C";
      "Accumulated power on time, hours:minutes 12345:12"]
     ++ error_counter_log read written
     ++ (if non_medium then ["Non-medium error count:        0"] else [])).

Definition sas_report : bool -> string := sas_report_of "12345.678" "2345.678".

(** A one-line error counter log in the shape that the patterns of the
    log section expect. *)
Definition sas_report_inline : string :=
  PyStr.join nl
    ["Error counter log: Gigabytes processed [10^12 bytes] errors";
     "read:   1.500";
     "write:  9.999";
     ""].

(** The vendor check names a VMware device. *)
Definition is_vmware (vendor_check : option string) : bool :=
  match some_text vendor_check with
  | Some v => PyStr.contains "0x15ad" v
  | None => false
  end.

(** The temperature that the NVMe path is to report for a text: the
    reading, and above 200 the reading less 273.15 to one decimal. *)
Definition kelvin_adjusted (output : string) : option string :=
  match Re.search nvme_temp_re output with
  | Some cs =>
      let temp := default "" (Re.group 1 cs) in
      match PyInt.of_string temp with
      | Some t =>
          Some (if 200 <? t then repr (round_to 1 (sub (of_Z t) f273_15)) else temp)
      | None => None
      end
  | None => None
  end.

(** A step on the attribute map that leaves the key [k] as it is. *)
Definition keeps (k : string)
    (step : gmap string string -> py (gmap string string)) : Prop :=
  forall m m' : gmap string string, step m = Ret m' -> m' !! k = m !! k.

(** The value of an attribute in the outcome of an extraction. *)
Definition attribute (k : string) (r : py (gmap string string)) : py (option string) :=
  m ← r; Ret (m !! k).

(** The last character of a text. *)
Fixpoint last_char (s : string) : option ascii :=
  match s with
  | EmptyString => None
  | String c EmptyString => Some c
  | String _ r => last_char r
  end.

(** The float that a text denotes, NaN when it denotes none. *)
Definition float_of_text (t : string) : float := default nan (of_string t).

(** The attributes of an extraction, as a list. *)
Definition attributes (r : py (gmap string string)) : py (list (string * string)) :=
  m ← r; Ret (map_to_list m).

(* ===================================================================== *)
(** * Definitions used to state the further properties *)
(* ===================================================================== *)

(** The value that a call returned, and [d] when it raised; and whether
    it returned. *)
Definition returned {A : Type} (d : A) (r : py A) : A :=
  match r with
  | Ret a => a
  | Raise _ => d
  end.

Definition returns {A : Type} (r : py A) : bool :=
  match r with
  | Ret _ => true
  | Raise _ => false
  end.

(** The sign bit of a float, [false] for a NaN. *)
Definition sign_of (x : float) : bool :=
  match x with
  | S754_zero s | S754_infinity s | S754_finite s _ _ => s
  | S754_nan => false
  end.

(** Every character of the text is in the class [p]. *)
Fixpoint all_in (p : ascii -> bool) (s : string) : bool :=
  match s with
  | EmptyString => true
  | String c r => p c && all_in p r
  end.

(** The characters of a printed float: digits, the point, the signs, and
    the letters of an exponent, of [inf] and of [nan]. *)
Definition float_char (c : ascii) : bool :=
  PyStr.isdigit c || Re.one_of ".-+einfa" c.

(** The characters of a rendered size: digits, the marks of a float and
    the letters of the units. *)
Definition size_char (c : ascii) : bool :=
  PyStr.isdigit c || Re.one_of ".-+einfa BKMGTP" c.

(** The number that [format_size] prints before the unit: [n] is the
    integer part of the value. *)
Definition number_text (s : float) (n : Z) : string :=
  if ltb s f10 then format_fixed 2 s
  else if ltb s f100 then format_fixed 1 s
  else PyStr.of_Z n.

(** A decimal numeral without sign or exponent: digits, and possibly a
    point followed by digits. *)
Inductive plain_numeral : string -> Prop :=
| numeral_int (ip : string) :
    all_in PyStr.isdigit ip = true -> ip <> "" -> plain_numeral ip
| numeral_frac (ip fp : string) :
    all_in PyStr.isdigit ip = true -> ip <> "" ->
    all_in PyStr.isdigit fp = true -> fp <> "" ->
    plain_numeral (ip +:+ "." +:+ fp).

(** ** The attribute schema *)

(** The keys that the two extraction functions write. *)
Definition sata_keys : list string :=
  ["Smart_Status"; "Percentage_Used"; "Temperature"; "Trip_Temperature";
   "Power_On_Hours"; "Power_Cycles"; "Non_Medium_Errors"; "Data_Read";
   "Data_Written"; "Uncorrected_Errors"].

Definition nvme_keys : list string :=
  ["Smart_Status"; "Type"; "Temperature"; "Warning_Temperature";
   "Critical_Temperature"; "Power_On_Hours"; "Available_Spare";
   "Percentage_Used"; "Power_Cycles"; "Data_Read"; "Data_Written"].

(** The endurance indicator of the health report, when the report has the
    line. *)
Definition endurance_of (health_output : string) : option string :=
  if PyStr.contains "Percentage used endurance indicator:" health_output
  then first_group [endurance_re] health_output else None.

(** A health report with the endurance indicator. *)
Definition sata_health_report : string :=
  PyStr.join nl
    ["SMART Health Status: OK"; "Percentage used endurance indicator: 7%"].

(** ** The pool topology *)




(** The text without a final [p]. *)
Fixpoint drop_p (s : string) : string :=
  match s with
  | EmptyString => EmptyString
  | String c EmptyString => if Ascii.eqb c "p" then EmptyString else s
  | String c r => String c (drop_p r)
  end.

(** The last character of the text is in the class. *)
Definition ends_in (p : ascii -> bool) (s : string) : bool :=
  match last_char s with
  | Some c => p c
  | None => false
  end.


(** An entry of the fallback map is backed by the lines of the report:
    the pool is not empty and is the name given by a [pool:] line; the
    device is the base name of the first token of a line, a token that is
    not a structural keyword and does not begin with the name of the
    pool. *)
Definition backed_by (lines : list string) (dev pool : string) : Prop :=
  pool <> ""
  /\ (exists header,
        In header lines /\ is_pool_header header = true /\ header_pool header = pool)
  /\ (exists line token rest,
        In line lines
        /\ PyStr.split_ws (PyStr.strip line) = token :: rest
        /\ dev = basename token
        /\ PyStr.startswith pool token = false
        /\ ~ In token structural_keywords).

(** ** The plain table *)

(** The length of a table line over columns of these widths: the columns
    and the three characters between two of them. *)
Definition line_width (widths : list nat) : nat :=
  (sum_list widths + 3 * (length widths - 1))%nat.

(** ** Size strings and their byte counts *)

(** The name of the unit of rank [k] in the ladder of sizes, each unit
    1024 times the one before. *)
Definition unit_name (k : nat) : string :=
  match k with
  | 0 => "B" | 1 => "KB" | 2 => "MB" | 3 => "GB" | 4 => "TB" | _ => "PB"
  end%nat.

(** A size string: a number, a blank and the unit of rank [k]. *)
Definition size_text (num : string) (k : nat) : string := num +:+ " " +:+ unit_name k.

(** The byte count of that size string: the number times 1024 to the
    rank of the unit. *)
Definition byte_count (num : string) (k : nat) : float :=
  mul (float_of_text num) (of_Z (1024 ^ Z.of_nat k)).

(** A text without the letter that ends every unit name. *)
Definition unitless (t : string) : bool :=
  all_in (fun c => negb (Ascii.eqb c "B")) t.

(** A text that does not begin with a digit. *)
Definition numberless (t : string) : bool :=
  match t with
  | String c _ => negb (PyStr.isdigit c)
  | EmptyString => true
  end.

(** The rendering of a byte count: its value in the unit of the ladder,
    with the decimals that the value calls for, a blank and the unit; [n]
    is the integer part of the value. *)
Definition rendering (bytes : float) (n : Z) : string :=
  number_text (final_value bytes) n +:+ " " +:+ unit_name (final_index bytes).

(** A continuation, or a pattern, that fails on every text of a class. *)
Definition never {A : Type} (q : ascii -> bool) (k : string -> Re.captures -> option A) : Prop :=
  forall (t : string) (cs : Re.captures), all_in q t = true -> k t cs = None.

Definition fails (q : ascii -> bool) (r : Re.regex) : Prop :=
  forall (A : Type) (k : string -> Re.captures -> option A), never q (fun t cs => Re.run r t cs k).

(* ===================================================================== *)
(** * Checks of the embedding on concrete inputs *)
(* ===================================================================== *)

Module TextChecks.

Example strip_ex : map PyStr.strip ["  pool: tank  "; "ada0"; "   "] = ["pool: tank"; "ada0"; ""].
Proof. reflexivity. Qed.

Example split_ws_ex : PyStr.split_ws "  ada0  ONLINE 0" = ["ada0"; "ONLINE"; "0"].
Proof. reflexivity. Qed.

Example split_char_ex : PyStr.split_char "/" "/dev/ada0" = [""; "dev"; "ada0"].
Proof. reflexivity. Qed.

Example split_once_ex : PyStr.split_once ":" "pool: a:b" = ["pool"; " a:b"].
Proof. reflexivity. Qed.

Example of_Z_ex : map PyStr.of_Z [26301; 0; -7] = ["26301"; "0"; "-7"].
Proof. reflexivity. Qed.

Example int_ex :
  map PyInt.of_string [" 26301 "; "-5"; "1_000"; "3y 21hrs"; "12.5"; ""; "N/A"; "1__0"]
  = [Some 26301; Some (-5); Some 1000; None; None; None; None; None].
Proof. reflexivity. Qed.

(** Greedy and lazy repetition, groups and the leftmost match. *)
Example search_ex :
  Re.group 1 <$> Re.search nvme_temp_re "x Temperature:   45 Celsius" = Some (Some "45")
  /\ first_group sata_temp_patterns "Temperature_Celsius 0x22 100 - 33 (Min 20)" = Some "0"
  /\ first_group sata_hours_patterns "accumulated POWER ON TIME, hours:minutes 12345:12"
     = Some "12345"
  /\ Re.group 0 <$> Re.rmatch size_re "16.0 TB written" = Some (Some "16.0 TB")
  /\ Re.rmatch size_re " 16.0 TB" = None.
Proof. repeat split; vm_compute; reflexivity. Qed.

End TextChecks.

Module FloatChecks.

Example repr_ex : map (fun t => repr (float_of_text t))
    ["26.9"; "0.0"; "1e16"; "123456789012345678"; "0.0001"; "0.00001"; "5e-324";
     "1.7976931348623157e308"; "1125899906842624.25"; "9007199254740993"; "100";
     "0.1"; "1e22"; "1e23"; "8796093022208"; "1_0.5"; " -2.50 "; "1e400"; "NaN";
     "1125899906842624.75"; "2.2250738585072014e-308"; "4.35"; "9.5367431640625e-07";
     "123456.789e3"]
  = ["26.9"; "0.0"; "1e+16"; "1.2345678901234568e+17"; "0.0001"; "1e-05"; "5e-324";
     "1.7976931348623157e+308"; "1125899906842624.2"; "9007199254740992.0"; "100.0";
     "0.1"; "1e+22"; "1e+23"; "8796093022208.0"; "10.5"; "-2.5"; "inf"; "nan";
     "1125899906842624.8"; "2.2250738585072014e-308"; "4.35"; "9.5367431640625e-07";
     "123456789.0"].
Proof. vm_compute. reflexivity. Qed.

Example of_string_rejects :
  map of_string ["1_"; "_1"; "."; "1e"; "12 GB"; ""; "1..2"; "0x10"; "--1"]
  = [None; None; None; None; None; None; None; None; None].
Proof. vm_compute. reflexivity. Qed.

Example format_fixed_ex :
  map (fun t => format_fixed 2 (float_of_text t))
      ["9.999"; "1"; "0.125"; "0.375"; "2.675"; "-0.001"]
  = ["10.00"; "1.00"; "0.12"; "0.38"; "2.67"; "-0.00"]
  /\ map (fun t => format_fixed 1 (float_of_text t)) ["99.96"; "0.25"; "0.35"; "16"]
     = ["100.0"; "0.2"; "0.3"; "16.0"].
Proof. split; vm_compute; reflexivity. Qed.

Example kelvin_ex : repr (round_to 1 (sub (of_Z 300) f273_15)) = "26.9".
Proof. vm_compute. reflexivity. Qed.

Example subtraction_ex :
  repr (sub (float_of_text "0.3") (float_of_text "0.1")) = "0.19999999999999998".
Proof. vm_compute. reflexivity. Qed.

End FloatChecks.

Module ProgramChecks.

Example format_hours_ex :
  map format_hours ["26301"; "0"; "24"; "8760"; "9505"; "-5"; "N/A"; "12.5"]
  = ["3y 21hrs"; "0hrs"; "1d"; "1y"; "1y 1m 1d 1hrs"; "12m 4d 19hrs"; "N/A"; "12.5"].
Proof. vm_compute. reflexivity. Qed.

Example normalize_size_unit_ex : map normalize_size_unit
    ["1099511627776"; "16.0 TB"; "9.999"; "10.00 B"; "1000 MB"; "1000 GB"; "1023 KB";
     "abc"; ""; "5 GB extra"; "nan"; "1.5e3"; "-5"; "5000 PB"; "0"; "99.96 KB"]
  = map Ret ["1.00 TB"; "16.0 TB"; "10.00 B"; "10.0 B"; "0.98 GB"; "0.98 TB"; "1023 KB";
     "abc"; "N/A"; "5.00 GB"; "nan"; "1.46 KB"; "-5.00 B"; "5000 PB"; "0.00 B"; "100.0 KB"].
Proof. vm_compute. reflexivity. Qed.

(** [int(inf)] raises [OverflowError], which no handler of the two
    functions catches. *)
Example normalize_size_unit_overflow : normalize_size_unit "inf" = Raise OverflowError.
Proof. vm_compute. reflexivity. Qed.

Example calculate_size_increment_ex :
  map (fun p => calculate_size_increment (fst p) (snd p))
    [("10 TB", "2 TB"); ("2 TB", "10 TB"); ("5 GB", "5 GB"); ("N/A", "5 GB");
     ("1.5 GB", "1.6 GB"); ("", "5 GB"); ("5 GB", "five")]
  = map Ret [RESET; "8.00 TB"; "0.00 B"; "N/A"; "102 MB"; "N/A"; "N/A"].
Proof. vm_compute. reflexivity. Qed.

Example classify_disk_ex :
  map (fun '(n, t, m) => classify_disk (PyValue.Str n) (PyValue.Str t) (PyValue.Str m))
    [("nvme0n1", "SSD", "VMware Virtual NVMe"); ("nvme0n1", "SSD", "Samsung");
     ("sda", "hdd", "ST8000"); ("sda", "SSD", "Micron"); ("da0", "", "")]
  = map PyValue.Returns ["VIRTUAL"; "NVME_SSD"; "SAS_HDD"; "SAS_SSD"; "SAS_SSD"].
Proof. vm_compute. reflexivity. Qed.

Example get_nvme_smart_data_ex :
  attributes (get_nvme_smart_data None (Some "SMART overall-health: PASSED")
                (Some (nvme_report "300")))
  = Ret [("Warning_Temperature", "85"); ("Smart_Status", "PASSED");
         ("Critical_Temperature", "95"); ("Available_Spare", "100");
         ("Temperature", "26.9"); ("Data_Written", "1.20 TB"); ("Data_Read", "632 GB");
         ("Power_On_Hours", "1234"); ("Power_Cycles", "45"); ("Percentage_Used", "2")].
Proof. vm_compute. reflexivity. Qed.

Example get_sata_smart_data_ex :
  attributes (get_sata_smart_data (Some "SMART Health Status: OK") (Some (sas_report true)))
  = Ret [("Smart_Status", "OK"); ("Uncorrected_Errors", "0"); ("Non_Medium_Errors", "0");
         ("Temperature", "30"); ("Trip_Temperature", "65"); ("Data_Written", "2.29 TB");
         ("Data_Read", "12.1 TB"); ("Power_On_Hours", "12345")]
  /\ attributes (get_sata_smart_data None (Some sas_report_inline))
     = Ret [("Uncorrected_Errors", "500"); ("Data_Written", "10.00 TB");
            ("Data_Read", "1.50 TB")].
Proof. split; vm_compute; reflexivity. Qed.

End ProgramChecks.

(* ===================================================================== *)
(** * Facts about binary64 arithmetic *)
(* ===================================================================== *)

(** The operations of [SpecFloat] at precision 53 with exponents up to 1024:
    rounding produces canonical floats, and the sign of a difference of
    canonical floats is the comparison of its operands. *)
Section Binary64.

Lemma fexp_eq (x : Z) : fexp prec emax x = Z.max (x - 53) (-1074).
Proof. reflexivity. Qed.

(** Arithmetic over [fexp], once it is written with [Z.max]. *)
Ltac fexp_arith := rewrite ?fexp_eq in *; lia.

Lemma digits2_size (m : positive) : digits2_pos m = Pos.size m.
Proof. induction m; simpl; congruence. Qed.

Lemma Zdigits2_log2 (m : Z) : 0 < m -> Zdigits2 m = Z.log2 m + 1.
Proof.
  destruct m as [|p|p]; try lia. intros _. simpl. rewrite digits2_size.
  destruct p; simpl; lia.
Qed.

Lemma digits2_log2 (m : positive) : Zpos (digits2_pos m) = Z.log2 (Zpos m) + 1.
Proof. apply (Zdigits2_log2 (Zpos m)). lia. Qed.

Lemma shr_1_m (mrs : shr_record) :
  0 <= shr_m mrs -> shr_m (shr_1 mrs) = shr_m mrs / 2.
Proof.
  destruct mrs as [m r s]. simpl. intros Hm. rewrite <- Z.div2_div.
  destruct m as [|[p|p|]|p]; try reflexivity; lia.
Qed.

Lemma pow2_xI (p : positive) : 2 ^ Zpos p~1 = 2 * (2 ^ Zpos p * 2 ^ Zpos p).
Proof.
  rewrite (Pos2Z.inj_xI p). replace (2 * Zpos p + 1) with (Zpos p + Zpos p + 1) by lia.
  rewrite !Z.pow_add_r by lia. ring.
Qed.

Lemma pow2_xO (p : positive) : 2 ^ Zpos p~0 = 2 ^ Zpos p * 2 ^ Zpos p.
Proof.
  rewrite (Pos2Z.inj_xO p). replace (2 * Zpos p) with (Zpos p + Zpos p) by lia.
  rewrite !Z.pow_add_r by lia. ring.
Qed.

Lemma iter_shr_1_m (p : positive) (mrs : shr_record) :
  0 <= shr_m mrs -> shr_m (SpecFloat.iter_pos shr_1 p mrs) = shr_m mrs / 2 ^ Zpos p.
Proof.
  revert mrs. induction p as [p IH|p IH|]; intros mrs Hm; simpl SpecFloat.iter_pos.
  - assert (H1 : 0 <= shr_m (shr_1 mrs))
      by (rewrite shr_1_m by assumption; apply Z.div_pos; lia).
    assert (H2 : 0 <= shr_m (SpecFloat.iter_pos shr_1 p (shr_1 mrs)))
      by (rewrite IH by assumption; apply Z.div_pos; lia).
    rewrite IH, IH, shr_1_m by assumption.
    rewrite !Z.div_div by lia.
    rewrite pow2_xI. reflexivity.
  - assert (H2 : 0 <= shr_m (SpecFloat.iter_pos shr_1 p mrs))
      by (rewrite IH by assumption; apply Z.div_pos; lia).
    rewrite IH, IH by assumption.
    rewrite !Z.div_div by lia.
    rewrite pow2_xO. reflexivity.
  - rewrite shr_1_m by assumption. reflexivity.
Qed.

Lemma shr_record_of_loc_m (m : Z) (l : location) : shr_m (shr_record_of_loc m l) = m.
Proof. destruct l as [|[]]; reflexivity. Qed.

(** What [shr_fexp] does to a mantissa that is not negative. *)
Lemma shr_fexp_spec (m e : Z) (l : location) :
  0 <= m ->
  let n := Z.max 0 (fexp prec emax (Zdigits2 m + e) - e) in
  shr_m (fst (shr_fexp prec emax m e l)) = m / 2 ^ n
  /\ snd (shr_fexp prec emax m e l) = e + n.
Proof.
  intros Hm n. unfold shr_fexp, shr. subst n.
  destruct (fexp prec emax (Zdigits2 m + e) - e) as [|p|p] eqn:E; simpl fst; simpl snd.
  - rewrite shr_record_of_loc_m. simpl. rewrite Z.div_1_r. lia.
  - rewrite iter_shr_1_m by (rewrite shr_record_of_loc_m; assumption).
    rewrite shr_record_of_loc_m.
    replace (Z.max 0 (Z.pos p)) with (Z.pos p) by lia. split; reflexivity.
  - rewrite shr_record_of_loc_m. replace (Z.max 0 (Z.neg p)) with 0 by lia.
    simpl. rewrite Z.div_1_r. lia.
Qed.

Lemma Zdigits2_0 : Zdigits2 0 = 0.
Proof. reflexivity. Qed.

Lemma Zdigits2_nonneg (m : Z) : 0 <= Zdigits2 m.
Proof. destruct m; simpl; lia. Qed.

(** Digits after a right shift. *)
Lemma Zdigits2_shift (m n : Z) :
  0 < m -> 0 <= n -> 0 < m / 2 ^ n -> Zdigits2 (m / 2 ^ n) = Zdigits2 m - n.
Proof.
  intros Hm Hn Hq.
  rewrite !Zdigits2_log2 by assumption.
  rewrite <- Z.shiftr_div_pow2 in * by assumption.
  rewrite Z.log2_shiftr by assumption.
  assert (n <= Z.log2 m); [| lia].
  destruct (Z.le_gt_cases n (Z.log2 m)) as [|Hgt]; [assumption | exfalso].
  rewrite Z.shiftr_div_pow2 in Hq by assumption.
  assert (m < 2 ^ n).
  { apply Z.log2_lt_pow2; lia. }
  rewrite Z.div_small in Hq by lia. lia.
Qed.

Lemma shift_zero_digits (m n : Z) :
  0 < m -> 0 <= n -> m / 2 ^ n = 0 -> Zdigits2 m <= n.
Proof.
  intros Hm Hn Hq. rewrite Zdigits2_log2 by assumption.
  destruct (Z.le_gt_cases (Z.log2 m + 1) n) as [|Hgt]; [assumption | exfalso].
  assert (2 ^ n <= m).
  { apply Z.le_trans with (2 ^ Z.log2 m).
    - apply Z.pow_le_mono_r; lia.
    - apply Z.log2_spec. assumption. }
  assert (1 <= m / 2 ^ n); [| lia].
  apply Z.div_le_lower_bound; lia.
Qed.

Lemma Zdigits2_succ (m : Z) :
  0 < m -> Zdigits2 (m + 1) = Zdigits2 m \/ Zdigits2 (m + 1) = Zdigits2 m + 1.
Proof.
  intros Hm. rewrite !Zdigits2_log2 by lia.
  destruct (Z.log2_succ_or m) as [H|H]; unfold Z.succ in H; lia.
Qed.

Lemma round_nearest_even_cases (m : Z) (l : location) :
  round_nearest_even m l = m \/ round_nearest_even m l = m + 1.
Proof.
  destruct l as [|[]]; simpl; auto. destruct (Z.even m); auto.
Qed.

Lemma shr_fexp_aligned (m e : Z) (l : location) :
  0 <= m -> e <= fexp prec emax (Zdigits2 m + e) ->
  aligned (shr_m (fst (shr_fexp prec emax m e l))) (snd (shr_fexp prec emax m e l)).
Proof.
  intros Hm He.
  destruct (shr_fexp_spec m e l Hm) as [-> ->].
  set (n := Z.max 0 (fexp prec emax (Zdigits2 m + e) - e)).
  assert (Hn : 0 <= n) by lia.
  assert (Hq : 0 <= m / 2 ^ n) by (apply Z.div_pos; lia).
  unfold aligned.
  destruct (Z.eq_dec m 0) as [-> | Hm0].
  - right. subst n. rewrite Zdigits2_0 in *. rewrite Z.div_0_l by lia.
    fexp_arith.
  - destruct (Z.eq_dec (m / 2 ^ n) 0) as [Hz | Hnz].
    + right. split; [assumption |].
      pose proof (shift_zero_digits m n ltac:(lia) Hn Hz).
      subst n. fexp_arith.
    + left. split; [lia |].
      rewrite Zdigits2_shift by lia.
      subst n. fexp_arith.
Qed.

Lemma aligned_round (m e : Z) (l : location) :
  aligned m e ->
  let m' := round_nearest_even m l in
  aligned (shr_m (fst (shr_fexp prec emax m' e loc_Exact)))
          (snd (shr_fexp prec emax m' e loc_Exact))
  /\ 0 < shr_m (fst (shr_fexp prec emax m' e loc_Exact)) + (if m' =? 0 then 1 else 0).
Proof.
  intros Ha m'.
  assert (Hm' : 0 <= m').
  { subst m'. destruct (round_nearest_even_cases m l) as [-> | ->];
      destruct Ha as [[? _] | [-> _]]; lia. }
  destruct (shr_fexp_spec m' e loc_Exact Hm') as [-> ->].
  set (n := Z.max 0 (fexp prec emax (Zdigits2 m' + e) - e)).
  assert (Hn : 0 <= n) by lia.
  destruct (Z.eqb_spec m' 0) as [Hz | Hnz].
  - rewrite Hz, Z.div_0_l by lia. split; [| lia].
    right. split; [reflexivity |].
    subst m'. destruct Ha as [[Hpos _] | [_ ->]].
    + destruct (round_nearest_even_cases m l) as [E | E]; rewrite E in Hz; lia.
    + subst n. rewrite Hz, Zdigits2_0, !fexp_eq. lia.
  - assert (Hdig : Zdigits2 m' = Zdigits2 m \/ Zdigits2 m' = Zdigits2 m + 1).
    { subst m'. destruct (round_nearest_even_cases m l) as [-> | ->]; [auto |].
      destruct Ha as [[Hpos _] | [-> _]]; [apply Zdigits2_succ; assumption |].
      right. reflexivity. }
    assert (Hd1 : 1 <= Zdigits2 m') by (rewrite Zdigits2_log2 by lia; pose proof (Z.log2_nonneg m'); lia).
    assert (Hge : e <= fexp prec emax (Zdigits2 m' + e)).
    { destruct Ha as [[Hpos Hf] | [Hm0 He0]].
      - fexp_arith.
      - rewrite Hm0, Zdigits2_0 in Hdig. fexp_arith. }
    assert (Hn1 : n < Zdigits2 m').
    { subst n. rewrite fexp_eq.
      destruct Ha as [[Hpos Hf] | [-> ->]].
      - rewrite !fexp_eq in Hf. pose proof (Zdigits2_nonneg m). lia.
      - rewrite Zdigits2_0 in Hdig. lia. }
    assert (Hq : 0 < m' / 2 ^ n).
    { apply Z.div_str_pos. split; [apply Z.pow_pos_nonneg; lia |].
      apply Z.le_trans with (2 ^ Z.log2 m').
      - apply Z.pow_le_mono_r; [lia |]. rewrite Zdigits2_log2 in Hn1 by lia. lia.
      - apply Z.log2_spec. lia. }
    split; [| lia].
    left. split; [assumption |].
    rewrite Zdigits2_shift by lia.
    subst n. fexp_arith.
Qed.

(** The result of rounding is a valid binary64. *)
Lemma binary_round_aux_valid (s : bool) (m e : Z) (l : location) :
  0 <= m -> e <= fexp prec emax (Zdigits2 m + e) ->
  valid_binary prec emax (binary_round_aux prec emax s m e l) = true.
Proof.
  intros Hm He. unfold binary_round_aux.
  pose proof (shr_fexp_aligned m e l Hm He) as Ha.
  destruct (shr_fexp prec emax m e l) as [mrs1 e1]. simpl fst in Ha; simpl snd in Ha.
  pose proof (aligned_round _ _ (loc_of_shr_record mrs1) Ha) as [Hb _].
  destruct (shr_fexp prec emax (round_nearest_even (shr_m mrs1) (loc_of_shr_record mrs1))
              e1 loc_Exact) as [mrs2 e2].
  simpl fst in Hb; simpl snd in Hb.
  destruct (shr_m mrs2) as [|p|p] eqn:Em; try reflexivity.
  destruct (e2 <=? emax - prec) eqn:Ee; [| reflexivity].
  simpl. unfold bounded, canonical_mantissa. rewrite Ee, andb_true_r.
  destruct Hb as [[_ Hf] | [? _]]; [| lia].
  simpl in Hf. apply Z.eqb_eq. exact Hf.
Qed.

Lemma iter_xO_pow (m d : positive) : Zpos (Pos.iter xO m d) = Zpos m * 2 ^ Zpos d.
Proof.
  induction d as [|d IH] using Pos.peano_ind.
  - simpl. lia.
  - rewrite Pos.iter_succ, Pos2Z.inj_xO, IH, Pos2Z.inj_succ, Z.pow_succ_r by lia. ring.
Qed.

Lemma shl_align_spec (mx : positive) (ex ex' : Z) :
  Zpos (fst (shl_align mx ex ex')) = Zpos mx * 2 ^ Z.max 0 (ex - ex')
  /\ snd (shl_align mx ex ex') = Z.min ex ex'.
Proof.
  unfold shl_align. destruct (ex' - ex) as [|p|p] eqn:E; simpl fst; simpl snd.
  - replace (Z.max 0 (ex - ex')) with 0 by lia. simpl. lia.
  - replace (Z.max 0 (ex - ex')) with 0 by lia. simpl. lia.
  - rewrite iter_xO_pow. replace (Z.max 0 (ex - ex')) with (Zpos p) by lia. lia.
Qed.

Lemma Zdigits2_mul_pow2 (m k : Z) :
  0 < m -> 0 <= k -> Zdigits2 (m * 2 ^ k) = Zdigits2 m + k.
Proof.
  intros Hm Hk.
  assert (0 < 2 ^ k) by (apply Z.pow_pos_nonneg; lia).
  rewrite !Zdigits2_log2 by nia.
  rewrite Z.log2_mul_pow2 by lia. lia.
Qed.

Lemma binary_round_valid (s : bool) (mx : positive) (ex : Z) :
  valid_binary prec emax (binary_round prec emax s mx ex) = true.
Proof.
  unfold binary_round.
  pose proof (shl_align_spec mx ex (fexp prec emax (Zpos (digits2_pos mx) + ex))) as [Hm He].
  destruct (shl_align mx ex _) as [mz ez]. simpl fst in Hm; simpl snd in He.
  apply binary_round_aux_valid; [lia |].
  rewrite Hm, Zdigits2_mul_pow2 by lia.
  change (Zdigits2 (Zpos mx)) with (Zpos (digits2_pos mx)).
  rewrite He. fexp_arith.
Qed.

Lemma binary_normalize_valid (m e : Z) (sz : bool) :
  valid_binary prec emax (binary_normalize prec emax m e sz) = true.
Proof. destruct m; simpl; [reflexivity | apply binary_round_valid ..]. Qed.

(** A canonical mantissa: the exponent is at least [emin], there are at
    most [prec] digits, and exactly [prec] above [emin]. *)
Lemma bounded_facts (m : positive) (e : Z) :
  bounded prec emax m e = true ->
  -1074 <= e /\ Zdigits2 (Zpos m) <= 53 /\ (-1074 < e -> Zdigits2 (Zpos m) = 53).
Proof.
  unfold bounded, canonical_mantissa. intros H.
  apply andb_true_iff in H as [H _]. apply Z.eqb_eq in H.
  rewrite fexp_eq in H. simpl Zdigits2. lia.
Qed.

Lemma SFmul_valid (x y : spec_float) :
  valid_binary prec emax x = true -> valid_binary prec emax y = true ->
  valid_binary prec emax (SFmul prec emax x y) = true.
Proof.
  intros Hx Hy.
  destruct x as [sx|sx| |sx mx ex], y as [sy|sy| |sy my ey]; try reflexivity.
  simpl in Hx, Hy. unfold SFmul.
  apply bounded_facts in Hx as (Hx1 & Hx2 & Hx3), Hy as (Hy1 & Hy2 & Hy3).
  apply binary_round_aux_valid; [lia |].
  rewrite Pos2Z.inj_mul.
  rewrite (Zdigits2_log2 (Zpos mx)) in * by lia.
  rewrite (Zdigits2_log2 (Zpos my)) in * by lia.
  rewrite (Zdigits2_log2 (Zpos mx * Zpos my)) by lia.
  pose proof (Z.log2_mul_below (Zpos mx) (Zpos my) ltac:(lia) ltac:(lia)) as Hl.
  pose proof (Z.log2_nonneg (Zpos mx)). pose proof (Z.log2_nonneg (Zpos my)).
  fexp_arith.
Qed.

Lemma of_ratio_core (n d : positive) :
  let '(q, e, l) := SFdiv_core_binary prec emax (Zpos n) 0 (Zpos d) 0 in
  0 <= q /\ e <= fexp prec emax (Zdigits2 q + e).
Proof.
  unfold SFdiv_core_binary.
  set (d1 := Zdigits2 (Zpos n)). set (d2 := Zdigits2 (Zpos d)).
  set (e' := Z.min (fexp prec emax (d1 + 0 - (d2 + 0))) (0 - 0)).
  set (s := 0 - 0 - e').
  assert (Hs : 0 <= s) by (subst s e'; lia).
  set (m' := match s with Z.pos _ => Z.shiftl (Zpos n) s | 0 => Zpos n | Z.neg _ => 0 end).
  assert (Hm' : m' = Zpos n * 2 ^ s).
  { subst m'. destruct s as [|p|p] eqn:Es; [simpl; lia | | lia].
    rewrite Z.shiftl_mul_pow2 by lia. reflexivity. }
  pose proof (Z.div_eucl_eq m' (Zpos d) ltac:(lia)) as Hdiv.
  pose proof (Z.mod_pos_bound m' (Zpos d) ltac:(lia)) as Hmod.
  unfold Z.modulo in Hmod.
  assert (Hq : fst (Z.div_eucl m' (Zpos d)) = m' / Zpos d) by reflexivity.
  destruct (Z.div_eucl m' (Zpos d)) as [q r]. simpl in Hq.
  assert (H2s : 0 < 2 ^ s) by (apply Z.pow_pos_nonneg; lia).
  assert (Hq0 : 0 <= q) by (rewrite Hq; apply Z.div_pos; nia).
  split; [assumption |].
  assert (Hd1 : d1 = Z.log2 (Zpos n) + 1) by (apply Zdigits2_log2; lia).
  assert (Hd2 : d2 = Z.log2 (Zpos d) + 1) by (apply Zdigits2_log2; lia).
  pose proof (Z.log2_nonneg (Zpos n)) as Hn0.
  pose proof (Z.log2_nonneg (Zpos d)) as Hd0.
  assert (Hlm : Z.log2 m' = s + Z.log2 (Zpos n)).
  { rewrite Hm'. apply Z.log2_mul_pow2; lia. }
  destruct (Z.eq_dec q 0) as [-> | Hqn].
  - rewrite Zdigits2_0.
    assert (Hlt : m' < Zpos d) by nia.
    assert (Hle : Z.log2 m' <= Z.log2 (Zpos d)) by (apply Z.log2_le_mono; lia).
    subst e' s. fexp_arith.
  - assert (Hqpos : 0 < q) by lia.
    rewrite (Zdigits2_log2 q Hqpos).
    assert (Hlow : s + d1 - d2 - 1 <= Z.log2 q).
    { destruct (Z.le_gt_cases 0 (s + d1 - d2 - 1)) as [Hk | Hk];
        [| pose proof (Z.log2_nonneg q); lia].
      apply Z.log2_le_pow2; [assumption |].
      rewrite Hq. apply Z.div_le_lower_bound; [lia |].
      pose proof (Z.log2_spec (Zpos d) ltac:(lia)) as [_ Hdu].
      pose proof (Z.log2_spec m' ltac:(nia)) as [Hml _].
      rewrite Hlm in Hml.
      replace (Z.succ (Z.log2 (Zpos d))) with d2 in Hdu by lia.
      replace (s + Z.log2 (Zpos n)) with (d2 + (s + d1 - d2 - 1)) in Hml by lia.
      rewrite Z.pow_add_r in Hml by lia.
      assert (0 < 2 ^ (s + d1 - d2 - 1)) by (apply Z.pow_pos_nonneg; lia).
      nia. }
    subst e' s. fexp_arith.
Qed.

Lemma of_ratio_valid_core (neg : bool) (n d : positive) :
  valid_binary prec emax
    (let '(q, e, l) := SFdiv_core_binary prec emax (Zpos n) 0 (Zpos d) 0 in
     binary_round_aux prec emax neg q e l) = true.
Proof.
  pose proof (of_ratio_core n d) as H.
  destruct (SFdiv_core_binary prec emax (Zpos n) 0 (Zpos d) 0) as [[q e] l].
  destruct H as [Hq He]. apply binary_round_aux_valid; assumption.
Qed.

(** Above [emin] a shift never loses the whole mantissa. *)
Lemma shr_fexp_pos (m e : Z) (l : location) :
  0 < m -> -1074 <= e ->
  0 < shr_m (fst (shr_fexp prec emax m e l))
  /\ -1074 <= snd (shr_fexp prec emax m e l).
Proof.
  intros Hm He.
  destruct (shr_fexp_spec m e l ltac:(lia)) as [-> ->].
  set (n := Z.max 0 (fexp prec emax (Zdigits2 m + e) - e)).
  split; [| lia].
  assert (Hn : n <= Z.log2 m).
  { subst n. rewrite fexp_eq, Zdigits2_log2 by assumption.
    pose proof (Z.log2_nonneg m). lia. }
  apply Z.div_str_pos. split; [apply Z.pow_pos_nonneg; lia |].
  apply Z.le_trans with (2 ^ Z.log2 m).
  - apply Z.pow_le_mono_r; lia.
  - apply Z.log2_spec. assumption.
Qed.

Lemma binary_round_aux_signed (s : bool) (m e : Z) (l : location) :
  0 < m -> -1074 <= e ->
  signed_nonzero s (binary_round_aux prec emax s m e l).
Proof.
  intros Hm He. unfold binary_round_aux.
  pose proof (shr_fexp_pos m e l Hm He) as [H1 H2].
  destruct (shr_fexp prec emax m e l) as [mrs1 e1]. simpl fst in H1; simpl snd in H2.
  assert (H3 : 0 < round_nearest_even (shr_m mrs1) (loc_of_shr_record mrs1)).
  { destruct (round_nearest_even_cases (shr_m mrs1) (loc_of_shr_record mrs1)) as [-> | ->]; lia. }
  pose proof (shr_fexp_pos _ e1 loc_Exact H3 H2) as [H4 _].
  destruct (shr_fexp prec emax _ e1 loc_Exact) as [mrs2 e2]. simpl fst in H4.
  destruct (shr_m mrs2) as [|p|p]; try lia.
  destruct (e2 <=? emax - prec); [left; eauto | right; reflexivity].
Qed.

Lemma binary_round_signed (s : bool) (m : positive) (e : Z) :
  -1074 <= e -> signed_nonzero s (binary_round prec emax s m e).
Proof.
  intros He. unfold binary_round.
  pose proof (shl_align_spec m e (fexp prec emax (Zpos (digits2_pos m) + e))) as [_ Hs].
  destruct (shl_align m e _) as [mz ez]. simpl snd in Hs.
  apply binary_round_aux_signed; [lia |].
  rewrite Hs, fexp_eq. lia.
Qed.

Lemma binary_normalize_negative (D e : Z) :
  -1074 <= e ->
  SFltb (binary_normalize prec emax D e false) zero = (D <? 0).
Proof.
  intros He. destruct D as [|p|p]; simpl binary_normalize.
  - reflexivity.
  - destruct (binary_round_signed false p e He) as [(m & e' & ->) | ->]; reflexivity.
  - destruct (binary_round_signed true p e He) as [(m & e' & ->) | ->]; reflexivity.
Qed.

(** Magnitudes of canonical floats compare as (exponent, mantissa). *)
Lemma aligned_magnitudes (mx my : positive) (ex ey : Z) :
  bounded prec emax mx ex = true -> bounded prec emax my ey = true ->
  let ez := Z.min ex ey in
  let a := Zpos (fst (shl_align mx ex ez)) in
  let b := Zpos (fst (shl_align my ey ez)) in
  match ex ?= ey with
  | Lt => a < b
  | Gt => b < a
  | Eq => a = Zpos mx /\ b = Zpos my
  end.
Proof.
  intros Hx Hy ez a b.
  apply bounded_facts in Hx as (Hx1 & Hx2 & Hx3), Hy as (Hy1 & Hy2 & Hy3).
  destruct (shl_align_spec mx ex ez) as [Ha _], (shl_align_spec my ey ez) as [Hb _].
  fold a in Ha. fold b in Hb.
  rewrite Zdigits2_log2 in * by lia.
  pose proof (Z.log2_spec (Zpos mx) ltac:(lia)) as [Hxl Hxu].
  pose proof (Z.log2_spec (Zpos my) ltac:(lia)) as [Hyl Hyu].
  assert (Hp53 : forall k, 0 <= k -> k + 1 <= 53 -> 2 ^ Z.succ k <= 2 ^ 53)
    by (intros; apply Z.pow_le_mono_r; lia).
  assert (Hp52 : forall k, k + 1 = 53 -> 2 ^ 52 <= 2 ^ k)
    by (intros; apply Z.pow_le_mono_r; lia).
  pose proof (Z.log2_nonneg (Zpos mx)). pose proof (Z.log2_nonneg (Zpos my)).
  destruct (Z.compare_spec ex ey) as [Heq | Hlt | Hgt].
  - subst ey. subst ez. rewrite Z.min_id, Z.sub_diag in *.
    rewrite Z.max_id, Z.pow_0_r, Z.mul_1_r in Ha, Hb. lia.
  - subst ez. replace (Z.max 0 (ex - Z.min ex ey)) with 0 in Ha by lia.
    replace (Z.max 0 (ey - Z.min ex ey)) with (ey - ex) in Hb by lia.
    assert (2 ^ 1 <= 2 ^ (ey - ex)) by (apply Z.pow_le_mono_r; lia).
    specialize (Hp53 (Z.log2 (Zpos mx)) ltac:(lia) Hx2).
    specialize (Hp52 (Z.log2 (Zpos my)) (Hy3 ltac:(lia))).
    change (2 ^ 53) with (2 ^ 52 * 2 ^ 1) in Hp53.
    rewrite Z.pow_0_r in Ha. nia.
  - subst ez. replace (Z.max 0 (ey - Z.min ex ey)) with 0 in Hb by lia.
    replace (Z.max 0 (ex - Z.min ex ey)) with (ex - ey) in Ha by lia.
    assert (2 ^ 1 <= 2 ^ (ex - ey)) by (apply Z.pow_le_mono_r; lia).
    specialize (Hp53 (Z.log2 (Zpos my)) ltac:(lia) Hy2).
    specialize (Hp52 (Z.log2 (Zpos mx)) (Hx3 ltac:(lia))).
    change (2 ^ 53) with (2 ^ 52 * 2 ^ 1) in Hp53.
    rewrite Z.pow_0_r in Hb. nia.
Qed.

(** The sign test of a difference is the comparison of its operands:
    [x - y < 0] exactly when [x < y], for all valid floats. *)
Lemma sub_negative_iff_lt (x y : spec_float) :
  valid_binary prec emax x = true -> valid_binary prec emax y = true ->
  SFltb (SFsub prec emax x y) zero = SFltb x y.
Proof.
  intros Hx Hy.
  destruct x as [sx|sx| |sx mx ex], y as [sy|sy| |sy my ey];
    try reflexivity;
    try (destruct sx; reflexivity); try (destruct sy; reflexivity);
    try (destruct sx, sy; reflexivity).
  simpl in Hx, Hy. unfold SFsub.
  pose proof (aligned_magnitudes mx my ex ey Hx Hy) as Hmag. cbv zeta in Hmag.
  pose proof (bounded_facts _ _ Hx) as (Hx1 & _). pose proof (bounded_facts _ _ Hy) as (Hy1 & _).
  rewrite binary_normalize_negative by lia.
  unfold SFltb, SFcompare.
  assert (Ha : 0 < Zpos (fst (shl_align mx ex (Z.min ex ey)))) by lia.
  assert (Hb : 0 < Zpos (fst (shl_align my ey (Z.min ex ey)))) by lia.
  revert Hmag Ha Hb.
  generalize (Zpos (fst (shl_align mx ex (Z.min ex ey)))) as a.
  generalize (Zpos (fst (shl_align my ey (Z.min ex ey)))) as b.
  intros b a Hmag Ha Hb.
  change (Pos.compare_cont Eq mx my) with (Pos.compare mx my).
  destruct sx, sy; simpl cond_Zopp;
    destruct (Z.compare_spec ex ey); try lia;
    destruct Hmag as [-> ->]; destruct (Pos.compare_spec mx my); cbn [CompOpp]; lia.
Qed.

(** A finite value minus itself is plus zero. *)
Lemma sub_diag_finite (x : spec_float) :
  match x with S754_finite _ _ _ | S754_zero _ => True | _ => False end ->
  SFsub prec emax x x = zero.
Proof.
  destruct x as [s|s| |s m e]; try contradiction; intros _.
  - destruct s; reflexivity.
  - unfold SFsub. rewrite Z.sub_diag. reflexivity.
Qed.

Lemma of_decimal_valid (neg : bool) (n e : Z) : valid (of_decimal neg n e).
Proof.
  unfold valid, of_decimal. destruct n as [|p|p]; try reflexivity.
  destruct (0 <=? e).
  - apply binary_normalize_valid.
  - apply of_ratio_valid_core.
Qed.

Lemma of_string_valid (text : string) (v : float) : of_string text = Some v -> valid v.
Proof.
  unfold of_string.
  destruct (take_sign (PyStr.strip text)) as [neg t].
  destruct (_ || _); [intros [= <-]; reflexivity |].
  destruct (String.eqb _ "nan"); [intros [= <-]; reflexivity |].
  destruct (digitpart false 0 0 t) as [[ip ni] r1].
  destruct (fraction ip r1) as [[w nf] r2].
  destruct (ni + nf)%nat; [discriminate |].
  destruct (exponent r2) as [[ex [|c r]] |]; try discriminate.
  intros [= <-]. apply of_decimal_valid.
Qed.

Lemma of_Z_valid (n : Z) : valid (of_Z n).
Proof. apply binary_normalize_valid. Qed.

Lemma mul_valid (x y : float) : valid x -> valid y -> valid (mul x y).
Proof. apply SFmul_valid. Qed.

(** Every byte count read from a size string is a canonical float. *)
Lemma parse_size_to_bytes_valid (size_str : string) (b : float) :
  parse_size_to_bytes size_str = Some b -> valid b.
Proof.
  unfold parse_size_to_bytes.
  destruct (_ || _); [discriminate |].
  destruct (Re.rmatch size_re size_str) as [cs |]; [| discriminate].
  unfold size_groups.
  destruct (of_string (default "" (Re.group 1 cs))) as [value |] eqn:Hv; [| discriminate].
  apply of_string_valid in Hv.
  destruct (lookup_unit _ multipliers) as [mult |]; intros [= <-].
  - apply mul_valid; [assumption | apply of_Z_valid].
  - assumption.
Qed.

(** [x - y < 0] is [x < y] on the byte counts. *)
Lemma sub_negative_lt (x y : float) :
  valid x -> valid y -> ltb (sub x y) zero = ltb x y.
Proof. apply sub_negative_iff_lt. Qed.

Lemma sub_diag_zero (x : float) : is_finite x = true -> sub x x = zero.
Proof.
  intros Hx. apply sub_diag_finite. destruct x; try exact I; discriminate Hx.
Qed.

End Binary64.

(* ===================================================================== *)
(** * Duration formatting *)
(* ===================================================================== *)

Section Duration.

Lemma pos_test_nonneg (x : Z) : 0 <= x -> (0 <? x) = negb (x =? 0).
Proof. intros Hx. destruct (Z.eqb_spec x 0); simpl; lia. Qed.

Lemma nonzero_parts_cons (v : Z) (u : string) (l : list (Z * string)) :
  nonzero_parts ((v, u) :: l) =
  if v =? 0 then nonzero_parts l else (PyStr.of_Z v +:+ u) :: nonzero_parts l.
Proof.
  unfold nonzero_parts. rewrite filter_cons. simpl.
  destruct (Z.eqb_spec v 0) as [->|Hv].
  - destruct (decide (0 <> 0)); [congruence | reflexivity].
  - destruct (decide (v <> 0)); [reflexivity | contradiction].
Qed.

(** C4: an hour count is split by the divmod chain years (365*24), months
    (30*24), days (24), hours; the components that are not zero are
    printed in that order with the suffixes y, m, d, hrs and joined by one
    blank; when all are zero the text is 0hrs; 26301 gives 3y 21hrs. *)
Theorem format_hours_divmod_chain (hours_str : string) (h : Z) :
  PyInt.of_string hours_str = Some h ->
  0 <= h ->
  let years := h / (365 * 24) in
  let r1 := h mod (365 * 24) in
  let months := r1 / (30 * 24) in
  let r2 := r1 mod (30 * 24) in
  let days := r2 / 24 in
  let hours := r2 mod 24 in
  format_hours hours_str =
    (if (years =? 0) && (months =? 0) && (days =? 0) && (hours =? 0) then "0hrs"
     else PyStr.join " "
            (nonzero_parts [(years, "y"); (months, "m"); (days, "d"); (hours, "hrs")]))
  /\ format_hours "26301" = "3y 21hrs".
Proof.
  intros Hparse Hh years r1 months r2 days hours.
  split; [| reflexivity].
  unfold format_hours. rewrite Hparse.
  fold years r1 months r2 days hours.
  assert (Hy : 0 <= years) by (apply Z.div_pos; lia).
  assert (Hm : 0 <= months) by (apply Z.div_pos; [apply Z.mod_pos_bound|]; lia).
  assert (Hd : 0 <= days) by (apply Z.div_pos; [apply Z.mod_pos_bound|]; lia).
  assert (Hr : 0 <= hours) by (apply Z.mod_pos_bound; lia).
  rewrite !pos_test_nonneg by assumption.
  rewrite !nonzero_parts_cons.
  destruct (Z.eqb_spec years 0) as [->|_], (Z.eqb_spec months 0) as [->|_],
           (Z.eqb_spec days 0) as [->|_], (Z.eqb_spec hours 0) as [->|_];
    reflexivity.
Qed.

Lemma format_hours_divmod_chain_witness :
  format_hours "9505" = "1y 1m 1d 1hrs" /\ format_hours "26301" = "3y 21hrs".
Proof.
  apply (format_hours_divmod_chain "9505" 9505); [reflexivity | lia].
Defined.

End Duration.

(* ===================================================================== *)
(** * Device classification *)
(* ===================================================================== *)

Module ClassifierFacts.
Import Classifier PyValue.

Lemma class_name_inj (c1 c2 : DeviceClass) : class_name c1 = class_name c2 -> c1 = c2.
Proof. destruct c1, c2; simpl; intros H; try reflexivity; discriminate H. Qed.

(** On three texts the classifier returns, and decides in priority
    order. *)
Lemma classify_disk_texts (disk_name disk_type disk_model : string) :
  classify_disk (Str disk_name) (Str disk_type) (Str disk_model)
  = Returns (class_name (decide (virtualization_marker disk_model)
                                (nvme_named disk_name) (rotational disk_type))).
Proof.
  unfold classify_disk, contains, startswith, upper,
    virtualization_marker, nvme_named, rotational, decide, mbind, outcome_bind.
  cbv beta iota.
  generalize (PyStr.contains "VMware" disk_model) (PyStr.contains "Virtual" disk_model)
             (PyStr.startswith "nvme" disk_name) (String.eqb (PyStr.upper disk_type) "HDD").
  intros [] [] [] []; reflexivity.
Qed.

(** C6 (the code departs from it): the classifier is not total.  It
    decides in the stated priority, and returns one of the four classes,
    when the three fields are texts; and a marker in the model gives
    VIRTUAL whatever the name and the type are.  But the fields come from
    the decoded disk list, where [disk.get("model", "")] gives null for a
    model that is null in the document, and the first test of the
    classifier then raises [TypeError]: there is an error path.  Without a
    marker in the model, a null name or a null type raises
    [AttributeError]. *)
Theorem classify_disk_error_path :
  (forall disk_name disk_type disk_model : string,
      classify_disk (Str disk_name) (Str disk_type) (Str disk_model)
      = Returns (class_name (decide (virtualization_marker disk_model)
                                    (nvme_named disk_name) (rotational disk_type))))
  /\ (forall (disk_name disk_type : value) (disk_model : string),
        virtualization_marker disk_model = true ->
        classify_disk disk_name disk_type (Str disk_model) = Returns "VIRTUAL")
  /\ (forall disk_name disk_type : value,
        classify_disk disk_name disk_type Null = Raises Type_error)
  /\ (forall (disk_type : value) (disk_model : string),
        virtualization_marker disk_model = false ->
        classify_disk Null disk_type (Str disk_model) = Raises Attribute_error)
  /\ (forall disk_name disk_model : string,
        virtualization_marker disk_model = false -> nvme_named disk_name = false ->
        classify_disk (Str disk_name) Null (Str disk_model) = Raises Attribute_error)
  /\ descriptor (Obj [("name", Str "sda"); ("type", Str "HDD"); ("model", Null)])
     = Returns (Str "sda", Str "HDD", Null)
  /\ descriptor (Obj [("name", Str "sda"); ("type", Str "HDD")])
     = Returns (Str "sda", Str "HDD", Str "")
  /\ classify_disk (Str "sda") (Str "HDD") Null = Raises Type_error
  /\ classify_disk (Str "sda") (Str "HDD") (Str "") = Returns "SAS_HDD".
Proof.
  split; [exact classify_disk_texts |].
  split.
  { intros disk_name disk_type disk_model.
    unfold classify_disk, contains, virtualization_marker, mbind, outcome_bind.
    cbv beta iota.
    generalize (PyStr.contains "VMware" disk_model) (PyStr.contains "Virtual" disk_model).
    intros [] [] H; try reflexivity; discriminate H. }
  split; [reflexivity |].
  split.
  { intros disk_type disk_model.
    unfold classify_disk, contains, virtualization_marker, mbind, outcome_bind.
    cbv beta iota.
    generalize (PyStr.contains "VMware" disk_model) (PyStr.contains "Virtual" disk_model).
    intros [] [] H; try reflexivity; discriminate H. }
  split.
  { intros disk_name disk_model.
    unfold classify_disk, contains, startswith, virtualization_marker, nvme_named,
      mbind, outcome_bind.
    cbv beta iota.
    generalize (PyStr.contains "VMware" disk_model) (PyStr.contains "Virtual" disk_model)
               (PyStr.startswith "nvme" disk_name).
    intros [] [] [] H1 H2; try reflexivity; discriminate. }
  repeat split; reflexivity.
Qed.

End ClassifierFacts.
(* ===================================================================== *)
(** * Size normalization *)
(* ===================================================================== *)

Section SizeLadder.

(** The loop of [format_size] stops by itself: after [len(units) - 1]
    turns its condition is false. *)
Lemma climb_exits (size_bytes : float) :
  let '(size, unit_index) := climb (length units - 1) size_bytes 0 in
  geb size f1024 && (unit_index <? length units - 1)%nat = false.
Proof.
  simpl.
  destruct (geb size_bytes f1024) eqn:E0; simpl; [| rewrite E0; reflexivity].
  destruct (geb (div size_bytes f1024) f1024) eqn:E1; simpl;
    [| rewrite E1; reflexivity].
  destruct (geb (div (div size_bytes f1024) f1024) f1024) eqn:E2; simpl;
    [| rewrite E2; reflexivity].
  destruct (geb (div (div (div size_bytes f1024) f1024) f1024) f1024) eqn:E3;
    simpl; [| rewrite E3; reflexivity].
  destruct (geb (div (div (div (div size_bytes f1024) f1024) f1024) f1024) f1024)
    eqn:E4; simpl; [apply andb_false_r | rewrite E4; reflexivity].
Qed.

Lemma climb_ladder (size_bytes : float) :
  climb (length units - 1) size_bytes 0 =
  (scaled size_bytes (ladder_index size_bytes), ladder_index size_bytes).
Proof.
  unfold ladder_index, scaled. simpl.
  destruct (geb size_bytes f1024); simpl; [| reflexivity].
  destruct (geb (div size_bytes f1024) f1024); simpl; [| reflexivity].
  destruct (geb (div (div size_bytes f1024) f1024) f1024); simpl; [| reflexivity].
  destruct (geb (div (div (div size_bytes f1024) f1024) f1024) f1024);
    simpl; [| reflexivity].
  destruct (geb (div (div (div (div size_bytes f1024) f1024) f1024) f1024) f1024);
    simpl; reflexivity.
Qed.

Lemma ladder_index_le (size_bytes : float) : (ladder_index size_bytes <= 5)%nat.
Proof.
  unfold ladder_index. simpl.
  repeat match goal with
  | |- context [if negb ?b then _ else _] => destruct b; simpl
  end; lia.
Qed.

Lemma escalate_once (s : float) (k : nat) :
  (k <= 5)%nat ->
  escalate (s, k) = if escalates k s then (div s f1024, S k) else (s, k).
Proof.
  intros Hk. unfold escalate, escalates.
  assert (Hc : (k = 0 \/ k = 1 \/ k = 2 \/ k = 3 \/ k = 4 \/ k = 5)%nat) by lia.
  destruct Hc as [->|[->|[->|[->|[->| ->]]]]]; simpl; try reflexivity;
    destruct (geb s f1000); reflexivity.
Qed.

Lemma format_size_final (size_bytes : float) :
  escalate (climb (length units - 1) size_bytes 0) =
  (final_value size_bytes, final_index size_bytes).
Proof.
  rewrite climb_ladder, escalate_once by apply ladder_index_le.
  unfold final_value, final_index.
  destruct (escalates _ _); reflexivity.
Qed.

Lemma final_index_le (size_bytes : float) : (final_index size_bytes <= 5)%nat.
Proof.
  unfold final_index, escalates.
  pose proof (ladder_index_le size_bytes) as Hk.
  assert (Hc : ladder_index size_bytes = 5%nat \/ (ladder_index size_bytes < 5)%nat) by lia.
  destruct Hc as [-> | Hlt]; simpl; [lia |].
  destruct (_ && _); lia.
Qed.

(** [format_size] raises nothing but [OverflowError]. *)
Lemma format_size_raises (size_bytes : float) (e : exn) :
  format_size size_bytes = Raise e -> e = OverflowError.
Proof.
  unfold format_size.
  destruct (escalate _) as [size unit_index].
  destruct (ltb size f10); [discriminate |].
  destruct (ltb size f100); [discriminate |].
  destruct (to_int size) as [n | []]; try discriminate.
  intros [= <-]. reflexivity.
Qed.

Lemma normalize_plain_number (text : string) (b : float) :
  of_string text = Some b -> normalize_plain text = format_size b.
Proof.
  intros Hb. unfold normalize_plain. rewrite Hb.
  destruct (format_size b) as [r | e] eqn:Hf; [reflexivity |].
  apply format_size_raises in Hf. subst e. reflexivity.
Qed.

Lemma byte_count_of_nonempty (text : string) (b : float) :
  byte_count_of text b -> text <> "".
Proof.
  intros Hb ->. destruct Hb as [cs value unit mult Hm _ _ _ | _ Hf].
  - vm_compute in Hm. discriminate Hm.
  - vm_compute in Hf. discriminate Hf.
Qed.

Lemma normalize_size_unit_bytes (text : string) (b : float) :
  byte_count_of text b -> normalize_size_unit text = format_size b.
Proof.
  intros Hb. pose proof (byte_count_of_nonempty text b Hb) as Hne.
  unfold normalize_size_unit.
  destruct (String.eqb_spec text "") as [->|_]; [contradiction |].
  destruct Hb as [cs value unit mult Hm Hg Hu -> | Hm Hf].
  - rewrite Hm, Hg. unfold mbind, py_bind. rewrite Hu. reflexivity.
  - rewrite Hm. apply normalize_plain_number, Hf.
Qed.

(** C3 (amended): the byte count is rendered in the first unit of the
    base-1024 ladder B, KB, MB, GB, TB, PB in which it is below 1024 (PB at
    the top), one unit further when it reads 1000 or more in GB or MB, with
    two decimals below 10, one decimal below 100, and as an integer
    otherwise; the bare byte count 1099511627776 is rendered 1.00 TB. *)
Theorem normalize_size_ladder (text : string) (b : float) :
  byte_count_of text b ->
  let k := final_index b in
  let s := final_value b in
  (k <= 5)%nat
  /\ (ltb s f10 = true ->
      normalize_size_unit text = Ret (format_fixed 2 s +:+ " " +:+ unit_at k))
  /\ (ltb s f10 = false -> ltb s f100 = true ->
      normalize_size_unit text = Ret (format_fixed 1 s +:+ " " +:+ unit_at k))
  /\ (ltb s f10 = false -> ltb s f100 = false ->
      forall n : Z, to_int s = Ret n ->
      normalize_size_unit text = Ret (PyStr.of_Z n +:+ " " +:+ unit_at k))
  /\ normalize_size_unit "1099511627776" = Ret "1.00 TB".
Proof.
  intros Hb k s.
  rewrite (normalize_size_unit_bytes text b Hb).
  unfold format_size. rewrite format_size_final. fold k s.
  split; [apply final_index_le |].
  split; [intros ->; reflexivity |].
  split; [intros -> ->; reflexivity |].
  split; [intros -> -> n ->; reflexivity |].
  vm_compute. reflexivity.
Qed.

Lemma normalize_size_ladder_witness :
  normalize_size_unit "1536" = Ret "1.50 KB"
  /\ normalize_size_unit "16.0 TB" = Ret "16.0 TB"
  /\ normalize_size_unit "1000 MB" = Ret "0.98 GB".
Proof.
  assert (H1 : byte_count_of "1536" (of_Z 1536))
    by (apply bare_number; vm_compute; reflexivity).
  assert (H2 : byte_count_of "16.0 TB" (of_Z (16 * 1024 ^ 4)))
    by (apply (labeled_size _ _ [(0%nat, "16.0 TB"); (2%nat, "TB"); (1%nat, "16.0")]
                 (of_Z 16) "TB" (1024 ^ 4)); vm_compute; reflexivity).
  assert (H3 : byte_count_of "1000 MB" (of_Z (1000 * 1024 ^ 2)))
    by (apply (labeled_size _ _ [(0%nat, "1000 MB"); (2%nat, "MB"); (1%nat, "1000")]
                 (of_Z 1000) "MB" (1024 ^ 2)); vm_compute; reflexivity).
  destruct (normalize_size_ladder "1536" _ H1) as (_ & A & _).
  destruct (normalize_size_ladder "16.0 TB" _ H2) as (_ & _ & B & _).
  destruct (normalize_size_ladder "1000 MB" _ H3) as (_ & C & _).
  split; [| split].
  - rewrite A; vm_compute; reflexivity.
  - rewrite B; vm_compute; reflexivity.
  - rewrite C; vm_compute; reflexivity.
Defined.

(** C3, as stated, fails on its own example: the rendering of the bare
    byte count 1099511627776 is not the text 1 TB. *)
Lemma normalize_size_one_tb_counterexample :
  normalize_size_unit "1099511627776" <> Ret "1 TB".
Proof. vm_compute. discriminate. Qed.

(** C8 (amended): a non-empty input that is neither a labeled size nor a
    number is returned unchanged; the empty input gives N/A. *)
Theorem normalize_size_unparseable (text : string) :
  text <> "" ->
  Re.rmatch size_re text = None ->
  of_string text = None ->
  normalize_size_unit text = Ret text /\ normalize_size_unit "" = Ret "N/A".
Proof.
  intros Hne Hm Hf. split; [| reflexivity].
  unfold normalize_size_unit.
  destruct (String.eqb_spec text "") as [->|_]; [contradiction |].
  rewrite Hm. unfold normalize_plain. rewrite Hf. reflexivity.
Qed.

Lemma normalize_size_unparseable_witness :
  normalize_size_unit "unknown" = Ret "unknown" /\ normalize_size_unit "" = Ret "N/A".
Proof.
  apply (normalize_size_unparseable "unknown");
    [discriminate | reflexivity | reflexivity].
Defined.

(** C8, as stated, fails on the empty input, which is not returned
    unchanged although it is neither a labeled size nor a number. *)
Lemma normalize_size_empty_counterexample :
  Re.rmatch size_re "" = None /\ of_string "" = None
  /\ normalize_size_unit "" <> Ret "".
Proof. repeat split; vm_compute; discriminate. Qed.

End SizeLadder.
(* ===================================================================== *)
(** * Snapshot delta *)
(* ===================================================================== *)

Section Delta.

(** C10: when both values parse to the same byte count, the result is the
    rendering of zero bytes, 0.00 B, and neither the reset marker nor N/A. *)
Theorem calculate_size_increment_zero_growth
    (old_value new_value : string) (bytes : float) :
  parse_size_to_bytes old_value = Some bytes ->
  parse_size_to_bytes new_value = Some bytes ->
  is_finite bytes = true ->
  calculate_size_increment old_value new_value = Ret "0.00 B"
  /\ Ret (A := string) "0.00 B" <> Ret RESET
  /\ Ret (A := string) "0.00 B" <> Ret NOT_AVAILABLE.
Proof.
  intros Ho Hn Hfin.
  split; [| split; discriminate].
  unfold calculate_size_increment. rewrite Ho, Hn.
  rewrite (sub_diag_zero bytes Hfin).
  vm_compute. reflexivity.
Qed.

Lemma calculate_size_increment_zero_growth_witness :
  calculate_size_increment "5 GB" "5.0GB" = Ret "0.00 B"
  /\ Ret (A := string) "0.00 B" <> Ret RESET
  /\ Ret (A := string) "0.00 B" <> Ret NOT_AVAILABLE.
Proof.
  apply (calculate_size_increment_zero_growth "5 GB" "5.0GB" (of_Z (5 * 1024 ^ 3)));
    vm_compute; reflexivity.
Defined.

End Delta.
(* ===================================================================== *)
(** * Topology fallback *)
(* ===================================================================== *)

Section PoolFallback.

(** Under any pool, the line of the error summary is taken for a device. *)
Lemma zfs_line_errors (pool : string) (disk_to_pool : gmap string string) :
  pool <> "" -> PyStr.startswith pool "errors:" = false ->
  zfs_line (Some pool, disk_to_pool) errors_line
  = (Some pool, <["errors:" := pool]> disk_to_pool).
Proof.
  intros Hne Hp. unfold zfs_line.
  change (PyStr.strip errors_line) with errors_line. cbv zeta.
  change (PyStr.startswith "pool:" errors_line) with false. cbv iota.
  destruct pool as [| c pool]; [contradiction |].
  change (PyStr.contains "state:" errors_line || PyStr.contains "scan:" errors_line
          || PyStr.contains "config:" errors_line || String.eqb errors_line ""
          || PyStr.startswith "NAME" errors_line) with false. cbv iota.
  change (PyStr.split_ws errors_line) with ["errors:"; "No"; "known"; "data"; "errors"].
  cbv iota. rewrite Hp.
  change (existsb (String.eqb "errors:") structural_keywords) with false.
  change (basename "errors:") with "errors:". reflexivity.
Qed.

(** C7 (the code departs from it): the primary topology is used when it
    gives any assignment, and the pool-status text is parsed when it gives
    none; the text of the header [pool: tank] and a line that starts with
    ada0 gives exactly the map from ada0 to tank.  But the parse leaves out
    only the lines that hold [state:], [scan:] or [config:], the empty
    lines and the heading of the table: the line [errors: ...] that ends
    the report of every pool is taken for a device named [errors:], so a
    text with the header, the ada0 line and that line gives two entries,
    and a report as the command prints it also gives the vdev row
    [mirror-0].  The structural keywords are left out and a path is cut to
    its last component, as stated; a device whose name begins with the
    name of its pool is left out as well. *)
Theorem zfs_fallback_takes_report_lines :
  (forall (primary : gmap string string) (zpool_status : option string),
      primary <> ∅ -> process_disk_info_pools primary zpool_status = primary)
  /\ process_disk_info_pools ∅ (Some (PyStr.join nl ["pool: tank"; "ada0  ONLINE"]))
     = {[ "ada0" := "tank" ]}
  /\ process_disk_info_pools ∅
       (Some (PyStr.join nl ["pool: tank"; "ada0  ONLINE"; errors_line]))
     = <[ "errors:" := "tank" ]> {[ "ada0" := "tank" ]}
  /\ process_disk_info_pools ∅
       (Some (PyStr.join nl ["pool: tank"; "ada0  ONLINE"; errors_line]))
     <> {[ "ada0" := "tank" ]}
  /\ process_disk_info_pools ∅ (Some zpool_status_report)
     = list_to_map [("mirror-0", "tank"); ("ada0", "tank"); ("ada1", "tank");
                    ("errors:", "tank")]
  /\ (forall (lines : list string) (pool : string) (disk_to_pool : gmap string string),
        zfs_lines lines = (Some pool, disk_to_pool) ->
        pool <> "" -> PyStr.startswith pool "errors:" = false ->
        zfs_lines (lines ++ [errors_line])
        = (Some pool, <["errors:" := pool]> disk_to_pool))
  /\ process_disk_info_pools ∅
       (Some (PyStr.join nl ["pool: tank"; "  raidz1  ONLINE"; "    /dev/gptid/ada0  ONLINE"]))
     = {[ "ada0" := "tank" ]}
  /\ process_disk_info_pools ∅ (Some (PyStr.join nl ["pool: da"; "da0  ONLINE"])) = ∅.
Proof.
  split.
  { intros primary zpool_status Hne. unfold process_disk_info_pools.
    destruct (decide (primary = ∅)); [contradiction | reflexivity]. }
  split; [vm_compute; reflexivity |].
  assert (Herr : process_disk_info_pools ∅
                   (Some (PyStr.join nl ["pool: tank"; "ada0  ONLINE"; errors_line]))
                 = <[ "errors:" := "tank" ]> {[ "ada0" := "tank" ]})
    by (vm_compute; reflexivity).
  split; [exact Herr |].
  split.
  { rewrite Herr. intros E.
    assert (L : (<[ "errors:" := "tank" ]> {[ "ada0" := "tank" ]} : gmap string string)
                !! "errors:" = Some "tank") by apply lookup_insert_eq.
    rewrite E, lookup_singleton_ne in L by discriminate. discriminate L. }
  split; [vm_compute; reflexivity |].
  split; [| split; vm_compute; reflexivity].
  intros lines pool disk_to_pool H Hne Hp.
  unfold zfs_lines in *. rewrite fold_left_app, H. simpl.
  apply zfs_line_errors; assumption.
Qed.
End PoolFallback.
(* ===================================================================== *)
(** * SMART extraction *)
(* ===================================================================== *)

Section Extraction.

Lemma lookup_store_ne (k key : string) (v : option string) (m : gmap string string) :
  key <> k -> store key v m !! k = m !! k.
Proof. intros Hne. destruct v; simpl; [apply lookup_insert_ne, Hne | reflexivity]. Qed.

Lemma lookup_store_eq (key : string) (v : option string) (m : gmap string string) :
  m !! key = None -> store key v m !! key = v.
Proof. intros Hm. destruct v; simpl; [apply lookup_insert_eq | assumption]. Qed.

Lemma of_int_ret (t : Z) (x : float) : of_int t = Ret x -> x = of_Z t.
Proof. unfold of_int. destruct (of_Z t); intros [= <-] || discriminate; reflexivity. Qed.

Lemma keeps_bind (k : string) (f g : gmap string string -> py (gmap string string)) :
  keeps k f -> keeps k g -> keeps k (fun m => m1 ← f m; g m1).
Proof.
  intros Hf Hg m m' H. destruct (f m) as [m1 |] eqn:E; [| discriminate].
  simpl in H. rewrite (Hg _ _ H). apply (Hf _ _ E).
Qed.

Lemma keeps_ret (k : string) : keeps k Ret.
Proof. intros m m' [= <-]. reflexivity. Qed.

Lemma keeps_insert_value (k key : string) (v : py string) :
  key <> k -> keeps k (fun m => x ← v; Ret (<[key := x]> m)).
Proof.
  intros Hne m m' H. destruct v as [x |]; [| discriminate].
  injection H as <-. apply lookup_insert_ne, Hne.
Qed.

Lemma keeps_store_size (k key size unit : string) :
  key <> k -> keeps k (store_size key size unit).
Proof.
  intros Hne m m'. unfold store_size. destruct (of_string size); [| discriminate].
  apply (keeps_insert_value k key _ Hne).
Qed.

Lemma keeps_store_gigabytes (k key size : string) :
  key <> k -> keeps k (store_gigabytes key size).
Proof.
  intros Hne m m'. unfold store_gigabytes. destruct (of_string size); [| discriminate].
  apply (keeps_insert_value k key _ Hne).
Qed.

Lemma keeps_primary_row (k key row text unit : string) :
  key <> k -> keeps k (primary_row key row text unit).
Proof.
  intros Hne m m'. unfold primary_row.
  destruct (Re.search (row_heading_re row) text); [| apply keeps_ret].
  destruct (Re.search _ _); [apply keeps_store_size, Hne | apply keeps_ret].
Qed.

Lemma keeps_trailing_row (k key row text unit : string) :
  key <> k -> keeps k (trailing_row key row text unit).
Proof.
  intros Hne m m'. unfold trailing_row.
  destruct (Re.search _ _); [apply keeps_store_size, Hne | apply keeps_ret].
Qed.

Lemma keeps_column_rows (k : string) (rows : list (string * string)) :
  "Data_Read" <> k -> "Data_Written" <> k -> keeps k (column_rows rows).
Proof.
  intros Hr Hw. induction rows as [| [io_type size] rest IH]; [apply keeps_ret |].
  intros m m' H. simpl in H.
  destruct (_ && absent "Data_Read" m).
  - apply (keeps_bind k _ _ (keeps_store_gigabytes k _ size Hr) IH m m' H).
  - destruct (_ && absent "Data_Written" m).
    + apply (keeps_bind k _ _ (keeps_store_gigabytes k _ size Hw) IH m m' H).
    + apply (IH m m' H).
Qed.

Lemma keeps_column_fallback (k output : string) :
  "Data_Read" <> k -> "Data_Written" <> k -> keeps k (column_fallback output).
Proof.
  intros Hr Hw m m'. unfold column_fallback.
  destruct (_ || _); [apply keeps_column_rows; assumption | apply keeps_ret].
Qed.

Lemma keeps_non_medium_block (k output : string) :
  "Non_Medium_Errors" <> k -> "Data_Read" <> k -> "Data_Written" <> k ->
  keeps k (non_medium_block output).
Proof.
  intros Hn Hr Hw m m'. unfold non_medium_block.
  destruct (Re.search non_medium_re output) as [cs |]; [| apply keeps_ret].
  intros H.
  rewrite <- (lookup_insert_ne m "Non_Medium_Errors" k (default "" (Re.group 1 cs)) Hn).
  revert H. generalize (<["Non_Medium_Errors" := default "" (Re.group 1 cs)]> m) as m0.
  intros m0.
  apply (keeps_bind k
           (fun m0 => match Re.search (error_log_re false) output with
                      | Some sec =>
                          m1 ← primary_row "Data_Read" "read:" (default "" (Re.group 0 sec))
                                 (table_unit (default "" (Re.group 0 sec))) m0;
                          primary_row "Data_Written" "write:" (default "" (Re.group 0 sec))
                            (table_unit (default "" (Re.group 0 sec))) m1
                      | None => Ret m0
                      end)
           (column_fallback output)).
  - destruct (Re.search (error_log_re false) output); [| apply keeps_ret].
    apply keeps_bind; apply keeps_primary_row; assumption.
  - apply keeps_column_fallback; assumption.
Qed.

Lemma keeps_error_log_block (k output : string) :
  "Data_Read" <> k -> "Data_Written" <> k -> keeps k (error_log_block output).
Proof.
  intros Hr Hw m m'. unfold error_log_block.
  destruct (Re.search (error_log_re true) output); [| apply keeps_ret].
  apply (keeps_bind k (trailing_row "Data_Read" "read:" _ _)
           (trailing_row "Data_Written" "write:" _ _));
    apply keeps_trailing_row; assumption.
Qed.

Lemma keeps_nvme_data_units (k key label output : string) :
  key <> k -> keeps k (nvme_data_units key label output).
Proof.
  intros Hne m m'. unfold nvme_data_units.
  destruct (Re.search _ _); [apply (keeps_insert_value k key _ Hne) | apply keeps_ret].
Qed.

(** The temperature block of the NVMe path sets the key to [kelvin_adjusted]. *)
Lemma nvme_temperature_lookup (output : string) (m m' : gmap string string) :
  m !! "Temperature" = None ->
  nvme_temperature output m = Ret m' ->
  m' !! "Temperature" = kelvin_adjusted output.
Proof.
  intros Hm. unfold nvme_temperature, kelvin_adjusted.
  destruct (Re.search nvme_temp_re output) as [cs |]; [| intros [= <-]; assumption].
  destruct (PyInt.of_string _) as [t |]; [| discriminate].
  destruct (200 <? t).
  - destruct (of_int t) as [x |] eqn:E; [| discriminate].
    apply of_int_ret in E as ->. intros [= <-]. apply lookup_insert_eq.
  - intros [= <-]. apply lookup_insert_eq.
Qed.

Lemma get_nvme_temperature (vendor_check health_output output : option string)
    (text : string) (smart_data : gmap string string) :
  is_vmware vendor_check = false ->
  some_text output = Some text ->
  get_nvme_smart_data vendor_check health_output output = Ret smart_data ->
  smart_data !! "Temperature" = kelvin_adjusted text.
Proof.
  intros Hv Ho. unfold get_nvme_smart_data. fold (is_vmware vendor_check).
  rewrite Hv, Ho.
  set (m0 := store "Smart_Status" _ ∅).
  assert (Hm0 : m0 !! "Temperature" = None).
  { subst m0. rewrite lookup_store_ne by discriminate. apply lookup_empty. }
  destruct (nvme_temperature text m0) as [m1 |] eqn:E1; [| discriminate].
  apply (nvme_temperature_lookup _ _ _ Hm0) in E1. rewrite <- E1.
  unfold mbind at 1, py_bind at 1. cbv beta iota.
  set (m2 := fold_left _ nvme_patterns _).
  assert (Hm2 : m2 !! "Temperature" = m1 !! "Temperature").
  { subst m2. unfold nvme_patterns, fold_left, fst, snd.
    rewrite !lookup_store_ne by discriminate. reflexivity. }
  rewrite <- Hm2. intros H.
  apply (keeps_bind "Temperature"
           (nvme_data_units "Data_Read" "Data Units Read:" text)
           (fun m => m3 ← nvme_data_units "Data_Written" "Data Units Written:" text m; Ret m3)
           ltac:(apply keeps_nvme_data_units; discriminate)
           ltac:(apply keeps_bind;
                 [apply keeps_nvme_data_units; discriminate | apply keeps_ret])
           m2 smart_data H).
Qed.

Lemma get_sata_temperature (health_output output : option string)
    (text : string) (smart_data : gmap string string) :
  some_text output = Some text ->
  get_sata_smart_data health_output output = Ret smart_data ->
  smart_data !! "Temperature" = first_group sata_temp_patterns text.
Proof.
  intros Ho. unfold get_sata_smart_data. rewrite Ho.
  set (m0 := match some_text health_output with Some _ => _ | None => _ end).
  assert (Hm0 : m0 !! "Temperature" = None).
  { subst m0. destruct (some_text health_output) as [h |]; simpl.
    - destruct (PyStr.contains _ h); rewrite ?lookup_store_ne by discriminate;
        rewrite lookup_insert_ne by discriminate; apply lookup_empty.
    - apply lookup_empty. }
  set (m1 := store "Power_Cycles" _ _).
  assert (Hm1 : m1 !! "Temperature" = first_group sata_temp_patterns text).
  { subst m1. rewrite !lookup_store_ne by discriminate.
    apply lookup_store_eq, Hm0. }
  rewrite <- Hm1. intros H.
  destruct (non_medium_block text m1) as [m2 |] eqn:E2; [| discriminate].
  apply (keeps_non_medium_block "Temperature") in E2; try discriminate.
  rewrite <- E2. simpl in H.
  apply (keeps_error_log_block "Temperature") in H; try discriminate.
  rewrite H. apply lookup_store_ne. discriminate.
Qed.

(** C5: on the NVMe path a Celsius reading above 200 is taken as Kelvin and
    replaced by the reading less 273.15, rounded to one decimal, and any
    other reading is kept as it is: 300 gives 26.9 and 45 gives 45.  The
    SAS/SATA path stores the matched reading itself, 300 as 300. *)
Theorem kelvin_heuristic_nvme_only :
  (forall (vendor_check health_output output : option string) (text : string)
          (smart_data : gmap string string),
      is_vmware vendor_check = false ->
      some_text output = Some text ->
      get_nvme_smart_data vendor_check health_output output = Ret smart_data ->
      smart_data !! "Temperature" = kelvin_adjusted text)
  /\ (forall (health_output output : option string) (text : string)
             (smart_data : gmap string string),
      some_text output = Some text ->
      get_sata_smart_data health_output output = Ret smart_data ->
      smart_data !! "Temperature" = first_group sata_temp_patterns text)
  /\ map (attribute "Temperature")
       [get_nvme_smart_data None None (Some (nvme_report "300"));
        get_nvme_smart_data None None (Some (nvme_report "45"));
        get_nvme_smart_data None None (Some (nvme_report "200"));
        get_nvme_smart_data None None (Some (nvme_report "201"))]
     = [Ret (Some "26.9"); Ret (Some "45"); Ret (Some "200"); Ret (Some "-72.1")]
  /\ attribute "Temperature"
       (get_sata_smart_data None (Some "Temperature:   300 Celsius"))
     = Ret (Some "300").
Proof.
  split; [exact get_nvme_temperature |].
  split; [exact get_sata_temperature |].
  split; vm_compute; reflexivity.
Qed.

End Extraction.

Section DataVolume.

Lemma non_medium_block_skipped (output : string) (smart_data : gmap string string) :
  Re.search non_medium_re output = None ->
  non_medium_block output smart_data = Ret smart_data.
Proof. intros H. unfold non_medium_block. rewrite H. reflexivity. Qed.

(** C9 (the code departs from it): the fallback by column position sits
    inside the branch of the non-medium error count.  On a report whose
    error counter log is laid out in columns, the patterns of the log
    section find nothing and the column pattern finds both rows; the two
    attributes are set when the report has the non-medium line and stay
    absent when it has not. *)
Theorem column_fallback_needs_non_medium_count :
  (forall (output : string) (smart_data : gmap string string),
      Re.search non_medium_re output = None ->
      non_medium_block output smart_data = Ret smart_data)
  /\ Re.search (error_log_re false) (sas_report false) = None
  /\ Re.search (error_log_re true) (sas_report false) = None
  /\ Re.findall2 column_re (sas_report false)
     = [("read", "12345.678"); ("write", "2345.678")]
  /\ map (fun k => attribute k (get_sata_smart_data None (Some (sas_report false))))
       ["Data_Read"; "Data_Written"]
     = [Ret None; Ret None]
  /\ map (fun k => attribute k (get_sata_smart_data None (Some (sas_report true))))
       ["Data_Read"; "Data_Written"]
     = [Ret (Some "12.1 TB"); Ret (Some "2.29 TB")].
Proof.
  split; [exact non_medium_block_skipped |].
  repeat split; vm_compute; reflexivity.
Qed.

End DataVolume.
(* ===================================================================== *)
(** * Re-normalizing canonical output *)
(* ===================================================================== *)

Section Idempotence.

(** C2 (the code departs from it): the precision of [format_size] is chosen
    before the value is rounded, so 9.999 is printed with two decimals as
    10.00 and 99.96 with one decimal as 100.0; normalizing these renderings
    again gives 10.0 and 100, other texts.  A SAS report whose write row
    reads 9.999 gigabytes stores such a rendering. *)
Theorem normalize_size_not_idempotent :
  map normalize_size_unit ["9.999 GB"; "10.00 GB"; "99.96 MB"; "100.0 MB"; "9.999"; "10.00 B"]
  = map Ret ["10.00 GB"; "10.0 GB"; "100.0 MB"; "100 MB"; "10.00 B"; "10.0 B"]
  /\ attribute "Data_Written"
       (get_sata_smart_data None (Some (sas_report_of "12345.678" "9.999" true)))
     = Ret (Some "10.00 GB").
Proof. split; vm_compute; reflexivity. Qed.

(** The duration half of the same sentence holds: [format_hours] returns
    its own output unchanged, because that output never reads as an
    integer. *)

Lemma last_char_app (a b : string) : b <> "" -> last_char (a +:+ b) = last_char b.
Proof.
  intros Hb. induction a as [| c a IH]; [reflexivity |].
  simpl. rewrite IH.
  destruct (a +:+ b) eqn:E; [| reflexivity].
  destruct a; simpl in E; [contradiction | discriminate].
Qed.

Lemma last_char_cons (c : ascii) (s : string) : s <> "" -> last_char (String c s) = last_char s.
Proof. destruct s; [contradiction | reflexivity]. Qed.

Lemma last_char_some (s : string) : s <> "" -> exists c, last_char s = Some c.
Proof.
  induction s as [| c s IH]; [contradiction |]. intros _.
  destruct s as [| d s]; [exists c; reflexivity |].
  destruct IH as [x Hx]; [discriminate |]. exists x. exact Hx.
Qed.

Lemma last_char_rstrip (s : string) (c : ascii) :
  last_char s = Some c -> PyStr.isspace c = false -> last_char (PyStr.rstrip s) = Some c.
Proof.
  induction s as [| a s IH]; [discriminate |].
  intros Hl Hc. destruct s as [| b s].
  - injection Hl as ->. simpl. rewrite Hc. reflexivity.
  - specialize (IH Hl Hc). change (PyStr.rstrip (String a (String b s)))
      with (match PyStr.rstrip (String b s) with
            | EmptyString => if PyStr.isspace a then EmptyString else String a EmptyString
            | r' => String a r'
            end).
    destruct (PyStr.rstrip (String b s)) as [| x r]; [discriminate IH |].
    exact IH.
Qed.

Lemma last_char_lstrip (s : string) (c : ascii) :
  last_char s = Some c -> PyStr.isspace c = false -> last_char (PyStr.lstrip s) = Some c.
Proof.
  induction s as [| a s IH]; [discriminate |].
  intros Hl Hc. simpl PyStr.lstrip. destruct (PyStr.isspace a) eqn:Ea; [| exact Hl].
  destruct s as [| b s]; [injection Hl as ->; congruence |].
  apply IH; assumption.
Qed.

Lemma last_char_strip (s : string) (c : ascii) :
  last_char s = Some c -> PyStr.isspace c = false -> last_char (PyStr.strip s) = Some c.
Proof.
  intros Hl Hc. unfold PyStr.strip.
  apply last_char_rstrip; [apply last_char_lstrip |]; assumption.
Qed.

(** A digit part that reaches the end of the text ends with a digit. *)
Lemma digitpart_end (k : nat) :
  forall (t : string) (started : bool) (acc : Z) (n : nat) (v : Z) (n' : nat),
    (String.length t <= k)%nat ->
    digitpart started acc n t = (v, n', EmptyString) ->
    t = "" \/ exists c, last_char t = Some c /\ PyStr.isdigit c = true.
Proof.
  induction k as [| k IH]; intros t started acc n v n' Hlen H.
  - destruct t; [left; reflexivity | simpl in Hlen; lia].
  - destruct t as [| c r]; [left; reflexivity |]. right.
    simpl in Hlen. simpl in H.
    destruct (PyStr.isdigit c) eqn:Ec.
    + destruct (IH r _ _ _ _ _ ltac:(lia) H) as [-> | (x & Hx & Hd)].
      * exists c. split; [reflexivity | assumption].
      * exists x. split; [| assumption].
        rewrite last_char_cons; [assumption |]. intros ->. discriminate Hx.
    + destruct (Ascii.eqb c "_" && started); [| discriminate H].
      destruct r as [| c2 r2]; [discriminate H |].
      destruct (PyStr.isdigit c2) eqn:Ec2; [| discriminate H].
      simpl in Hlen.
      destruct (IH r2 _ _ _ _ _ ltac:(lia) H) as [-> | (x & Hx & Hd)].
      * exists c2. split; [reflexivity | assumption].
      * exists x. split; [| assumption].
        rewrite !last_char_cons; [assumption | | discriminate].
        intros ->. discriminate Hx.
Qed.

Lemma take_sign_rest (t : string) :
  snd (take_sign t) = t \/ exists c, t = String c (snd (take_sign t)).
Proof.
  destruct t as [| c r]; [left; reflexivity |].
  unfold take_sign.
  destruct (Ascii.eqb_spec c "-") as [-> | H1]; [right; eexists; reflexivity |].
  destruct (Ascii.eqb_spec c "+") as [-> | H2]; [right; eexists; reflexivity |].
  left. destruct c as [[] [] [] [] [] [] [] []]; try reflexivity;
    exfalso; first [apply H1; reflexivity | apply H2; reflexivity].
Qed.

(** Text that reads as an integer ends, blanks apart, with a digit. *)
Lemma int_text_ends_with_digit (text : string) (v : Z) :
  PyInt.of_string text = Some v ->
  exists c, last_char (PyStr.strip text) = Some c /\ PyStr.isdigit c = true.
Proof.
  unfold PyInt.of_string.
  pose proof (take_sign_rest (PyStr.strip text)) as Hs.
  destruct (take_sign (PyStr.strip text)) as [neg t]. simpl in Hs.
  destruct (digitpart false 0 0 t) as [[w n] r] eqn:E.
  destruct n as [| n]; [discriminate |].
  destruct r; [| discriminate]. intros _.
  destruct (digitpart_end _ t _ _ _ _ _ (le_n _) E) as [-> | (c & Hc & Hd)].
  - discriminate E.
  - exists c. split; [| assumption].
    destruct Hs as [<- | (s & ->)]; [assumption |].
    rewrite last_char_cons; [assumption |]. intros ->. discriminate Hc.
Qed.

Lemma last_char_join (sep : string) (parts : list string) (p : string) :
  p <> "" -> last_char (PyStr.join sep (parts ++ [p])) = last_char p.
Proof.
  intros Hp. induction parts as [| a parts IH]; [reflexivity |].
  simpl app. change (PyStr.join sep (a :: parts ++ [p]))
    with (match parts ++ [p] with
          | [] => a
          | _ :: _ => a +:+ sep +:+ PyStr.join sep (parts ++ [p])
          end).
  destruct (parts ++ [p]) as [| b l] eqn:E; [destruct parts; discriminate E |].
  assert (Hj : PyStr.join sep (b :: l) <> "").
  { intros H. rewrite H in IH. simpl in IH.
    destruct (last_char_some p Hp) as [x Hx]. congruence. }
  rewrite last_char_app.
  - rewrite last_char_app by exact Hj. exact IH.
  - intros H. destruct sep; simpl in H; [contradiction | discriminate].
Qed.

Lemma last_char_join_last (sep : string) (l : list string) :
  l <> [] -> List.last l "" <> "" ->
  last_char (PyStr.join sep l) = last_char (List.last l "").
Proof.
  intros Hl Hp. rewrite (app_removelast_last "" Hl) at 1.
  apply last_char_join, Hp.
Qed.

(** [format_hours] applied to its own output returns it unchanged. *)
Lemma format_hours_idempotent (hours_str : string) :
  format_hours (format_hours hours_str) = format_hours hours_str.
Proof.
  destruct (PyInt.of_string hours_str) as [h |] eqn:E;
    [| unfold format_hours; rewrite !E; reflexivity].
  unfold format_hours at 2 3. rewrite E. cbv zeta.
  set (years := h / (365 * 24)). set (r1 := h mod (365 * 24)).
  set (months := r1 / (30 * 24)). set (r2 := r1 mod (30 * 24)).
  set (days := r2 / 24). set (hours := r2 mod 24).
  match goal with |- format_hours ?out = _ => set (o := out) end.
  assert (Hlast : exists c, last_char o = Some c
                            /\ PyStr.isspace c = false /\ PyStr.isdigit c = false).
  { subst o.
    destruct (0 <? years), (0 <? months), (0 <? days), (0 <? hours); simpl app; simpl orb;
      cbv iota;
      (rewrite last_char_join_last;
       [ simpl List.last; rewrite last_char_app by discriminate; simpl;
         eexists; split; [reflexivity | split; reflexivity]
       | discriminate
       | simpl List.last; intros Hn; destruct (PyStr.of_Z _); discriminate Hn ]). }
  destruct Hlast as (c & Hc & Hsp & Hdg).
  unfold format_hours.
  destruct (PyInt.of_string o) as [v |] eqn:Eo; [| reflexivity].
  apply int_text_ends_with_digit in Eo as (x & Hx & Hd).
  rewrite (last_char_strip o c Hc Hsp) in Hx. congruence.
Qed.

End Idempotence.
(* ===================================================================== *)
(** * Division by the unit step *)
(* ===================================================================== *)

Section Division.

Ltac fexp_lia := rewrite ?fexp_eq in *; lia.

(** The quotient handed to the rounding step: it is not negative, it has
    digits to spare for the rounding, and its magnitude is at most one
    binade above the difference of the operands' magnitudes. *)
Lemma div_core (n d : positive) (e1 e2 : Z) :
  let '(q, e, l) := SFdiv_core_binary prec emax (Zpos n) e1 (Zpos d) e2 in
  0 <= q /\ e <= fexp prec emax (Zdigits2 q + e)
  /\ (0 < q -> Zdigits2 q + e <= Zdigits2 (Zpos n) + e1 - (Zdigits2 (Zpos d) + e2) + 1)
  /\ e <= fexp prec emax (Zdigits2 (Zpos n) + e1 - (Zdigits2 (Zpos d) + e2)).
Proof.
  unfold SFdiv_core_binary.
  set (d1 := Zdigits2 (Zpos n)). set (d2 := Zdigits2 (Zpos d)).
  set (e' := Z.min (fexp prec emax (d1 + e1 - (d2 + e2))) (e1 - e2)).
  set (s := e1 - e2 - e').
  assert (Hs : 0 <= s) by (subst s e'; lia).
  set (m' := match s with Z.pos _ => Z.shiftl (Zpos n) s | 0 => Zpos n | Z.neg _ => 0 end).
  assert (Hm' : m' = Zpos n * 2 ^ s).
  { subst m'. destruct s as [|p|p] eqn:Es; [simpl; lia | | lia].
    rewrite Z.shiftl_mul_pow2 by lia. reflexivity. }
  pose proof (Z.div_eucl_eq m' (Zpos d) ltac:(lia)) as Hdiv.
  pose proof (Z.mod_pos_bound m' (Zpos d) ltac:(lia)) as Hmod.
  unfold Z.modulo in Hmod.
  assert (Hq : fst (Z.div_eucl m' (Zpos d)) = m' / Zpos d) by reflexivity.
  destruct (Z.div_eucl m' (Zpos d)) as [q r]. simpl in Hq.
  assert (H2s : 0 < 2 ^ s) by (apply Z.pow_pos_nonneg; lia).
  assert (Hq0 : 0 <= q) by (rewrite Hq; apply Z.div_pos; nia).
  split; [assumption |].
  assert (Hd1 : d1 = Z.log2 (Zpos n) + 1) by (apply Zdigits2_log2; lia).
  assert (Hd2 : d2 = Z.log2 (Zpos d) + 1) by (apply Zdigits2_log2; lia).
  pose proof (Z.log2_nonneg (Zpos n)) as Hn0.
  pose proof (Z.log2_nonneg (Zpos d)) as Hd0.
  assert (Hlm : Z.log2 m' = s + Z.log2 (Zpos n)).
  { rewrite Hm'. apply Z.log2_mul_pow2; lia. }
  destruct (Z.eq_dec q 0) as [-> | Hqn].
  - rewrite Zdigits2_0.
    assert (Hlt : m' < Zpos d) by nia.
    assert (Hle : Z.log2 m' <= Z.log2 (Zpos d)) by (apply Z.log2_le_mono; lia).
    subst e' s. split; [fexp_lia | split; [intros Hlt0; lia | fexp_lia]].
  - assert (Hqpos : 0 < q) by lia.
    rewrite (Zdigits2_log2 q Hqpos).
    assert (Hlow : s + d1 - d2 - 1 <= Z.log2 q).
    { destruct (Z.le_gt_cases 0 (s + d1 - d2 - 1)) as [Hk | Hk];
        [| pose proof (Z.log2_nonneg q); lia].
      apply Z.log2_le_pow2; [assumption |].
      rewrite Hq. apply Z.div_le_lower_bound; [lia |].
      pose proof (Z.log2_spec (Zpos d) ltac:(lia)) as [_ Hdu].
      pose proof (Z.log2_spec m' ltac:(nia)) as [Hml _].
      rewrite Hlm in Hml.
      replace (Z.succ (Z.log2 (Zpos d))) with d2 in Hdu by lia.
      replace (s + Z.log2 (Zpos n)) with (d2 + (s + d1 - d2 - 1)) in Hml by lia.
      rewrite Z.pow_add_r in Hml by lia.
      assert (0 < 2 ^ (s + d1 - d2 - 1)) by (apply Z.pow_pos_nonneg; lia).
      nia. }
    assert (Hup : Z.log2 q + Z.log2 (Zpos d) <= Z.log2 m').
    { apply Z.le_trans with (Z.log2 (q * Zpos d)).
      - apply Z.log2_mul_below; lia.
      - apply Z.log2_le_mono. nia. }
    subst e' s. split; [fexp_lia | split; [intros _; fexp_lia | fexp_lia]].
Qed.

(** Rounding a quotient whose magnitude is below the largest binade gives
    a number, with the sign it was given. *)
Lemma binary_round_aux_finite (s : bool) (m e : Z) (l : location) :
  0 <= m -> (0 < m -> Zdigits2 m + e <= 1023) -> e <= 971 ->
  binary_round_aux prec emax s m e l = S754_zero s
  \/ exists m' e', binary_round_aux prec emax s m e l = S754_finite s m' e'.
Proof.
  intros Hm Hd0 He.
  assert (Hd : Zdigits2 m + e <= 1023).
  { destruct (Z.eq_dec m 0) as [-> |]; [rewrite Zdigits2_0; lia | apply Hd0; lia]. }
  unfold binary_round_aux.
  pose proof (shr_fexp_spec m e l Hm) as [H1 H2].
  destruct (shr_fexp prec emax m e l) as [mrs1 e1]. simpl fst in H1; simpl snd in H2.
  set (n := Z.max 0 (fexp prec emax (Zdigits2 m + e) - e)) in *.
  assert (Hn : 0 <= n) by lia.
  assert (H2n : 0 < 2 ^ n) by (apply Z.pow_pos_nonneg; lia).
  assert (Hm1 : 0 <= shr_m mrs1) by (rewrite H1; apply Z.div_pos; lia).
  assert (Hd1 : shr_m mrs1 = 0 \/ (0 < shr_m mrs1 /\ Zdigits2 (shr_m mrs1) + e1 = Zdigits2 m + e)).
  { destruct (Z.eq_dec (shr_m mrs1) 0) as [| Hne]; [left; assumption | right].
    split; [lia |]. rewrite H1 in *.
    assert (0 < m) by (destruct (Z.eq_dec m 0) as [-> |]; [rewrite Z.div_0_l in Hne; lia | lia]).
    rewrite Zdigits2_shift by lia. lia. }
  assert (He1 : e1 <= 971) by (subst n; fexp_lia).
  set (m' := round_nearest_even (shr_m mrs1) (loc_of_shr_record mrs1)).
  assert (Hm' : 0 <= m' /\ Zdigits2 m' + e1 <= 1024).
  { subst m'. destruct (round_nearest_even_cases (shr_m mrs1) (loc_of_shr_record mrs1)) as [-> | ->].
    - split; [assumption |]. destruct Hd1 as [-> | [_ ->]]; [rewrite Zdigits2_0; fexp_lia | lia].
    - split; [lia |]. destruct Hd1 as [-> | [Hp Hq]].
      + simpl. fexp_lia.
      + destruct (Zdigits2_succ _ Hp) as [-> | ->]; lia. }
  destruct Hm' as [Hm'0 Hm'd].
  pose proof (shr_fexp_spec m' e1 loc_Exact Hm'0) as [H3 H4].
  destruct (shr_fexp prec emax m' e1 loc_Exact) as [mrs2 e2]. simpl fst in H3; simpl snd in H4.
  set (n' := Z.max 0 (fexp prec emax (Zdigits2 m' + e1) - e1)) in *.
  assert (H2n' : 0 < 2 ^ n') by (apply Z.pow_pos_nonneg; lia).
  assert (Hm2 : 0 <= shr_m mrs2) by (rewrite H3; apply Z.div_pos; lia).
  destruct (shr_m mrs2) as [| p | p]; [left; reflexivity | right | lia].
  assert (Hle : e2 <= emax - prec) by (unfold emax, prec; subst n n'; fexp_lia).
  apply Z.leb_le in Hle. rewrite Hle. eexists _, _. reflexivity.
Qed.

Lemma div_valid (x y : float) : valid x -> valid y -> valid (div x y).
Proof.
  unfold valid, div. intros Hx Hy.
  destruct x as [sx|sx| |sx mx ex], y as [sy|sy| |sy my ey]; try reflexivity.
  unfold SFdiv.
  pose proof (div_core mx my ex ey) as H.
  destruct (SFdiv_core_binary prec emax (Zpos mx) ex (Zpos my) ey) as [[q e] l].
  destruct H as (Hq & He & _). apply binary_round_aux_valid; assumption.
Qed.

(** Dividing a number by 1024 gives a number of the same sign. *)
Lemma div_f1024 (x : float) :
  valid x -> is_finite x = true ->
  valid (div x f1024) /\ is_finite (div x f1024) = true
  /\ sign_of (div x f1024) = sign_of x.
Proof.
  intros Hx Hf.
  split; [apply div_valid; [assumption | apply of_Z_valid] |].
  destruct x as [sx|sx| |sx mx ex]; try discriminate Hf.
  - destruct sx; split; reflexivity.
  - unfold valid in Hx. simpl in Hx.
    pose proof (bounded_facts mx ex Hx) as (He1 & Hd1 & _).
    assert (Hex : ex <= 971).
    { unfold bounded in Hx. apply andb_true_iff in Hx as [_ Hx].
      apply Z.leb_le in Hx. unfold emax, prec in Hx. lia. }
    change f1024 with (S754_finite false 4503599627370496 (-42)).
    unfold div, SFdiv.
    pose proof (div_core mx 4503599627370496 ex (-42)) as H.
    destruct (SFdiv_core_binary prec emax (Zpos mx) ex (Zpos 4503599627370496) (-42))
      as [[q e] l].
    destruct H as (Hq & _ & Hmag & He).
    change (Zdigits2 (Zpos 4503599627370496)) with 53 in *.
    rewrite xorb_false_r.
    destruct (binary_round_aux_finite sx q e l Hq) as [-> | (m' & e' & ->)];
      [intros Hp; specialize (Hmag Hp); lia | fexp_lia | split; reflexivity | split; reflexivity].
Qed.

End Division.
(* ===================================================================== *)
(** * The texts of sizes *)
(* ===================================================================== *)

Section Texts.

Lemma all_in_app (p : ascii -> bool) (a b : string) :
  all_in p (a +:+ b) = all_in p a && all_in p b.
Proof.
  induction a as [| c a IH]; [reflexivity |].
  simpl. rewrite IH. apply andb_assoc.
Qed.

Lemma all_in_mono (p q : ascii -> bool) (s : string) :
  (forall c, p c = true -> q c = true) -> all_in p s = true -> all_in q s = true.
Proof.
  intros Hpq. induction s as [| c s IH]; [reflexivity |].
  simpl. intros H. apply andb_true_iff in H as [Hc Hs].
  rewrite (Hpq c Hc), (IH Hs). reflexivity.
Qed.

Lemma all_in_uint (d : Decimal.uint) :
  all_in PyStr.isdigit (NilEmpty.string_of_uint d) = true.
Proof. induction d; simpl; assumption || reflexivity. Qed.

(** [str(n)] of an integer that is not negative: digits, at least one. *)
Lemma of_Z_digits (n : Z) :
  0 <= n -> all_in PyStr.isdigit (PyStr.of_Z n) = true /\ PyStr.of_Z n <> "".
Proof.
  intros Hn. unfold PyStr.of_Z. destruct n as [| p | p]; [split; [reflexivity | discriminate] | | lia].
  simpl. pose proof (DecimalPos.Unsigned.to_uint_nonnil p) as Hp.
  unfold NilZero.string_of_uint.
  destruct (Pos.to_uint p) as [| d | d | d | d | d | d | d | d | d | d] eqn:E;
    [contradiction | ..];
    (split; [rewrite <- E || idtac; try (simpl; apply all_in_uint) | discriminate]).
Qed.

Lemma of_Z_chars (n : Z) : all_in float_char (PyStr.of_Z n) = true /\ PyStr.of_Z n <> "".
Proof.
  destruct (Z.le_gt_cases 0 n) as [Hn | Hn].
  - destruct (of_Z_digits n Hn) as [Hd Hne]. split; [| assumption].
    apply (all_in_mono PyStr.isdigit); [| assumption].
    intros c Hc. unfold float_char. rewrite Hc. reflexivity.
  - destruct n as [| p | p]; try lia. unfold PyStr.of_Z. simpl.
    split; [| discriminate].
    destruct (of_Z_digits (Zpos p) ltac:(lia)) as [Hd _].
    unfold PyStr.of_Z in Hd. simpl in Hd.
    apply (all_in_mono PyStr.isdigit); [| assumption].
    intros c Hc. unfold float_char. rewrite Hc. reflexivity.
Qed.

Lemma all_in_zeros (n : nat) : all_in float_char (zeros n) = true.
Proof. induction n as [| n IH]; [reflexivity | exact IH]. Qed.

Lemma all_in_take (p : ascii -> bool) (n : nat) (s : string) :
  all_in p s = true -> all_in p (PyStr.take n s) = true.
Proof.
  revert s. induction n as [| n IH]; intros s H; [reflexivity |].
  destruct s as [| c s]; [reflexivity |].
  simpl in *. apply andb_true_iff in H as [-> H]. apply IH, H.
Qed.

Lemma all_in_substring (p : ascii -> bool) (n m : nat) (s : string) :
  all_in p s = true -> all_in p (String.substring n m s) = true.
Proof.
  revert n m. induction s as [| c s IH]; intros n m H.
  - destruct n, m; reflexivity.
  - simpl in H. apply andb_true_iff in H as [Hc H].
    destruct n as [| n]; simpl.
    + destruct m as [| m]; [reflexivity |]. simpl. rewrite Hc. apply IH, H.
    + apply IH, H.
Qed.

Lemma all_in_pad (w : nat) (n : Z) : all_in float_char (pad w n) = true.
Proof.
  unfold pad. rewrite all_in_app, all_in_zeros. apply of_Z_chars.
Qed.

Lemma app_nonempty_r (a b : string) : b <> "" -> a +:+ b <> "".
Proof. intros Hb H. destruct a; simpl in H; [contradiction | discriminate]. Qed.

Lemma app_nonempty_l (a b : string) : a <> "" -> a +:+ b <> "".
Proof. intros Ha H. destruct a; simpl in H; [contradiction | discriminate]. Qed.

Lemma sign_text_chars (s : bool) : all_in float_char (sign_text s) = true.
Proof. destruct s; reflexivity. Qed.

Lemma format_fixed_chars (nd : nat) (x : float) :
  all_in float_char (format_fixed nd x) = true.
Proof.
  assert (H : forall s r, all_in float_char (fixed_text s nd r) = true).
  { intros s r. unfold fixed_text.
    rewrite !all_in_app, sign_text_chars. rewrite (proj1 (of_Z_chars _)).
    destruct nd; [reflexivity |]. rewrite all_in_app, all_in_pad. reflexivity. }
  destruct x as [s | s | | s m e]; simpl;
    [apply H | destruct s; reflexivity | reflexivity | apply H].
Qed.

Lemma layout_chars (ds : string) (decpt : Z) :
  all_in float_char ds = true -> ds <> "" ->
  all_in float_char (layout ds decpt) = true /\ layout ds decpt <> "".
Proof.
  intros Hd Hne. unfold layout.
  destruct (_ && _).
  - destruct (decpt <=? 0); [split; [rewrite !all_in_app, all_in_zeros, Hd; reflexivity | discriminate] |].
    destruct (_ <=? decpt).
    + split; [rewrite !all_in_app, all_in_zeros, Hd; reflexivity | apply app_nonempty_l, Hne].
    + split; [| apply app_nonempty_r; discriminate].
      rewrite !all_in_app, all_in_take, all_in_substring by assumption. reflexivity.
  - split.
    + rewrite !all_in_app, all_in_pad.
      assert (Hm : all_in float_char
                     match ds with
                     | String c EmptyString => ds
                     | String c r => String c ("." +:+ r)
                     | EmptyString => ds
                     end = true).
      { destruct ds as [| c [| c2 r]]; assumption. }
      rewrite Hm. destruct (_ <? 0); reflexivity.
    + apply app_nonempty_r. discriminate.
Qed.

Lemma float_size_char (c : ascii) : float_char c = true -> size_char c = true.
Proof.
  unfold float_char, size_char. destruct (PyStr.isdigit c); [reflexivity |].
  unfold Re.one_of. simpl.
  repeat (destruct (Ascii.eqb c _); [reflexivity |]). discriminate.
Qed.

Lemma float_size_text (t : string) : all_in float_char t = true -> all_in size_char t = true.
Proof. apply all_in_mono, float_size_char. Qed.

(** The text of [repr] is made of the characters of a float and is not
    empty. *)
Lemma repr_chars (x : float) : all_in float_char (repr x) = true /\ repr x <> "".
Proof.
  destruct x as [s | s | | s m e];
    [destruct s; (split; [reflexivity | discriminate])
    | destruct s; (split; [reflexivity | discriminate])
    | split; [reflexivity | discriminate] |].
  unfold repr.
  destruct (if 0 <=? e then _ else _) as [num den].
  destruct (shortest _ _ _ _ _) as [D0 e0].
  destruct (strip_zeros 20 D0 e0) as [D e1].
  destruct (of_Z_chars D) as [Hc Hne].
  destruct (layout_chars (PyStr.of_Z D) (e1 + Z.of_nat (String.length (PyStr.of_Z D))) Hc Hne)
    as [Hl Hn].
  split; [rewrite all_in_app, sign_text_chars; exact Hl | apply app_nonempty_r, Hn].
Qed.

Lemma unit_at_chars (k : nat) : all_in size_char (unit_at k) = true.
Proof. do 6 (destruct k as [| k]; [reflexivity |]). destruct k; reflexivity. Qed.

(** What [format_size] returns is a size text. *)
Lemma format_size_chars (size_bytes : float) (r : string) :
  format_size size_bytes = Ret r -> all_in size_char r = true /\ r <> "".
Proof.
  unfold format_size.
  destruct (escalate _) as [size unit_index].
  assert (Hu : forall a, all_in size_char a = true ->
                 all_in size_char (a +:+ " " +:+ unit_at unit_index) = true
                 /\ a +:+ " " +:+ unit_at unit_index <> "").
  { intros a Ha. split; [| apply app_nonempty_r; discriminate].
    rewrite !all_in_app, Ha, unit_at_chars. reflexivity. }
  destruct (ltb size f10); [intros [= <-]; apply Hu, float_size_text, format_fixed_chars |].
  destruct (ltb size f100); [intros [= <-]; apply Hu, float_size_text, format_fixed_chars |].
  destruct (to_int size) as [n | []]; try discriminate.
  - intros [= <-]. apply Hu, float_size_text, of_Z_chars.
  - intros [= <-]. destruct (repr_chars size_bytes) as [H1 H2].
    split; [apply float_size_text, H1 | exact H2].
  - intros [= <-]. destruct (repr_chars size_bytes) as [H1 H2].
    split; [apply float_size_text, H1 | exact H2].
Qed.

Lemma normalize_plain_chars (t r : string) :
  all_in size_char t = true -> t <> "" ->
  normalize_plain t = Ret r -> all_in size_char r = true /\ r <> "".
Proof.
  intros Ht Hne. unfold normalize_plain.
  destruct (of_string t) as [v |]; [| intros [= <-]; split; assumption].
  destruct (format_size v) as [x | e] eqn:E.
  - intros [= <-]. apply (format_size_chars v), E.
  - destruct e; [intros [= <-]; split; assumption .. | discriminate].
Qed.

(** Normalizing a size text gives a size text. *)
Lemma normalize_size_unit_chars (t r : string) :
  all_in size_char t = true -> t <> "" ->
  normalize_size_unit t = Ret r -> all_in size_char r = true /\ r <> "".
Proof.
  intros Ht Hne. unfold normalize_size_unit.
  destruct (String.eqb_spec t "") as [-> | _]; [contradiction |].
  destruct (Re.rmatch size_re t) as [cs |]; [| apply normalize_plain_chars; assumption].
  destruct (size_groups cs) as [[value unit] | e]; [| discriminate].
  unfold mbind, py_bind.
  destruct (lookup_unit unit multipliers) as [mult |];
    [apply format_size_chars | apply normalize_plain_chars; assumption].
Qed.

End Texts.
(* ===================================================================== *)
(** * What [format_size] and the delta return *)
(* ===================================================================== *)

Section SizeOutcomes.

Lemma scaled_number (size_bytes : float) (k : nat) :
  valid size_bytes -> is_finite size_bytes = true ->
  valid (scaled size_bytes k) /\ is_finite (scaled size_bytes k) = true
  /\ sign_of (scaled size_bytes k) = sign_of size_bytes.
Proof.
  intros Hv Hf. induction k as [| k (IH1 & IH2 & IH3)]; [repeat split; assumption |].
  change (scaled size_bytes (S k)) with (div (scaled size_bytes k) f1024).
  destruct (div_f1024 _ IH1 IH2) as (H1 & H2 & H3).
  repeat split; [assumption | assumption | congruence].
Qed.

Lemma final_value_number (size_bytes : float) :
  valid size_bytes -> is_finite size_bytes = true ->
  valid (final_value size_bytes) /\ is_finite (final_value size_bytes) = true
  /\ sign_of (final_value size_bytes) = sign_of size_bytes.
Proof.
  intros Hv Hf. unfold final_value.
  destruct (scaled_number size_bytes (ladder_index size_bytes) Hv Hf) as (H1 & H2 & H3).
  destruct (escalates _ _); [| repeat split; assumption].
  destruct (div_f1024 _ H1 H2) as (H4 & H5 & H6).
  repeat split; [assumption | assumption | congruence].
Qed.

Lemma to_int_number (x : float) : is_finite x = true -> exists n, to_int x = Ret n.
Proof. destruct x; try discriminate; intros _; eexists; reflexivity. Qed.

Lemma final_unit (size_bytes : float) : In (unit_at (final_index size_bytes)) units.
Proof.
  pose proof (final_index_le size_bytes) as H.
  destruct (final_index size_bytes) as [| [| [| [| [| [| k]]]]]]; simpl; auto 10. lia.
Qed.

(** For a number, [format_size] prints the value counted in the unit of
    the ladder. *)
Lemma format_size_number (size_bytes : float) :
  valid size_bytes -> is_finite size_bytes = true ->
  exists n : Z,
    to_int (final_value size_bytes) = Ret n
    /\ format_size size_bytes =
       Ret (number_text (final_value size_bytes) n +:+ " " +:+
            unit_at (final_index size_bytes))
    /\ In (unit_at (final_index size_bytes)) units.
Proof.
  intros Hv Hf.
  destruct (final_value_number size_bytes Hv Hf) as (_ & Hfin & _).
  destruct (to_int_number _ Hfin) as [n Hn]. exists n.
  split; [assumption |]. split; [| apply final_unit].
  unfold format_size. rewrite format_size_final. unfold number_text.
  destruct (ltb _ f10); [reflexivity |].
  destruct (ltb _ f100); [reflexivity |].
  rewrite Hn. reflexivity.
Qed.

(** X1: [format_size] returns a text for every number: the value
    counted in the unit of the ladder, a blank, and one of the six unit
    names; no exception leaves it and the fallback [str(size_bytes)] is not
    taken.  The positive infinity raises [OverflowError], which the handler
    of the function does not catch; the negative infinity is below 10 and
    is printed in bytes; a NaN is returned as [nan]. *)
Theorem format_size_outcomes :
  (forall size_bytes : float,
      valid size_bytes -> is_finite size_bytes = true ->
      exists n : Z,
        to_int (final_value size_bytes) = Ret n
        /\ format_size size_bytes =
           Ret (number_text (final_value size_bytes) n +:+ " " +:+
                unit_at (final_index size_bytes))
        /\ In (unit_at (final_index size_bytes)) units)
  /\ format_size (S754_infinity false) = Raise OverflowError
  /\ format_size (S754_infinity true) = Ret "-inf B"
  /\ format_size S754_nan = Ret "nan".
Proof.
  split; [exact format_size_number | repeat split; vm_compute; reflexivity].
Qed.

Lemma format_size_outcomes_witness :
  exists n : Z,
    to_int (final_value (of_Z 123456789)) = Ret n
    /\ format_size (of_Z 123456789) =
       Ret (number_text (final_value (of_Z 123456789)) n +:+ " " +:+
            unit_at (final_index (of_Z 123456789)))
    /\ In (unit_at (final_index (of_Z 123456789))) units.
Proof.
  apply (proj1 format_size_outcomes (of_Z 123456789)); vm_compute; reflexivity.
Defined.

End SizeOutcomes.

Section Markers.

Lemma marker_chars : all_in size_char RESET = false /\ all_in size_char NOT_AVAILABLE = false.
Proof. split; vm_compute; reflexivity. Qed.

(** The rendering of a difference is a size text: it is neither of the
    two markers. *)
Lemma rendered_difference (d : float) (r : string) :
  normalize_size_unit (repr d) = Ret r -> r <> RESET /\ r <> NOT_AVAILABLE.
Proof.
  intros H. destruct (repr_chars d) as [Hc Hne].
  destruct (normalize_size_unit_chars _ _ (float_size_text _ Hc) Hne H) as [Hr _].
  destruct marker_chars as [H1 H2].
  split; intros ->; congruence.
Qed.

(** X2: the two markers of [calculate_size_increment] are unambiguous.
    The reset marker is returned exactly when both values parse and the
    current byte count is below the previous one, and N/A exactly when one
    of the values does not parse: the rendering of a difference is never
    one of them. *)
Theorem calculate_size_increment_markers (old_value new_value : string) :
  (calculate_size_increment old_value new_value = Ret RESET
   <-> exists old_bytes new_bytes : float,
         parse_size_to_bytes old_value = Some old_bytes
         /\ parse_size_to_bytes new_value = Some new_bytes
         /\ ltb new_bytes old_bytes = true)
  /\ (calculate_size_increment old_value new_value = Ret NOT_AVAILABLE
      <-> parse_size_to_bytes old_value = None \/ parse_size_to_bytes new_value = None).
Proof.
  unfold calculate_size_increment.
  destruct (parse_size_to_bytes old_value) as [o |] eqn:Eo.
  2: { split; split; try (intros _; auto; reflexivity).
       - discriminate.
       - intros (o & n & H & _). discriminate H. }
  destruct (parse_size_to_bytes new_value) as [n |] eqn:En.
  2: { split; split; try (intros _; auto; reflexivity).
       - discriminate.
       - intros (o' & n' & _ & H & _). discriminate H. }
  rewrite sub_negative_lt by (eapply parse_size_to_bytes_valid; eassumption).
  destruct (ltb n o) eqn:Hlt.
  - split; split.
    + intros _. exists o, n. auto.
    + reflexivity.
    + discriminate.
    + intros [H | H]; discriminate H.
  - split; split.
    + intros H. apply rendered_difference in H as [H _]. contradiction.
    + intros (o' & n' & [= <-] & [= <-] & H). congruence.
    + intros H. apply rendered_difference in H as [_ H]. contradiction.
    + intros [H | H]; discriminate H.
Qed.

End Markers.
(* ===================================================================== *)
(** * Reading a printed size back *)
(* ===================================================================== *)

Section ParseBack.

Lemma digit_facts (c : ascii) :
  PyStr.isdigit c = true ->
  PyStr.lower_char c = c /\ PyStr.isspace c = false
  /\ Ascii.eqb c "i" = false /\ Ascii.eqb c "n" = false
  /\ Ascii.eqb c "-" = false /\ Ascii.eqb c "+" = false
  /\ Ascii.eqb c "N" = false.
Proof.
  destruct c as [[] [] [] [] [] [] [] []]; intros H; try discriminate H;
    repeat split; reflexivity.
Qed.

Lemma point_facts (c : ascii) :
  c = "."%char \/ c = " "%char \/ Re.one_of "BKMGTP" c = true ->
  PyStr.isdigit c = false /\ Ascii.eqb c "_" = false.
Proof.
  intros [-> | [-> | H]]; [split; reflexivity .. |].
  destruct c as [[] [] [] [] [] [] [] []]; try discriminate H; split; reflexivity.
Qed.

(** A greedy repetition over a run of the class, followed by text that
    does not begin with the class, takes the whole run when the rest of
    the pattern matches there. *)
Lemma rep_greedy_all {A : Type} (p : ascii -> bool) (ds rest : string)
    (k : string -> option A) (x : A) :
  all_in p ds = true ->
  match rest with String c _ => p c = false | EmptyString => True end ->
  k rest = Some x ->
  forall lo : nat, (lo <= String.length ds)%nat ->
  Re.rep_greedy lo p (ds +:+ rest) k = Some x.
Proof.
  intros Hds Hrest Hk. induction ds as [| c ds IH]; intros lo Hlo.
  - simpl in Hlo. assert (lo = 0%nat) as -> by lia. simpl.
    destruct rest as [| c r]; [assumption |]. simpl. rewrite Hrest. assumption.
  - simpl in Hds. apply andb_true_iff in Hds as [Hc Hds].
    simpl String.app. simpl Re.rep_greedy. rewrite Hc.
    rewrite (IH Hds (Nat.pred lo)); [reflexivity |]. simpl in Hlo. lia.
Qed.

Lemma string_length_app (a b : string) :
  String.length (a +:+ b) = (String.length a + String.length b)%nat.
Proof. induction a as [| c a IH]; [reflexivity | simpl; rewrite IH; reflexivity]. Qed.

Lemma string_take_app (a b : string) : PyStr.take (String.length a) (a +:+ b) = a.
Proof. induction a as [| c a IH]; [destruct b; reflexivity | simpl; rewrite IH; reflexivity]. Qed.

Lemma string_take_matched (a b : string) :
  PyStr.take (String.length (a +:+ b) - String.length b) (a +:+ b) = a.
Proof.
  rewrite string_length_app. replace (_ + _ - _)%nat with (String.length a) by lia.
  apply string_take_app.
Qed.

Lemma string_app_cons (x : ascii) (a b : string) : String x a +:+ b = String x (a +:+ b).
Proof. reflexivity. Qed.

Lemma string_app_assoc (a b c : string) : (a +:+ b) +:+ c = a +:+ (b +:+ c).
Proof.
  induction a as [| x a IH]; [reflexivity |].
  rewrite !string_app_cons, IH. reflexivity.
Qed.

Lemma string_app_empty (a : string) : a +:+ "" = a.
Proof.
  induction a as [| x a IH]; [reflexivity |].
  rewrite string_app_cons, IH. reflexivity.
Qed.

(** The size pattern accepts a plain numeral, a blank and a unit name,
    and captures the numeral and the unit. *)
Lemma size_re_accepts (num unit : string) :
  plain_numeral num -> In unit units ->
  exists cs, Re.rmatch size_re (num +:+ " " +:+ unit) = Some cs
             /\ Re.group 1 cs = Some num /\ Re.group 2 cs = Some unit.
Proof.
  intros Hnum Hunit.
  assert (Htail : forall (t : string) (cs : Re.captures),
              Re.rep_greedy 0 Re.s (" " +:+ unit)
                (fun t' => Re.run (Re.Grp 2 (Re.seq [Re.Opt (Re.Cls (Re.one_of "KMGTP"));
                                                      Re.Lit false "B"])) t' cs
                   (fun t2 cs2 =>
                      Some ((0%nat, PyStr.take (String.length t - String.length t2) t) :: cs2, t2)))
              = Some ((0%nat, PyStr.take (String.length t - 0) t) :: (2%nat, unit) :: cs, "")).
  { intros t cs.
    simpl in Hunit.
    destruct Hunit as [<- | [<- | [<- | [<- | [<- | [<- | []]]]]]]; reflexivity. }
  unfold Re.rmatch, Re.match_here.
  destruct Hnum as [ip Hip Hne | ip fp Hip Hne Hfp Hnf].
  - set (t := ip +:+ " " +:+ unit).
    pose proof (Htail t [(1%nat, PyStr.take (String.length t - String.length (" " +:+ unit)) t)])
      as Hcs2.
    assert (Hrun : Re.run (Re.Grp 0 size_re) t [] (fun t' cs => Some (cs, t'))
                   = Some ((0%nat, PyStr.take (String.length t - 0) t) :: (2%nat, unit)
                           :: [(1%nat, PyStr.take (String.length t
                                                   - String.length (" " +:+ unit)) t)], "")).
    { unfold size_re. simpl Re.run. subst t.
      apply rep_greedy_all;
        [exact Hip | reflexivity | | destruct ip; [contradiction | simpl; lia]].
      simpl. exact Hcs2. }
    rewrite Hrun. eexists. split; [reflexivity |].
    split; [| reflexivity]. simpl. subst t. rewrite string_take_matched. reflexivity.
  - rewrite !string_app_assoc.
    set (t := ip +:+ "." +:+ fp +:+ " " +:+ unit).
    pose proof (Htail t [(1%nat, PyStr.take (String.length t - String.length (" " +:+ unit)) t)])
      as Hcs2.
    assert (Hrun : Re.run (Re.Grp 0 size_re) t [] (fun t' cs => Some (cs, t'))
                   = Some ((0%nat, PyStr.take (String.length t - 0) t) :: (2%nat, unit)
                           :: [(1%nat, PyStr.take (String.length t
                                                   - String.length (" " +:+ unit)) t)], "")).
    { unfold size_re. simpl Re.run. subst t.
      apply rep_greedy_all;
        [exact Hip | reflexivity | | destruct ip; [contradiction | simpl; lia]].
      simpl.
      erewrite (rep_greedy_all Re.d fp (" " +:+ unit));
        [reflexivity | exact Hfp | reflexivity | | simpl; lia].
      exact Hcs2. }
    rewrite Hrun. eexists. split; [reflexivity |].
    split; [| reflexivity]. simpl. subst t.
    replace (ip +:+ "." +:+ fp +:+ " " +:+ unit)
      with ((ip +:+ "." +:+ fp) +:+ " " +:+ unit) by (rewrite !string_app_assoc; reflexivity).
    rewrite string_take_matched. reflexivity.
Qed.

Lemma digitpart_run (ds rest : string) :
  all_in PyStr.isdigit ds = true ->
  match rest with
  | String c _ => PyStr.isdigit c = false /\ Ascii.eqb c "_" = false
  | EmptyString => True
  end ->
  forall (started : bool) (acc : Z) (n : nat),
  exists acc', digitpart started acc n (ds +:+ rest) = (acc', (n + String.length ds)%nat, rest).
Proof.
  intros Hds Hrest. induction ds as [| c ds IH]; intros started acc n.
  - exists acc. simpl String.length. rewrite Nat.add_0_r.
    destruct rest as [| c r]; [reflexivity |].
    destruct Hrest as [H1 H2]. simpl. rewrite H1, H2. reflexivity.
  - simpl in Hds. apply andb_true_iff in Hds as [Hc Hds].
    destruct (IH Hds true (10 * acc + PyStr.digit_val c) (S n)) as [acc' H].
    exists acc'. rewrite string_app_cons. simpl digitpart. rewrite Hc, H.
    simpl String.length. f_equal. f_equal. lia.
Qed.

Lemma lstrip_id (c : ascii) (r : string) :
  PyStr.isspace c = false -> PyStr.lstrip (String c r) = String c r.
Proof. intros H. simpl. rewrite H. reflexivity. Qed.

Lemma rstrip_id (s : string) :
  all_in (fun c => negb (PyStr.isspace c)) s = true -> PyStr.rstrip s = s.
Proof.
  induction s as [| c s IH]; [reflexivity |].
  simpl. intros H. apply andb_true_iff in H as [Hc Hs].
  rewrite (IH Hs). apply negb_true_iff in Hc. rewrite Hc.
  destruct s; reflexivity.
Qed.

Lemma lower_id (s : string) :
  all_in (fun c => PyStr.isdigit c || Ascii.eqb c ".") s = true -> PyStr.lower s = s.
Proof.
  induction s as [| c s IH]; [reflexivity |].
  simpl. intros H. apply andb_true_iff in H as [Hc Hs]. rewrite (IH Hs). f_equal.
  apply orb_true_iff in Hc as [Hc | Hc].
  - apply digit_facts, Hc.
  - apply Ascii.eqb_eq in Hc as ->. reflexivity.
Qed.

Lemma take_sign_digit (c : ascii) (r : string) :
  PyStr.isdigit c = true -> take_sign (String c r) = (false, String c r).
Proof.
  destruct c as [[] [] [] [] [] [] [] []]; intros H; try discriminate H; reflexivity.
Qed.

Lemma plain_numeral_chars (num : string) :
  plain_numeral num ->
  all_in (fun c => PyStr.isdigit c || Ascii.eqb c ".") num = true
  /\ exists c r, num = String c r /\ PyStr.isdigit c = true.
Proof.
  assert (Hm : forall s, all_in PyStr.isdigit s = true ->
                 all_in (fun c => PyStr.isdigit c || Ascii.eqb c ".") s = true).
  { intros s. apply all_in_mono. intros c ->. reflexivity. }
  intros [ip Hip Hne | ip fp Hip Hne Hfp Hnf].
  - split; [apply Hm, Hip |].
    destruct ip as [| c r]; [contradiction |]. exists c, r. split; [reflexivity |].
    simpl in Hip. apply andb_true_iff in Hip as [Hc _]. exact Hc.
  - split; [rewrite !all_in_app, (Hm _ Hip), (Hm _ Hfp); reflexivity |].
    destruct ip as [| c r]; [contradiction |]. eexists c, _. split; [reflexivity |].
    simpl in Hip. apply andb_true_iff in Hip as [Hc _]. exact Hc.
Qed.

(** [float()] reads every plain numeral. *)
Lemma of_string_numeral (num : string) :
  plain_numeral num -> exists value, of_string num = Some value.
Proof.
  intros Hnum. destruct (plain_numeral_chars num Hnum) as (Hch & c & r & Heq & Hc).
  destruct (digit_facts c Hc) as (_ & Hsp & Hi & Hn & _).
  unfold of_string.
  assert (Hstrip : PyStr.strip num = num).
  { unfold PyStr.strip. rewrite Heq, (lstrip_id c r Hsp), <- Heq.
    apply rstrip_id. revert Hch. apply all_in_mono.
    intros x Hx. apply orb_true_iff in Hx as [Hx | Hx].
    - apply negb_true_iff, digit_facts, Hx.
    - apply Ascii.eqb_eq in Hx as ->. reflexivity. }
  rewrite Hstrip, Heq, (take_sign_digit c r Hc), <- Heq, (lower_id num Hch).
  assert (Hinf : String.eqb num "inf" || String.eqb num "infinity" = false).
  { rewrite Heq. simpl. rewrite Hi. reflexivity. }
  assert (Hnan : String.eqb num "nan" = false).
  { rewrite Heq. simpl. rewrite Hn. reflexivity. }
  rewrite Hinf, Hnan.
  destruct Hnum as [ip Hip Hne | ip fp Hip Hne Hfp Hnf].
  - destruct (digitpart_run ip "" Hip I false 0 0%nat) as [a1 H1].
    rewrite string_app_empty in H1. rewrite H1. simpl fraction.
    destruct ip as [| x ip]; [contradiction |]. simpl. eexists. reflexivity.
  - destruct (digitpart_run ip ("." +:+ fp) Hip ltac:(split; reflexivity) false 0 0%nat)
      as [a1 H1].
    rewrite H1. change (fraction a1 ("." +:+ fp)) with (digitpart false a1 0 fp).
    destruct (digitpart_run fp "" Hfp I false a1 0%nat) as [a2 H2].
    rewrite string_app_empty in H2. rewrite H2.
    destruct ip as [| x ip]; [contradiction |]. simpl. eexists. reflexivity.
Qed.

Lemma round_half_even_nonneg (n d : Z) : 0 <= n -> 0 < d -> 0 <= round_half_even n d.
Proof.
  intros Hn Hd. unfold round_half_even.
  assert (0 <= n / d) by (apply Z.div_pos; lia).
  destruct (2 * (n mod d) ?= d); [destruct (Z.even _) | |]; lia.
Qed.

Lemma scaled_round_nonneg (nd : nat) (m : positive) (e : Z) : 0 <= scaled_round nd m e.
Proof.
  unfold scaled_round.
  assert (0 < 10 ^ Z.of_nat nd) by (apply Z.pow_pos_nonneg; lia).
  destruct (0 <=? e) eqn:E.
  - apply Z.leb_le in E. assert (0 < 2 ^ e) by (apply Z.pow_pos_nonneg; lia). nia.
  - apply Z.leb_gt in E. apply round_half_even_nonneg; [nia |].
    apply Z.pow_pos_nonneg; lia.
Qed.

Lemma zeros_digits (n : nat) : all_in PyStr.isdigit (zeros n) = true.
Proof. induction n as [| n IH]; [reflexivity | exact IH]. Qed.

Lemma fixed_text_numeral (nd : nat) (r : Z) :
  0 <= r -> plain_numeral (fixed_text false (S nd) r).
Proof.
  intros Hr. unfold fixed_text.
  assert (Hp : 0 < 10 ^ Z.of_nat (S nd)) by (apply Z.pow_pos_nonneg; lia).
  destruct (of_Z_digits (r / 10 ^ Z.of_nat (S nd)) ltac:(apply Z.div_pos; lia)) as [H1 H2].
  destruct (of_Z_digits (r mod 10 ^ Z.of_nat (S nd))
              ltac:(apply Z.mod_pos_bound; lia)) as [H3 H4].
  change (sign_text false +:+ ?a) with a.
  apply numeral_frac; try assumption.
  - unfold pad. rewrite all_in_app, zeros_digits. exact H3.
  - unfold pad. apply app_nonempty_r, H4.
Qed.

Lemma format_fixed_numeral (nd : nat) (x : float) :
  is_finite x = true -> sign_of x = false -> plain_numeral (format_fixed (S nd) x).
Proof.
  destruct x as [s | s | | s m e]; try discriminate; simpl; intros _ ->.
  - apply fixed_text_numeral. lia.
  - apply fixed_text_numeral, scaled_round_nonneg.
Qed.

Lemma to_int_nonneg (x : float) (n : Z) : sign_of x = false -> to_int x = Ret n -> 0 <= n.
Proof.
  destruct x as [s | s | | s m e]; try discriminate; simpl.
  - intros _ [= <-]. lia.
  - intros -> [= <-]. simpl.
    destruct (0 <=? e) eqn:E.
    + apply Z.leb_le in E. assert (0 < 2 ^ e) by (apply Z.pow_pos_nonneg; lia). nia.
    + apply Z.div_pos; [lia |]. apply Z.pow_pos_nonneg; lia.
Qed.

(** The number that [format_size] prints for a value that is not negative
    is a plain numeral. *)
Lemma number_text_numeral (x : float) (n : Z) :
  is_finite x = true -> sign_of x = false -> to_int x = Ret n ->
  plain_numeral (number_text x n).
Proof.
  intros Hf Hs Hn. unfold number_text.
  destruct (ltb x f10); [apply format_fixed_numeral; assumption |].
  destruct (ltb x f100); [apply format_fixed_numeral; assumption |].
  destruct (of_Z_digits n (to_int_nonneg x n Hs Hn)) as [H1 H2].
  apply numeral_int; assumption.
Qed.

Lemma unit_multiplier (unit : string) :
  In unit units ->
  PyStr.upper unit = unit /\ exists mult, lookup_unit unit multipliers = Some mult.
Proof.
  simpl. intros [<- | [<- | [<- | [<- | [<- | [<- | []]]]]]];
    (split; [reflexivity | eexists; reflexivity]).
Qed.

(** X3: what [format_size] prints for a byte count that is not negative is
    read back by [parse_size_to_bytes]: the text is a plain numeral, a
    blank and a unit name, the size pattern captures both, and the result
    is the numeral times the multiplier of the unit.  A value stored in
    the snapshot is therefore always usable in the next delta. *)
Theorem format_size_parses_back (size_bytes : float) (text : string) :
  valid size_bytes -> is_finite size_bytes = true -> sign_of size_bytes = false ->
  format_size size_bytes = Ret text ->
  exists (num unit : string) (value : float) (mult : Z),
    text = num +:+ " " +:+ unit
    /\ of_string num = Some value
    /\ lookup_unit unit multipliers = Some mult
    /\ parse_size_to_bytes text = Some (mul value (of_Z mult)).
Proof.
  intros Hv Hf Hs Ht.
  destruct (format_size_number size_bytes Hv Hf) as (n & Hn & Hfmt & Hu).
  rewrite Hfmt in Ht. injection Ht as <-.
  destruct (final_value_number size_bytes Hv Hf) as (_ & Hfin & Hsign).
  rewrite Hs in Hsign.
  pose proof (number_text_numeral _ n Hfin Hsign Hn) as Hnum.
  set (num := number_text (final_value size_bytes) n) in *.
  set (unit := unit_at (final_index size_bytes)) in *.
  destruct (of_string_numeral num Hnum) as [value Hval].
  destruct (unit_multiplier unit Hu) as (Hup & mult & Hm).
  destruct (size_re_accepts num unit Hnum Hu) as (cs & Hcs & Hg1 & Hg2).
  exists num, unit, value, mult.
  split; [reflexivity |]. split; [assumption |]. split; [assumption |].
  destruct (plain_numeral_chars num Hnum) as (_ & c & r & Heq & Hc).
  destruct (digit_facts c Hc) as (_ & _ & _ & _ & _ & _ & HN).
  unfold parse_size_to_bytes.
  assert (Hna : String.eqb (num +:+ " " +:+ unit) "" || String.eqb (num +:+ " " +:+ unit) "N/A"
                = false).
  { rewrite Heq, string_app_cons. simpl. rewrite HN. reflexivity. }
  rewrite Hna, Hcs. unfold size_groups. rewrite Hg1, Hg2. simpl default.
  rewrite Hval, Hup, Hm. reflexivity.
Qed.

Lemma format_size_parses_back_witness :
  exists (num unit : string) (value : float) (mult : Z),
    "117 MB" = num +:+ " " +:+ unit
    /\ of_string num = Some value
    /\ lookup_unit unit multipliers = Some mult
    /\ parse_size_to_bytes "117 MB" = Some (mul value (of_Z mult)).
Proof.
  apply (format_size_parses_back (of_Z 123456789) "117 MB"); vm_compute; reflexivity.
Defined.

End ParseBack.
(* ===================================================================== *)
(** * Snapshot delta: the byte counts *)
(* ===================================================================== *)

Section DeltaBytes.

Lemma rep_greedy_none {A : Type} (q p : ascii -> bool) (k : string -> option A) :
  (forall t, all_in q t = true -> k t = None) ->
  forall (t : string) (lo : nat), all_in q t = true -> Re.rep_greedy lo p t k = None.
Proof.
  intros Hk. induction t as [| c t IH]; intros lo Ht.
  - simpl. destruct lo; [apply Hk, Ht | reflexivity].
  - assert (Hstop : match lo with O => k (String c t) | S _ => None end = None).
    { destruct lo; [apply Hk, Ht | reflexivity]. }
    simpl in Ht. apply andb_true_iff in Ht as [_ Ht'].
    simpl. destruct (p c); [| exact Hstop].
    rewrite (IH _ Ht'). exact Hstop.
Qed.

Lemma rep_lazy_none {A : Type} (q p : ascii -> bool) (k : string -> option A) :
  (forall t, all_in q t = true -> k t = None) ->
  forall (t : string) (lo : nat), all_in q t = true -> Re.rep_lazy lo p t k = None.
Proof.
  intros Hk. induction t as [| c t IH]; intros lo Ht.
  - simpl. destruct lo; [rewrite (Hk _ Ht) |]; reflexivity.
  - pose proof Ht as Ht0. simpl in Ht. apply andb_true_iff in Ht as [_ Ht'].
    simpl. rewrite (Hk _ Ht0).
    destruct (p c); [rewrite (IH _ Ht') |]; destruct lo; reflexivity.
Qed.

Lemma strip_lit_rest (q : ascii -> bool) (ic : bool) (l t t' : string) :
  Re.strip_lit ic l t = Some t' -> all_in q t = true -> all_in q t' = true.
Proof.
  revert t. induction l as [| a l IH]; intros t H Ht.
  - simpl in H. destruct t; injection H as <-; exact Ht.
  - destruct t as [| b t]; [discriminate H |]. simpl in H.
    simpl in Ht. apply andb_true_iff in Ht as [_ Ht].
    destruct (if ic then _ else _); [| discriminate H].
    apply (IH t); assumption.
Qed.

(** Whatever the pattern takes of a text of the class, what is left is in
    the class, and the continuation fails on it. *)
Lemma run_never {A : Type} (q : ascii -> bool) (r : Re.regex) :
  forall k : string -> Re.captures -> option A,
    never q k -> never q (fun t cs => Re.run r t cs k).
Proof.
  induction r as [| ic l | p | g lo p | r IH | r1 IH1 r2 IH2 | r1 IH1 r2 IH2 | i r IH | ml];
    intros k Hk t cs Ht; simpl.
  - apply Hk, Ht.
  - destruct (Re.strip_lit ic l t) as [t' |] eqn:E; [| reflexivity].
    apply Hk. eapply strip_lit_rest; eassumption.
  - destruct t as [| c t]; [reflexivity |].
    simpl in Ht. apply andb_true_iff in Ht as [_ Ht].
    destruct (p c); [apply Hk, Ht | reflexivity].
  - destruct g; [apply (rep_greedy_none q) | apply (rep_lazy_none q)];
      try exact Ht; intros t' Ht'; apply Hk, Ht'.
  - rewrite (IH k Hk t cs Ht). apply Hk, Ht.
  - apply (IH1 (fun t' cs' => Re.run r2 t' cs' k)); [| exact Ht].
    intros t' cs' Ht'. apply IH2; assumption.
  - rewrite (IH1 k Hk t cs Ht). apply IH2; assumption.
  - apply (IH (fun t' cs' => k t' ((i, PyStr.take (String.length t - String.length t') t) :: cs')));
      [| exact Ht].
    intros t' cs' Ht'. apply Hk, Ht'.
  - destruct (Re.at_eol ml t); [apply Hk, Ht | reflexivity].
Qed.

Lemma fails_seq (q : ascii -> bool) (r1 r2 : Re.regex) : fails q r2 -> fails q (Re.Seq r1 r2).
Proof.
  intros H A k t cs Ht. simpl.
  apply (run_never q r1 (fun t' cs' => Re.run r2 t' cs' k)); [| exact Ht].
  intros t' cs' Ht'. apply H, Ht'.
Qed.

Lemma fails_grp (q : ascii -> bool) (i : nat) (r : Re.regex) : fails q r -> fails q (Re.Grp i r).
Proof. intros H A k t cs Ht. simpl. apply H, Ht. Qed.

(** The size pattern matches no text without the letter B. *)
Lemma size_re_needs_unit (t : string) : unitless t = true -> Re.rmatch size_re t = None.
Proof.
  intros Ht. unfold Re.rmatch, Re.match_here.
  assert (H : fails (fun c => negb (Ascii.eqb c "B")) (Re.Grp 0 size_re)).
  { unfold size_re. cbn [Re.seq].
    do 2 (apply fails_grp || apply fails_seq). apply fails_seq, fails_grp, fails_seq.
    intros A k u cs Hu. cbn [Re.run].
    destruct u as [| c u]; [reflexivity |].
    simpl in Hu. apply andb_true_iff in Hu as [Hc _].
    apply negb_true_iff in Hc.
    change (Re.strip_lit false "B" (String c u)) with (if Ascii.eqb "B" c then Some u else None).
    rewrite Ascii.eqb_sym, Hc. reflexivity. }
  rewrite (H _ _ t [] Ht). reflexivity.
Qed.


Lemma unit_name_unit (k : nat) :
  (k <= 5)%nat ->
  In (unit_name k) units /\ unit_at k = unit_name k
  /\ PyStr.upper (unit_name k) = unit_name k
  /\ lookup_unit (unit_name k) multipliers = Some (1024 ^ Z.of_nat k).
Proof.
  intros Hk.
  assert (Hc : (k = 0 \/ k = 1 \/ k = 2 \/ k = 3 \/ k = 4 \/ k = 5)%nat) by lia.
  destruct Hc as [-> | [-> | [-> | [-> | [-> | ->]]]]];
    (split; [simpl; auto 10 | repeat split; reflexivity]).
Qed.

(** The byte count that [parse_size_to_bytes] reads from a size string. *)
Lemma parse_size_text (num : string) (k : nat) :
  plain_numeral num -> (k <= 5)%nat ->
  parse_size_to_bytes (size_text num k) = Some (byte_count num k).
Proof.
  intros Hnum Hk.
  destruct (unit_name_unit k Hk) as (Hu & _ & Hup & Hm).
  destruct (of_string_numeral num Hnum) as [value Hval].
  destruct (size_re_accepts num (unit_name k) Hnum Hu) as (cs & Hcs & Hg1 & Hg2).
  destruct (plain_numeral_chars num Hnum) as (_ & c & r & Heq & Hc).
  destruct (digit_facts c Hc) as (_ & _ & _ & _ & _ & _ & HN).
  unfold parse_size_to_bytes, size_text, byte_count, float_of_text.
  assert (Hna : String.eqb (num +:+ " " +:+ unit_name k) ""
                || String.eqb (num +:+ " " +:+ unit_name k) "N/A" = false).
  { rewrite Heq, string_app_cons. simpl. rewrite HN. reflexivity. }
  rewrite Hna, Hcs. unfold size_groups. rewrite Hg1, Hg2. simpl default.
  rewrite Hval, Hup, Hm. reflexivity.
Qed.

Lemma parse_numberless (text : string) :
  numberless text = true -> parse_size_to_bytes text = None.
Proof.
  intros H. unfold parse_size_to_bytes.
  destruct (_ || _); [reflexivity |].
  destruct text as [| c r]; [reflexivity |].
  simpl in H. apply negb_true_iff in H.
  unfold Re.rmatch, Re.match_here, size_re. cbn [Re.run Re.seq Re.rep_greedy].
  unfold Re.d. rewrite H. reflexivity.
Qed.

Lemma parse_unitless (text : string) :
  unitless text = true -> parse_size_to_bytes text = None.
Proof.
  intros H. unfold parse_size_to_bytes.
  destruct (_ || _); [reflexivity |].
  rewrite (size_re_needs_unit text H). reflexivity.
Qed.

(** The text of a float holds no unit. *)
Lemma repr_unitless (x : float) : unitless (repr x) = true.
Proof.
  destruct (repr_chars x) as [H _]. revert H. apply all_in_mono.
  intros c. unfold float_char.
  destruct (Ascii.eqb_spec c "B") as [-> | _]; [vm_compute; discriminate | reflexivity].
Qed.

(** The printed difference is read as a bare number. *)
Lemma normalize_repr (d v : float) :
  of_string (repr d) = Some v -> normalize_size_unit (repr d) = format_size v.
Proof.
  intros Hv. unfold normalize_size_unit.
  destruct (String.eqb_spec (repr d) "") as [E | _];
    [destruct (repr_chars d) as [_ Hne]; contradiction |].
  rewrite (size_re_needs_unit _ (repr_unitless d)).
  apply normalize_plain_number, Hv.
Qed.

(** C1: both values are parsed into byte counts, the number of a size
    string times 1024 to the rank of its unit; when the current count is
    strictly below the previous one the result is the reset marker; otherwise the
    difference is not negative, it is printed and read back as a bare
    byte count, and the result is the normalized rendering of the count
    read (the difference itself, where it is evaluated): the value in the
    unit of the ladder, with the decimals that the value calls for.  A text
    without a unit, or one that does not begin with a number, is
    unparseable, and the result is then N/A.  From 10 TB to 2 TB, and
    from 1 TB to 2 GB, the result is the reset marker; from 2 TB to 10 TB
    it is 8.00 TB. *)
Theorem calculate_size_increment_byte_counts (old_num new_num : string) (i j : nat) :
  plain_numeral old_num -> plain_numeral new_num -> (i <= 5)%nat -> (j <= 5)%nat ->
  let old_value := size_text old_num i in
  let new_value := size_text new_num j in
  let old_bytes := byte_count old_num i in
  let new_bytes := byte_count new_num j in
  let diff_bytes := sub new_bytes old_bytes in
  parse_size_to_bytes old_value = Some old_bytes
  /\ parse_size_to_bytes new_value = Some new_bytes
  /\ (ltb new_bytes old_bytes = true ->
      calculate_size_increment old_value new_value = Ret RESET)
  /\ (ltb new_bytes old_bytes = false ->
      ltb diff_bytes zero = false
      /\ (forall bytes : float,
            of_string (repr diff_bytes) = Some bytes -> is_finite bytes = true ->
            exists n : Z,
              to_int (final_value bytes) = Ret n
              /\ calculate_size_increment old_value new_value = Ret (rendering bytes n)))
  /\ (forall text other : string,
        unitless text = true \/ numberless text = true ->
        calculate_size_increment text other = Ret NOT_AVAILABLE
        /\ calculate_size_increment other text = Ret NOT_AVAILABLE)
  /\ NOT_AVAILABLE = "N/A"
  /\ calculate_size_increment "10 TB" "2 TB" = Ret RESET
  /\ calculate_size_increment "1 TB" "2 GB" = Ret RESET
  /\ calculate_size_increment "2 TB" "10 TB" = Ret "8.00 TB"
  /\ calculate_size_increment "900 GB" "1.2 TB" = Ret "328 GB"
  /\ calculate_size_increment "1.5 GB" "1.6 GB" = Ret "102 MB"
  /\ calculate_size_increment "N/A" "5 GB" = Ret "N/A"
  /\ calculate_size_increment "5 GB" "1024" = Ret "N/A".
Proof.
  intros Hold Hnew Hi Hj old_value new_value old_bytes new_bytes diff_bytes.
  pose proof (parse_size_text old_num i Hold Hi) as Ho.
  pose proof (parse_size_text new_num j Hnew Hj) as Hn.
  fold old_value old_bytes in Ho. fold new_value new_bytes in Hn.
  pose proof (parse_size_to_bytes_valid _ _ Ho) as Vo.
  pose proof (parse_size_to_bytes_valid _ _ Hn) as Vn.
  split; [exact Ho |]. split; [exact Hn |].
  split; [| split; [| split; [| repeat split; vm_compute; reflexivity]]].
  - intros Hlt. unfold calculate_size_increment. rewrite Ho, Hn.
    rewrite sub_negative_lt, Hlt by assumption. reflexivity.
  - intros Hge.
    assert (Hd : ltb diff_bytes zero = false).
    { unfold diff_bytes. rewrite sub_negative_lt by assumption. exact Hge. }
    split; [exact Hd |].
    intros bytes Hback Hfin.
    pose proof (of_string_valid _ _ Hback) as Vd.
    destruct (format_size_number bytes Vd Hfin) as (n & Hint & Hfmt & _).
    exists n. split; [exact Hint |].
    unfold calculate_size_increment. rewrite Ho, Hn. fold diff_bytes. rewrite Hd.
    rewrite (normalize_repr diff_bytes bytes Hback), Hfmt.
    unfold rendering.
    destruct (unit_name_unit _ (final_index_le bytes)) as (_ & -> & _).
    reflexivity.
  - intros text other H.
    assert (Hp : parse_size_to_bytes text = None).
    { destruct H as [H | H]; [apply parse_unitless | apply parse_numberless]; exact H. }
    unfold calculate_size_increment. rewrite Hp.
    split; [reflexivity | destruct (parse_size_to_bytes other); reflexivity].
Qed.

Lemma calculate_size_increment_byte_counts_witness :
  calculate_size_increment "900 GB" "1.2 TB" = Ret "328 GB"
  /\ calculate_size_increment "1.2 TB" "900 GB" = Ret RESET.
Proof.
  assert (H900 : plain_numeral "900") by (apply numeral_int; [reflexivity | discriminate]).
  assert (H12 : plain_numeral "1.2")
    by (apply (numeral_frac "1" "2"); (reflexivity || discriminate)).
  split.
  - destruct (calculate_size_increment_byte_counts "900" "1.2" 3 4 H900 H12
                ltac:(lia) ltac:(lia)) as (_ & _ & _ & H & _).
    destruct H as [_ H]; [vm_compute; reflexivity |].
    destruct (H (sub (byte_count "1.2" 4) (byte_count "900" 3))) as (n & Hn & Hc);
      [vm_compute; reflexivity | vm_compute; reflexivity |].
    vm_compute in Hn. injection Hn as <-. exact Hc.
  - destruct (calculate_size_increment_byte_counts "1.2" "900" 4 3 H12 H900
                ltac:(lia) ltac:(lia)) as (_ & _ & H & _).
    apply H. vm_compute. reflexivity.
Defined.

End DeltaBytes.
(* ===================================================================== *)
(** * The attribute schema *)
(* ===================================================================== *)

Section Schema.

Lemma returned_ret {A : Type} (d : A) (r : py A) :
  returns r = true -> r = Ret (returned d r).
Proof. destruct r; [reflexivity | discriminate]. Qed.

(** A key outside a list differs from each key of the list. *)
Ltac outside Hk :=
  repeat match goal with
  | |- _ /\ _ => split
  | |- _ <> _ => let E := fresh in intros E; apply Hk; rewrite <- E; simpl; tauto
  end.

Lemma keeps_nvme_temperature (k output : string) :
  "Temperature" <> k -> keeps k (nvme_temperature output).
Proof.
  intros Hne m m'. unfold nvme_temperature.
  destruct (Re.search nvme_temp_re output) as [cs |]; [| apply keeps_ret].
  destruct (PyInt.of_string _) as [t |]; [| discriminate].
  destruct (200 <? t).
  - destruct (of_int t); [| discriminate].
    intros [= <-]. apply lookup_insert_ne, Hne.
  - intros [= <-]. apply lookup_insert_ne, Hne.
Qed.

(** The SAS/SATA extraction writes no key outside [sata_keys]. *)
Lemma sata_outside (health_output output : option string)
    (smart_data : gmap string string) (k : string) :
  get_sata_smart_data health_output output = Ret smart_data ->
  ~ In k sata_keys -> smart_data !! k = None.
Proof.
  intros H Hk.
  assert (Hne : "Smart_Status" <> k /\ "Percentage_Used" <> k /\ "Temperature" <> k
                /\ "Trip_Temperature" <> k /\ "Power_On_Hours" <> k /\ "Power_Cycles" <> k
                /\ "Non_Medium_Errors" <> k /\ "Data_Read" <> k /\ "Data_Written" <> k
                /\ "Uncorrected_Errors" <> k) by outside Hk.
  destruct Hne as (H1 & H2 & H3 & H4 & H5 & H6 & H7 & H8 & H9 & H10).
  revert H. unfold get_sata_smart_data.
  set (m0 := match some_text health_output with Some _ => _ | None => _ end).
  assert (Hm0 : m0 !! k = None).
  { subst m0. destruct (some_text health_output) as [h |]; simpl.
    - destruct (PyStr.contains _ h); rewrite ?lookup_store_ne by assumption;
        rewrite lookup_insert_ne by assumption; apply lookup_empty.
    - apply lookup_empty. }
  destruct (some_text output) as [text |]; [| intros [= <-]; exact Hm0].
  set (m1 := store "Power_Cycles" _ _).
  assert (Hm1 : m1 !! k = None).
  { subst m1. rewrite !lookup_store_ne by assumption. exact Hm0. }
  intros H.
  destruct (non_medium_block text m1) as [m2 |] eqn:E2; [| discriminate].
  apply (keeps_non_medium_block k) in E2; try assumption.
  simpl in H. apply (keeps_error_log_block k) in H; try assumption.
  rewrite H, lookup_store_ne, E2 by assumption. exact Hm1.
Qed.

(** The NVMe extraction writes no key outside [nvme_keys]. *)
Lemma nvme_outside (vendor_check health_output output : option string)
    (smart_data : gmap string string) (k : string) :
  get_nvme_smart_data vendor_check health_output output = Ret smart_data ->
  ~ In k nvme_keys -> smart_data !! k = None.
Proof.
  intros H Hk.
  assert (Hne : "Smart_Status" <> k /\ "Type" <> k /\ "Temperature" <> k
                /\ "Warning_Temperature" <> k /\ "Critical_Temperature" <> k
                /\ "Power_On_Hours" <> k /\ "Available_Spare" <> k
                /\ "Percentage_Used" <> k /\ "Power_Cycles" <> k
                /\ "Data_Read" <> k /\ "Data_Written" <> k) by outside Hk.
  destruct Hne as (H1 & H2 & H3 & H4 & H5 & H6 & H7 & H8 & H9 & H10 & H11).
  revert H. unfold get_nvme_smart_data.
  destruct (match some_text vendor_check with Some v => _ | None => false end).
  { intros [= <-]. rewrite !lookup_insert_ne by assumption. apply lookup_empty. }
  set (m0 := store "Smart_Status" _ ∅).
  assert (Hm0 : m0 !! k = None).
  { subst m0. rewrite lookup_store_ne by assumption. apply lookup_empty. }
  destruct (some_text output) as [text |]; [| intros [= <-]; exact Hm0].
  destruct (nvme_temperature text m0) as [m1 |] eqn:E1; [| discriminate].
  apply (keeps_nvme_temperature k) in E1; [| assumption].
  unfold mbind at 1, py_bind at 1. cbv beta iota.
  set (m2 := fold_left _ nvme_patterns _).
  assert (Hm2 : m2 !! k = None).
  { subst m2. unfold nvme_patterns, fold_left, fst, snd.
    rewrite !lookup_store_ne by assumption. rewrite E1. exact Hm0. }
  intros H.
  rewrite <- Hm2.
  apply (keeps_bind k
           (nvme_data_units "Data_Read" "Data Units Read:" text)
           (fun m => m3 ← nvme_data_units "Data_Written" "Data Units Written:" text m; Ret m3)
           ltac:(apply keeps_nvme_data_units; assumption)
           ltac:(apply keeps_bind;
                 [apply keeps_nvme_data_units; assumption | apply keeps_ret])
           m2 smart_data H).
Qed.

(** X4: the extraction functions write only the keys of their
    schema: every attribute of a SAS/SATA result is one of the ten keys of
    [sata_keys], and every attribute of an NVMe result one of the eleven
    keys of [nvme_keys]. *)
Theorem smart_data_keys :
  (forall (health_output output : option string) (smart_data : gmap string string)
          (k v : string),
      get_sata_smart_data health_output output = Ret smart_data ->
      smart_data !! k = Some v -> In k sata_keys)
  /\ (forall (vendor_check health_output output : option string)
             (smart_data : gmap string string) (k v : string),
      get_nvme_smart_data vendor_check health_output output = Ret smart_data ->
      smart_data !! k = Some v -> In k nvme_keys).
Proof.
  split.
  - intros health_output output smart_data k v H Hk.
    destruct (in_dec string_dec k sata_keys) as [Hin | Hout]; [assumption |].
    rewrite (sata_outside _ _ _ _ H Hout) in Hk. discriminate Hk.
  - intros vendor_check health_output output smart_data k v H Hk.
    destruct (in_dec string_dec k nvme_keys) as [Hin | Hout]; [assumption |].
    rewrite (nvme_outside _ _ _ _ _ H Hout) in Hk. discriminate Hk.
Qed.

Lemma smart_data_keys_witness :
  In "Data_Read" sata_keys /\ In "Temperature" nvme_keys.
Proof.
  split.
  - apply (proj1 smart_data_keys None (Some (sas_report true))
             (returned ∅ (get_sata_smart_data None (Some (sas_report true))))
             "Data_Read" "12.1 TB").
    + apply returned_ret. vm_compute. reflexivity.
    + vm_compute. reflexivity.
  - apply (proj2 smart_data_keys None None (Some (nvme_report "45"))
             (returned ∅ (get_nvme_smart_data None None (Some (nvme_report "45"))))
             "Temperature" "45").
    + apply returned_ret. vm_compute. reflexivity.
    + vm_compute. reflexivity.
Defined.

(** X5: the table of increments never has a row.  Its rows
    are chosen by the keys [Read_Increment] and [Write_Increment] of the
    data extracted again for the disk, and no extraction writes these
    keys; so whatever the commands return and whatever the class, the disk
    is left out. *)
Theorem increment_table_has_no_rows
    (device_class name type model pool : string)
    (vendor_check nvme_health nvme_output sata_health sata_output : option string)
    (smart_data : gmap string string) :
  increment_data device_class
    (get_nvme_smart_data vendor_check nvme_health nvme_output)
    (get_sata_smart_data sata_health sata_output) = Ret smart_data ->
  increment_row name type model pool smart_data = None.
Proof.
  intros H.
  assert (Hr : smart_data !! "Read_Increment" = None
               /\ smart_data !! "Write_Increment" = None).
  { unfold increment_data in H.
    assert (Hs : forall k, k = "Read_Increment" \/ k = "Write_Increment" ->
                 ~ In k sata_keys /\ ~ In k nvme_keys).
    { intros k [-> | ->]; split; simpl; intros Hin;
        repeat (destruct Hin as [Hin | Hin]; [discriminate Hin |]); exact Hin. }
    destruct (String.eqb device_class "NVME_SSD").
    - split; apply (nvme_outside _ _ _ _ _ H), Hs; auto.
    - destruct (negb (String.eqb device_class "VIRTUAL")).
      + split; apply (sata_outside _ _ _ _ H), Hs; auto.
      + injection H as <-. split; apply lookup_empty. }
  destruct Hr as [Hr Hw]. unfold increment_row. rewrite Hr, Hw. reflexivity.
Qed.

Lemma increment_table_has_no_rows_witness :
  increment_row "sda" "HDD" "ST4000" "tank"
    (returned ∅ (increment_data "SAS_HDD"
                   (get_nvme_smart_data None None None)
                   (get_sata_smart_data None (Some (sas_report true))))) = None.
Proof.
  apply (increment_table_has_no_rows "SAS_HDD" "sda" "HDD" "ST4000" "tank"
           None None None None (Some (sas_report true))).
  apply returned_ret. vm_compute. reflexivity.
Defined.

End Schema.
(* ===================================================================== *)
(** * The attributes of the health report *)
(* ===================================================================== *)

Section Attributes.

(** The attribute map before the full report is read. *)
Lemma sata_health_start (health_output : option string) (k : string) :
  (match some_text health_output with
   | Some h =>
       if PyStr.contains "Percentage used endurance indicator:" h
       then store "Percentage_Used" (first_group [endurance_re] h)
              (store "Smart_Status" (smart_status <$> some_text health_output) ∅)
       else store "Smart_Status" (smart_status <$> some_text health_output) ∅
   | None => store "Smart_Status" (smart_status <$> some_text health_output) ∅
   end) !! k
  = if String.eqb k "Smart_Status" then smart_status <$> some_text health_output
    else if String.eqb k "Percentage_Used" then some_text health_output ≫= endurance_of
    else None.
Proof.
  unfold endurance_of.
  destruct (String.eqb_spec k "Smart_Status") as [-> | H1].
  - destruct (some_text health_output) as [h |]; simpl; [| apply lookup_empty].
    destruct (PyStr.contains _ h); rewrite ?lookup_store_ne by discriminate;
      apply lookup_insert_eq.
  - destruct (String.eqb_spec k "Percentage_Used") as [-> | H2].
    + destruct (some_text health_output) as [h |]; simpl; [| apply lookup_empty].
      destruct (PyStr.contains _ h).
      * apply lookup_store_eq. rewrite lookup_insert_ne by discriminate. apply lookup_empty.
      * rewrite lookup_insert_ne by discriminate. apply lookup_empty.
    + destruct (some_text health_output) as [h |]; simpl; [| apply lookup_empty].
      destruct (PyStr.contains _ h); rewrite ?lookup_store_ne by congruence;
        rewrite lookup_insert_ne by congruence; apply lookup_empty.
Qed.

(** X6: on the SAS/SATA path the health status and the used
    endurance come from the health report alone: whatever the full report
    holds, [Smart_Status] is the status read from the health report, and
    is absent when that report is empty, and [Percentage_Used] is the
    endurance indicator of the health report. *)
Theorem sata_health_attributes (health_output output : option string)
    (smart_data : gmap string string) :
  get_sata_smart_data health_output output = Ret smart_data ->
  smart_data !! "Smart_Status" = smart_status <$> some_text health_output
  /\ smart_data !! "Percentage_Used" = some_text health_output ≫= endurance_of.
Proof.
  unfold get_sata_smart_data.
  pose proof (sata_health_start health_output) as Hm0.
  set (m0 := match some_text health_output with Some _ => _ | None => _ end) in *.
  destruct (some_text output) as [text |].
  2: { intros [= <-]. split; [apply (Hm0 "Smart_Status") | apply (Hm0 "Percentage_Used")]. }
  set (m1 := store "Power_Cycles" _ _).
  assert (Hm1 : forall k, k = "Smart_Status" \/ k = "Percentage_Used" -> m1 !! k = m0 !! k).
  { intros k [-> | ->]; subst m1; rewrite !lookup_store_ne by discriminate; reflexivity. }
  intros H.
  destruct (non_medium_block text m1) as [m2 |] eqn:E2; [| discriminate].
  simpl in H.
  assert (Hk : forall k, k = "Smart_Status" \/ k = "Percentage_Used" ->
                         smart_data !! k = m0 !! k).
  { intros k Hk. rewrite <- (Hm1 k Hk).
    assert (Hne : "Non_Medium_Errors" <> k /\ "Data_Read" <> k /\ "Data_Written" <> k
                  /\ "Uncorrected_Errors" <> k)
      by (destruct Hk as [-> | ->]; repeat split; discriminate).
    destruct Hne as (H1 & H2 & H3 & H4).
    rewrite <- (keeps_non_medium_block k text H1 H2 H3 _ _ E2).
    rewrite (keeps_error_log_block k text H2 H3 _ _ H).
    apply lookup_store_ne, H4. }
  split.
  - rewrite (Hk "Smart_Status") by auto. apply (Hm0 "Smart_Status").
  - rewrite (Hk "Percentage_Used") by auto. apply (Hm0 "Percentage_Used").
Qed.

Lemma sata_health_attributes_witness :
  returned ∅ (get_sata_smart_data (Some sata_health_report)
                (Some "Current Drive Temperature:     41 C")) !! "Smart_Status"
  = smart_status <$> some_text (Some sata_health_report)
  /\ returned ∅ (get_sata_smart_data (Some sata_health_report)
                   (Some "Current Drive Temperature:     41 C")) !! "Percentage_Used"
     = some_text (Some sata_health_report) ≫= endurance_of.
Proof.
  apply (sata_health_attributes (Some sata_health_report)
           (Some "Current Drive Temperature:     41 C")).
  apply returned_ret. vm_compute. reflexivity.
Defined.

Lemma first_group_skips (before : list Re.regex) (p : Re.regex) (after : list Re.regex)
    (text : string) (cs : Re.captures) :
  Forall (fun q => Re.search q text = None) before ->
  Re.search p text = Some cs ->
  first_group (before ++ p :: after) text = Some (default "" (Re.group 1 cs)).
Proof.
  intros Hb Hp. induction Hb as [| q before Hq _ IH]; simpl.
  - rewrite Hp. reflexivity.
  - rewrite Hq. exact IH.
Qed.

Lemma first_group_none (patterns : list Re.regex) (text : string) :
  Forall (fun q => Re.search q text = None) patterns -> first_group patterns text = None.
Proof.
  intros Hall. induction Hall as [| q l Hq _ IH]; [reflexivity |].
  simpl. rewrite Hq. exact IH.
Qed.

Lemma remove_char_gone (s : string) :
  PyStr.contains "," (PyStr.remove_char "," s) = false.
Proof.
  induction s as [| a s IH]; [reflexivity |].
  simpl PyStr.remove_char. destruct (Ascii.eqb_spec a ",") as [-> | Hne]; [exact IH |].
  change (PyStr.contains "," (String a (PyStr.remove_char "," s)))
    with ((if Ascii.eqb "," a then PyStr.startswith "" (PyStr.remove_char "," s) else false)
          || PyStr.contains "," (PyStr.remove_char "," s)).
  rewrite IH.
  destruct (Ascii.eqb_spec "," a) as [<- | _]; [contradiction | reflexivity].
Qed.

Lemma sata_power_on_hours (health_output output : option string) (text : string)
    (smart_data : gmap string string) :
  some_text output = Some text ->
  get_sata_smart_data health_output output = Ret smart_data ->
  smart_data !! "Power_On_Hours"
  = PyStr.remove_char "," <$> first_group sata_hours_patterns text.
Proof.
  intros Ho. unfold get_sata_smart_data. rewrite Ho.
  pose proof (sata_health_start health_output "Power_On_Hours") as Hm0.
  set (m0 := match some_text health_output with Some _ => _ | None => _ end) in *.
  simpl in Hm0.
  set (m1 := store "Power_Cycles" _ _).
  assert (Hm1 : m1 !! "Power_On_Hours"
                = PyStr.remove_char "," <$> first_group sata_hours_patterns text).
  { subst m1. rewrite lookup_store_ne by discriminate.
    apply lookup_store_eq. rewrite !lookup_store_ne by discriminate. exact Hm0. }
  rewrite <- Hm1. intros H.
  destruct (non_medium_block text m1) as [m2 |] eqn:E2; [| discriminate].
  apply (keeps_non_medium_block "Power_On_Hours") in E2; try discriminate.
  rewrite <- E2. simpl in H.
  apply (keeps_error_log_block "Power_On_Hours") in H; try discriminate.
  rewrite H. apply lookup_store_ne. discriminate.
Qed.

(** X7: the power-on hours of the SAS/SATA path are taken from
    the first pattern of the list, in its order, that is found in the
    report: when the patterns before one are not found and that one is,
    the attribute is its first group with the commas removed; a stored
    value never holds a comma. *)
Theorem power_on_hours_fallback (health_output output : option string) (text : string)
    (smart_data : gmap string string) :
  some_text output = Some text ->
  get_sata_smart_data health_output output = Ret smart_data ->
  (forall (before : list Re.regex) (p : Re.regex) (after : list Re.regex)
          (cs : Re.captures),
      sata_hours_patterns = before ++ p :: after ->
      Forall (fun q => Re.search q text = None) before ->
      Re.search p text = Some cs ->
      smart_data !! "Power_On_Hours"
      = Some (PyStr.remove_char "," (default "" (Re.group 1 cs))))
  /\ (Forall (fun q => Re.search q text = None) sata_hours_patterns ->
      smart_data !! "Power_On_Hours" = None)
  /\ (forall v, smart_data !! "Power_On_Hours" = Some v -> PyStr.contains "," v = false).
Proof.
  intros Ho H. pose proof (sata_power_on_hours _ _ _ _ Ho H) as Hh.
  split; [| split].
  - intros before p after cs Hl Hb Hp.
    rewrite Hh, Hl, (first_group_skips before p after text cs Hb Hp). reflexivity.
  - intros Hall. rewrite Hh, (first_group_none _ _ Hall). reflexivity.
  - intros v Hv. rewrite Hh in Hv.
    destruct (first_group sata_hours_patterns text) as [g |]; [| discriminate].
    injection Hv as <-. apply remove_char_gone.
Qed.


Lemma power_on_hours_fallback_witness :
  returned ∅ (get_sata_smart_data None (Some (sas_report true))) !! "Power_On_Hours"
  = Some "12345".
Proof.
  eapply eq_trans.
  - eapply (proj1 (power_on_hours_fallback None (Some (sas_report true)) (sas_report true)
                     (returned ∅ (get_sata_smart_data None (Some (sas_report true))))
                     eq_refl
                     (returned_ret ∅ (get_sata_smart_data None (Some (sas_report true)))
                        ltac:(vm_compute; reflexivity)))
              (firstn 2 sata_hours_patterns) (nth 2 sata_hours_patterns Re.Emp)
              (skipn 3 sata_hours_patterns)).
    + reflexivity.
    + repeat constructor; vm_compute; reflexivity.
    + vm_compute. reflexivity.
  - vm_compute. reflexivity.
Defined.

End Attributes.
(* ===================================================================== *)
(** * The rows of the tables *)
(* ===================================================================== *)

Section Rows.

(** The loop that fills a row stops by itself, with the row filled. *)
Lemma pad_row_filled (headers : list string) (turns : nat) :
  forall row : list string,
    (length headers - length row <= turns)%nat ->
    pad_row turns headers row = row ++ repeat "N/A" (length headers - length row).
Proof.
  induction turns as [| turns IH]; intros row Hle; simpl.
  - replace (length headers - length row)%nat with 0%nat by lia.
    simpl. rewrite app_nil_r. reflexivity.
  - destruct (Nat.ltb_spec (length row) (length headers)) as [Hlt | Hge].
    + rewrite IH by (rewrite length_app; simpl; lia).
      rewrite length_app. simpl.
      replace (length headers - length row)%nat
        with (S (length headers - (length row + 1)))%nat by lia.
      simpl. rewrite <- app_assoc. reflexivity.
    + replace (length headers - length row)%nat with 0%nat by lia.
      simpl. rewrite app_nil_r. reflexivity.
Qed.

Lemma fit_row_eq (headers row : list string) :
  fit_row headers row
  = firstn (length headers) (row ++ repeat "N/A" (length headers - length row)).
Proof.
  unfold fit_row. rewrite pad_row_filled by lia.
  destruct (Nat.ltb_spec (length headers)
              (length (row ++ repeat "N/A" (length headers - length row)))) as [Hlt | Hge];
    [reflexivity |].
  rewrite firstn_all2; [reflexivity | assumption].
Qed.

(** X8: a row handed to a table has exactly as many cells as there
    are headings: cell [i] is cell [i] of the row of the disk when the row
    has one, and N/A otherwise; what the row holds beyond the headings is
    dropped. *)
Theorem fit_row_cells (headers row : list string) :
  length (fit_row headers row) = length headers
  /\ forall i : nat, (i < length headers)%nat ->
       nth i (fit_row headers row) "" = nth i row "N/A".
Proof.
  rewrite fit_row_eq. split.
  - rewrite length_firstn, length_app, repeat_length. lia.
  - intros i Hi. rewrite nth_firstn.
    destruct (Nat.ltb_spec i (length headers)) as [_ | Hge]; [| lia].
    destruct (Nat.lt_ge_cases i (length row)) as [Hlt | Hge].
    + rewrite app_nth1 by assumption. apply nth_indep, Hlt.
    + rewrite app_nth2 by assumption.
      rewrite (nth_overflow row) by assumption.
      apply nth_repeat_lt. lia.
Qed.

Lemma attributes_of_length (device_class : string) :
  (length (attributes_of device_class) <= 10)%nat.
Proof.
  unfold attributes_of, DISK_TYPE_ATTRIBUTES, attributes_in.
  repeat match goal with
  | |- context [if ?b then _ else _] => destruct b
  end; simpl; lia.
Qed.

Lemma disk_row_cells (name type model formatted_size pool device_class : string)
    (smart_data prev_disk : gmap string string) (row : list string) :
  disk_row name type model formatted_size pool device_class smart_data prev_disk = Ret row ->
  exists read_increment write_increment : string,
    increment "Data_Read" smart_data prev_disk = Ret read_increment
    /\ increment "Data_Written" smart_data prev_disk = Ret write_increment
    /\ row = ([name; type; model; formatted_size; pool]
              ++ map (cell smart_data) (attributes_of device_class))
             ++ [read_increment; write_increment].
Proof.
  unfold disk_row.
  destruct (increment "Data_Read" smart_data prev_disk) as [ri |]; [| discriminate].
  destruct (increment "Data_Written" smart_data prev_disk) as [wi |]; [| discriminate].
  intros [= <-]. exists ri, wi. split; [reflexivity |]. split; [reflexivity |].
  rewrite <- !app_assoc. reflexivity.
Qed.

(** X9: in the tables by class the two increments never
    appear.  The row of a disk ends with its read and write increments,
    the headings of a class table have no column for them, and fitting
    the row to the headings cuts both off: what is shown is the five
    leading cells and one cell per attribute of the class. *)
Theorem grouped_row_drops_increments
    (name type model formatted_size pool device_class : string)
    (smart_data prev_disk : gmap string string) (row : list string) :
  disk_row name type model formatted_size pool device_class smart_data prev_disk = Ret row ->
  exists read_increment write_increment : string,
    increment "Data_Read" smart_data prev_disk = Ret read_increment
    /\ increment "Data_Written" smart_data prev_disk = Ret write_increment
    /\ row = fit_row (grouped_headers device_class) row
             ++ [read_increment; write_increment]
    /\ fit_row (grouped_headers device_class) row
       = [name; type; model; formatted_size; pool]
         ++ map (cell smart_data) (attributes_of device_class).
Proof.
  intros H. destruct (disk_row_cells _ _ _ _ _ _ _ _ _ H) as (ri & wi & Hr & Hw & ->).
  exists ri, wi. split; [assumption |]. split; [assumption |].
  assert (Hfit : fit_row (grouped_headers device_class)
                   (([name; type; model; formatted_size; pool]
                     ++ map (cell smart_data) (attributes_of device_class)) ++ [ri; wi])
                 = [name; type; model; formatted_size; pool]
                   ++ map (cell smart_data) (attributes_of device_class)).
  { rewrite fit_row_eq.
    assert (Hlen : length (grouped_headers device_class)
                   = length ([name; type; model; formatted_size; pool]
                             ++ map (cell smart_data) (attributes_of device_class))).
    { unfold grouped_headers. rewrite !length_app, !length_map. reflexivity. }
    rewrite Hlen.
    replace (_ - _)%nat with 0%nat by (rewrite !length_app; simpl; lia).
    simpl repeat. rewrite app_nil_r.
    rewrite firstn_app, firstn_all, Nat.sub_diag. simpl firstn.
    rewrite app_nil_r. reflexivity. }
  rewrite Hfit. split; reflexivity.
Qed.

Lemma grouped_row_drops_increments_witness :
  exists read_increment write_increment : string,
    increment "Data_Read" {[ "Data_Read" := "12.1 TB" ]} {[ "Data_Read" := "12.0 TB" ]}
      = Ret read_increment
    /\ increment "Data_Written" {[ "Data_Read" := "12.1 TB" ]} {[ "Data_Read" := "12.0 TB" ]}
       = Ret write_increment
    /\ ["nvme0n1"; "SSD"; "WD"; "1.00 TB"; "tank"; "N/A"; "N/A"; "N/A"; "N/A"; "N/A";
        "N/A"; "N/A"; "N/A"; "12.1 TB"; "N/A"; "102 GB"; "N/A"]
       = fit_row (grouped_headers "NVME_SSD")
           ["nvme0n1"; "SSD"; "WD"; "1.00 TB"; "tank"; "N/A"; "N/A"; "N/A"; "N/A"; "N/A";
            "N/A"; "N/A"; "N/A"; "12.1 TB"; "N/A"; "102 GB"; "N/A"]
         ++ [read_increment; write_increment]
    /\ fit_row (grouped_headers "NVME_SSD")
         ["nvme0n1"; "SSD"; "WD"; "1.00 TB"; "tank"; "N/A"; "N/A"; "N/A"; "N/A"; "N/A";
          "N/A"; "N/A"; "N/A"; "12.1 TB"; "N/A"; "102 GB"; "N/A"]
       = ["nvme0n1"; "SSD"; "WD"; "1.00 TB"; "tank"]
         ++ map (cell {[ "Data_Read" := "12.1 TB" ]}) (attributes_of "NVME_SSD").
Proof.
  apply (grouped_row_drops_increments "nvme0n1" "SSD" "WD" "1.00 TB" "tank" "NVME_SSD"
           {[ "Data_Read" := "12.1 TB" ]} {[ "Data_Read" := "12.0 TB" ]}).
  vm_compute. reflexivity.
Defined.

End Rows.

Section Listing.

(** X10: for a disk of the fallback list the classifier returns,
    and the class does not depend on the medium.  The fields of the disk
    are texts, and the type is SSD exactly when the name holds [nvme] in
    any case; so the class is VIRTUAL by the model, NVME_SSD by the name,
    and otherwise SAS_SSD or SAS_HDD by the name alone: a disk whose name
    does not hold [nvme] is never in the class SAS_SSD. *)
Theorem lsblk_disks_classification (output : option string) (d : Disk) :
  In d (get_disks_from_lsblk output) ->
  disk_type d = (if PyStr.contains "nvme" (PyStr.lower (disk_name d)) then "SSD" else "HDD")
  /\ classify_disk (PyValue.Str (disk_name d)) (PyValue.Str (disk_type d))
       (PyValue.Str (disk_model d))
     = PyValue.Returns
         (if Classifier.virtualization_marker (disk_model d) then "VIRTUAL"
          else if Classifier.nvme_named (disk_name d) then "NVME_SSD"
          else if PyStr.contains "nvme" (PyStr.lower (disk_name d)) then "SAS_SSD"
          else "SAS_HDD").
Proof.
  unfold get_disks_from_lsblk.
  destruct (some_text output) as [text |]; [| intros []].
  intros Hin. apply list_elem_of_In, list_elem_of_omap in Hin as (line & _ & Hline).
  unfold lsblk_line in Hline.
  destruct (3 <=? length (PyStr.split_ws line))%nat; [| discriminate].
  injection Hline as <-. simpl.
  split; [reflexivity |].
  rewrite ClassifierFacts.classify_disk_texts.
  unfold Classifier.decide, Classifier.rotational.
  destruct (Classifier.virtualization_marker _); [reflexivity |].
  destruct (Classifier.nvme_named _); [reflexivity |].
  destruct (PyStr.contains "nvme" _); reflexivity.
Qed.

Lemma lsblk_disks_classification_witness :
  "HDD" = (if PyStr.contains "nvme" (PyStr.lower "sda") then "SSD" else "HDD")
  /\ classify_disk (PyValue.Str "sda") (PyValue.Str "HDD") (PyValue.Str "Samsung SSD 860")
     = PyValue.Returns
         (if Classifier.virtualization_marker "Samsung SSD 860" then "VIRTUAL"
          else if Classifier.nvme_named "sda" then "NVME_SSD"
          else if PyStr.contains "nvme" (PyStr.lower "sda") then "SAS_SSD"
          else "SAS_HDD").
Proof.
  apply (lsblk_disks_classification
           (Some "sda     disk Samsung SSD 860 1.8T")
           {| disk_name := "sda"; disk_type := "HDD";
              disk_model := "Samsung SSD 860"; disk_size := "1.8T" |}).
  vm_compute. left. reflexivity.
Defined.

End Listing.
(* ===================================================================== *)
(** * The entries of the fallback map *)
(* ===================================================================== *)

Section PoolReport.

(** The pieces of a text cut at a character do not hold the character. *)
Lemma split_char_pieces (sep : ascii) (s piece : string) :
  In piece (PyStr.split_char sep s) -> PyStr.contains (String sep "") piece = false.
Proof.
  revert piece. induction s as [| c s IH]; intros piece.
  - simpl. intros [<- | []]. reflexivity.
  - simpl. destruct (Ascii.eqb_spec c sep) as [-> | Hne].
    + intros [<- | Hin]; [reflexivity | apply IH, Hin].
    + destruct (PyStr.split_char sep s) as [| w ws] eqn:E.
      * intros [<- | []].
        change (PyStr.contains (String sep "") (String c ""))
          with ((if Ascii.eqb sep c then true else false) || false).
        destruct (Ascii.eqb_spec sep c) as [<- | _]; [contradiction | reflexivity].
      * intros [<- | Hin]; [| apply IH; right; exact Hin].
        change (PyStr.contains (String sep "") (String c w))
          with ((if Ascii.eqb sep c then PyStr.startswith "" w else false)
                || PyStr.contains (String sep "") w).
        rewrite (IH w (or_introl eq_refl)).
        destruct (Ascii.eqb_spec sep c) as [<- | _]; [contradiction | reflexivity].
Qed.

Lemma split_char_nonempty (sep : ascii) (s : string) : PyStr.split_char sep s <> [].
Proof.
  destruct s as [| c s]; [discriminate |].
  simpl. destruct (Ascii.eqb c sep); [discriminate |].
  destruct (PyStr.split_char sep s); discriminate.
Qed.

Lemma last_In (l : list string) (d : string) : l <> [] -> In (List.last l d) l.
Proof.
  induction l as [| a l IH]; [contradiction |]. intros _.
  destruct l as [| b l]; [left; reflexivity |].
  right. apply IH. discriminate.
Qed.

(** A base name holds no slash. *)
Lemma basename_plain (disk_name : string) : PyStr.contains "/" (basename disk_name) = false.
Proof.
  unfold basename. destruct (PyStr.contains "/" disk_name) eqn:E; [| exact E].
  apply (split_char_pieces "/" disk_name).
  apply last_In, split_char_nonempty.
Qed.

Lemma backed_by_more (lines : list string) (line dev pool : string) :
  backed_by lines dev pool -> backed_by (lines ++ [line]) dev pool.
Proof.
  intros (Hne & (h & Hh & Hh') & (l & token & rest & Hl & Hl')).
  split; [exact Hne |]. split.
  - exists h. split; [apply in_or_app; left; exact Hh | exact Hh'].
  - exists l, token, rest. split; [apply in_or_app; left; exact Hl | exact Hl'].
Qed.

(** What holds after each turn of the loop: the current pool is named by
    a header that was read, and every entry is backed by the lines
    read. *)
Lemma zfs_lines_backed (lines : list string) :
  (forall pool, fst (zfs_lines lines) = Some pool ->
     exists header, In header lines /\ is_pool_header header = true
                    /\ header_pool header = pool)
  /\ (forall dev pool, snd (zfs_lines lines) !! dev = Some pool ->
        backed_by lines dev pool).
Proof.
  induction lines as [| x ls [IHp IHm]] using rev_ind.
  - split; [discriminate |]. intros dev pool H.
    unfold zfs_lines in H. simpl in H. rewrite lookup_empty in H. discriminate H.
  - assert (Hkeep : (forall pool, fst (zfs_lines ls) = Some pool ->
                       exists header, In header (ls ++ [x]) /\ is_pool_header header = true
                                      /\ header_pool header = pool)
                    /\ (forall dev pool, snd (zfs_lines ls) !! dev = Some pool ->
                          backed_by (ls ++ [x]) dev pool)).
    { split.
      - intros pool H. destruct (IHp pool H) as (h & Hin & Hh).
        exists h. split; [apply in_or_app; left; exact Hin | exact Hh].
      - intros dev pool H. apply backed_by_more, IHm, H. }
    unfold zfs_lines in *. rewrite fold_left_app. cbn [fold_left].
    destruct (fold_left zfs_line ls (None, ∅)) as [cp m]. cbn [fst snd] in *.
    unfold zfs_line. cbv zeta.
    destruct (PyStr.startswith "pool:" (PyStr.strip x)) eqn:Eh.
    { split; [| exact (proj2 Hkeep)].
      cbn [fst]. intros pool [= <-]. exists x.
      split; [apply in_or_app; right; left; reflexivity |].
      split; [exact Eh | reflexivity]. }
    destruct cp as [[| c pool] |]; try exact Hkeep.
    destruct (_ || _); [exact Hkeep |].
    destruct (PyStr.split_ws (PyStr.strip x)) as [| part0 parts] eqn:Ew; [exact Hkeep |].
    destruct (PyStr.startswith (String c pool) part0) eqn:Es; [exact Hkeep |].
    destruct (existsb (String.eqb part0) structural_keywords) eqn:Ek; [exact Hkeep |].
    cbn [negb andb fst snd].
    split; [exact (proj1 Hkeep) |].
    intros dev p Hl.
    destruct (decide (basename part0 = dev)) as [<- | Hne].
    + rewrite lookup_insert_eq in Hl. injection Hl as <-.
      split; [discriminate |]. split; [apply (proj1 Hkeep); reflexivity |].
      exists x, part0, parts.
      split; [apply in_or_app; right; left; reflexivity |].
      split; [exact Ew |]. split; [reflexivity |]. split; [exact Es |].
      intros Hin. apply Bool.not_true_iff_false in Ek. apply Ek.
      apply existsb_exists. exists part0. split; [exact Hin | apply String.eqb_refl].
    + rewrite lookup_insert_ne in Hl by assumption. apply (proj2 Hkeep), Hl.
Qed.

(** X11: whatever the pool-status text, every entry of the
    fallback map is backed by the text: the pool is not empty and is the
    name given by a [pool:] line of the text; the device is the base name,
    without any slash, of the first token of a line; and that token is not
    a structural keyword and does not begin with the name of the pool, so
    a device whose name begins with the name of its pool is never
    assigned. *)
Theorem zfs_assignment_sound (text dev pool : string) :
  get_pool_name_from_zfs (Some text) !! dev = Some pool ->
  backed_by (PyStr.split_char newline text) dev pool
  /\ PyStr.contains "/" dev = false.
Proof.
  intros H.
  assert (Hl : snd (zfs_lines (PyStr.split_char newline text)) !! dev = Some pool).
  { destruct text; [discriminate H | exact H]. }
  apply (proj2 (zfs_lines_backed _)) in Hl.
  split; [exact Hl |].
  destruct Hl as (_ & _ & (l & token & rest & _ & _ & -> & _)).
  apply basename_plain.
Qed.

Lemma zfs_assignment_sound_witness :
  backed_by (PyStr.split_char newline zpool_status_report) "ada1" "tank"
  /\ PyStr.contains "/" "ada1" = false.
Proof.
  apply (zfs_assignment_sound zpool_status_report "ada1" "tank").
  vm_compute. reflexivity.
Defined.

End PoolReport.
(* ===================================================================== *)
(** * The entries of the primary map *)
(* ===================================================================== *)

Section Topology.









End Topology.
(* ===================================================================== *)
(** * The partition suffix *)
(* ===================================================================== *)

Section Partition.

(** What a greedy repetition that succeeds has taken. *)
Lemma rep_greedy_sound {A : Type} (p : ascii -> bool) (k : string -> option A) (x : A) :
  forall (t : string) (lo : nat),
    Re.rep_greedy lo p t k = Some x ->
    exists ds t', t = ds +:+ t' /\ all_in p ds = true
                  /\ (lo <= String.length ds)%nat /\ k t' = Some x.
Proof.
  induction t as [| c t IH]; intros lo H.
  - simpl in H. destruct lo; [| discriminate].
    exists "", "". repeat split; [lia | assumption].
  - simpl in H.
    assert (Hstop : match lo with O => k (String c t) | S _ => None end = Some x ->
                    exists ds t', String c t = ds +:+ t' /\ all_in p ds = true
                                  /\ (lo <= String.length ds)%nat /\ k t' = Some x).
    { destruct lo; [| discriminate]. intros Hk.
      exists "", (String c t). repeat split; [lia | assumption]. }
    destruct (p c) eqn:Hc; [| apply Hstop, H].
    destruct (Re.rep_greedy (Nat.pred lo) p t k) as [y |] eqn:E; [| apply Hstop, H].
    injection H as ->.
    destruct (IH _ E) as (ds & t' & -> & Hds & Hlo & Hk).
    exists (String c ds), t'. repeat split; [simpl; rewrite Hc; exact Hds | simpl; lia | exact Hk].
Qed.

Lemma at_eol_end (t : string) : Re.at_eol false t = true -> t = "" \/ t = nl.
Proof.
  destruct t as [| c [| c2 t]]; simpl; [auto | | discriminate].
  intros H. apply Ascii.eqb_eq in H as ->. right. reflexivity.
Qed.

(** The partition pattern matches at the start of a text only when the
    text is a digit run, possibly after a [p], up to its end or to a final
    newline. *)
Lemma strip_p (u : string) :
  Re.strip_lit false "p" u
  = match u with
    | String c r => if Ascii.eqb "p" c then Some r else None
    | EmptyString => None
    end.
Proof. destruct u; reflexivity. Qed.

Lemma partition_match_sound (u : string) (cs : Re.captures) (t' : string) :
  Re.match_here partition_re u = Some (cs, t') ->
  exists ds, all_in PyStr.isdigit ds = true /\ ds <> ""
             /\ (u = ds +:+ t' \/ u = String "p" (ds +:+ t'))
             /\ (t' = "" \/ t' = nl).
Proof.
  unfold Re.match_here, partition_re, lit, digits. cbn [Re.run Re.seq].
  assert (Hdig : forall t : string,
            Re.rep_greedy 1 Re.d t
              (fun t1 => if Re.at_eol false t1
                         then Some ([(0%nat, PyStr.take (String.length u - String.length t1) u)],
                                    t1)
                         else None) = Some (cs, t') ->
            exists ds, all_in PyStr.isdigit ds = true /\ ds <> ""
                       /\ t = ds +:+ t' /\ (t' = "" \/ t' = nl)).
  { intros t H. apply rep_greedy_sound in H as (ds & t1 & -> & Hds & Hlo & Hk).
    destruct (Re.at_eol false t1) eqn:E; [| discriminate].
    injection Hk as _ <-. exists ds. split; [exact Hds |].
    split; [destruct ds; [simpl in Hlo; lia | discriminate] |].
    split; [reflexivity | apply at_eol_end, E]. }
  rewrite strip_p.
  destruct u as [| c u'].
  - simpl. discriminate.
  - destruct (Ascii.eqb_spec "p" c) as [<- | Hne].
    + destruct (Re.rep_greedy 1 Re.d u' _) as [y |] eqn:E.
      * intros [= ->]. apply Hdig in E as (ds & H1 & H2 & -> & H4).
        exists ds. auto.
      * intros H. apply Hdig in H as (ds & H1 & H2 & H3 & H4).
        exists ds. rewrite H3. auto.
    + intros H. apply Hdig in H as (ds & H1 & H2 & H3 & H4).
      exists ds. rewrite H3. auto.
Qed.

Lemma partition_match_digits (ds : string) :
  all_in PyStr.isdigit ds = true -> ds <> "" ->
  (exists cs, Re.match_here partition_re ds = Some (cs, ""))
  /\ exists cs', Re.match_here partition_re (String "p" ds) = Some (cs', "").
Proof.
  intros Hds Hne.
  assert (Hlen : (1 <= String.length ds)%nat) by (destruct ds; [contradiction | simpl; lia]).
  assert (Hrun : forall u : string,
             Re.rep_greedy 1 Re.d ds
               (fun t1 => if Re.at_eol false t1
                          then Some ([(0%nat, PyStr.take (String.length u - String.length t1) u)],
                                     t1)
                          else None)
             = Some ([(0%nat, PyStr.take (String.length u - 0) u)], "")).
  { intros u. rewrite <- (string_app_empty ds) at 1.
    apply rep_greedy_all; [exact Hds | exact I | reflexivity | exact Hlen]. }
  split.
  - eexists. unfold Re.match_here, partition_re, lit, digits. cbn [Re.run Re.seq].
    rewrite strip_p.
    destruct ds as [| c r]; [contradiction |].
    destruct (Ascii.eqb_spec "p" c) as [<- | _]; [discriminate Hds |].
    apply Hrun.
  - eexists. unfold Re.match_here, partition_re, lit, digits. cbn [Re.run Re.seq].
    rewrite strip_p, Ascii.eqb_refl, Hrun. reflexivity.
Qed.

Lemma ends_in_cons (p : ascii -> bool) (c : ascii) (s : string) :
  s <> "" -> ends_in p (String c s) = ends_in p s.
Proof. intros H. unfold ends_in. rewrite last_char_cons by assumption. reflexivity. Qed.

Lemma ends_in_app (p : ascii -> bool) (a b : string) :
  b <> "" -> ends_in p (a +:+ b) = ends_in p b.
Proof. intros H. unfold ends_in. rewrite last_char_app by assumption. reflexivity. Qed.

Lemma all_in_ends (p : ascii -> bool) (s : string) :
  all_in p s = true -> s <> "" -> ends_in p s = true.
Proof.
  induction s as [| c s IH]; [contradiction |]. intros H _.
  simpl in H. apply andb_true_iff in H as [Hc Hs].
  destruct s as [| c2 s]; [exact Hc |].
  rewrite ends_in_cons by discriminate. apply IH; [exact Hs | discriminate].
Qed.

Lemma all_in_app_l (p : ascii -> bool) (a b : string) :
  all_in p (a +:+ b) = true -> all_in p a = true.
Proof. rewrite all_in_app. intros H. apply andb_true_iff in H as [H _]. exact H. Qed.

Lemma remove_go_step (fuel : nat) (r : Re.regex) (t : string) :
  Re.remove_go (S fuel) r t
  = match Re.match_here r t with
    | Some (_, t') =>
        if Nat.ltb (String.length t') (String.length t) then Re.remove_go fuel r t'
        else match t with
             | String c t1 => String c (Re.remove_go fuel r t1)
             | EmptyString => EmptyString
             end
    | None =>
        match t with
        | String c t1 => String c (Re.remove_go fuel r t1)
        | EmptyString => EmptyString
        end
    end.
Proof. reflexivity. Qed.

Lemma remove_go_end (fuel : nat) : Re.remove_go fuel partition_re "" = "".
Proof. destruct fuel; reflexivity. Qed.

(** A text that ends in a digit run loses the run, and a [p] before it. *)
Lemma remove_go_suffix (ds : string) :
  all_in PyStr.isdigit ds = true -> ds <> "" ->
  forall (base : string) (fuel : nat),
    (String.length (base +:+ ds) < fuel)%nat ->
    ends_in PyStr.isdigit base = false ->
    Re.remove_go fuel partition_re (base +:+ ds) = drop_p base.
Proof.
  intros Hds Hne.
  destruct (partition_match_digits ds Hds Hne) as ((cs1 & H1) & cs2 & H2).
  assert (Hdl : ends_in PyStr.isdigit ds = true) by (apply all_in_ends; assumption).
  induction base as [| c b IH]; intros fuel Hfuel Hb.
  - destruct fuel as [| fuel]; [simpl in Hfuel; lia |].
    change ("" +:+ ds) with ds. rewrite remove_go_step, H1.
    destruct ds as [| x r]; [contradiction |]. simpl. apply remove_go_end.
  - destruct fuel as [| fuel]; [simpl in Hfuel; lia |].
    rewrite string_app_cons, remove_go_step. rewrite string_app_cons in Hfuel.
    simpl in Hfuel.
    destruct (Re.match_here partition_re (String c (b +:+ ds))) as [[cs t'] |] eqn:E.
    + apply partition_match_sound in E as (ds' & Hd' & Hn' & Hu & Ht).
      assert (Hlast : ends_in PyStr.isdigit (String c (b +:+ ds)) = true).
      { rewrite <- string_app_cons, ends_in_app by assumption. exact Hdl. }
      assert (Ht' : t' = "").
      { destruct Ht as [-> | ->]; [reflexivity | exfalso].
        destruct Hu as [Hu | Hu]; rewrite Hu in Hlast.
        - rewrite ends_in_app in Hlast by discriminate. discriminate Hlast.
        - rewrite <- string_app_cons, ends_in_app in Hlast by discriminate.
          discriminate Hlast. }
      subst t'. rewrite string_app_empty in Hu.
      destruct Hu as [Hu | Hu].
      * exfalso. rewrite <- string_app_cons in Hu. rewrite <- Hu in Hd'.
        apply all_in_app_l in Hd'.
        rewrite (all_in_ends _ _ Hd') in Hb by discriminate. discriminate Hb.
      * injection Hu as -> Hu.
        destruct b as [| c2 b].
        -- simpl. rewrite remove_go_end. reflexivity.
        -- exfalso. rewrite <- Hu in Hd'. apply all_in_app_l in Hd'.
           rewrite ends_in_cons in Hb by discriminate.
           rewrite (all_in_ends _ _ Hd') in Hb by discriminate. discriminate Hb.
    + destruct b as [| c2 b].
      * change ("" +:+ ds) with ds in *. simpl drop_p.
        destruct (Ascii.eqb_spec c "p") as [-> | _]; [rewrite H2 in E; discriminate E |].
        rewrite (IH fuel) by (simpl; (lia || reflexivity)). reflexivity.
      * rewrite (IH fuel); [reflexivity | lia |].
        rewrite ends_in_cons in Hb by discriminate. exact Hb.
Qed.

(** A text that ends neither in a digit nor in a newline is left as it
    is. *)
Lemma remove_go_unchanged (name : string) :
  ends_in (fun c => PyStr.isdigit c || Ascii.eqb c "010") name = false ->
  forall fuel : nat, Re.remove_go fuel partition_re name = name.
Proof.
  induction name as [| c r IH]; intros Hend fuel; [apply remove_go_end |].
  destruct fuel as [| fuel]; [reflexivity |].
  rewrite remove_go_step.
  destruct (Re.match_here partition_re (String c r)) as [[cs t'] |] eqn:E.
  - exfalso. apply partition_match_sound in E as (ds & Hd & Hn & Hu & Ht).
    assert (Hdl : ends_in (fun c => PyStr.isdigit c || Ascii.eqb c "010") ds = true).
    { apply all_in_ends; [| assumption]. revert Hd. apply all_in_mono.
      intros x ->. reflexivity. }
    destruct Ht as [-> | ->]; destruct Hu as [Hu | Hu]; rewrite Hu in Hend.
    + rewrite string_app_empty, Hdl in Hend. discriminate Hend.
    + rewrite string_app_empty, ends_in_cons, Hdl in Hend by assumption. discriminate Hend.
    + rewrite ends_in_app in Hend by discriminate. discriminate Hend.
    + rewrite <- string_app_cons, ends_in_app in Hend by discriminate. discriminate Hend.
  - destruct r as [| c2 r]; [rewrite remove_go_end; reflexivity |].
    rewrite IH; [reflexivity |]. rewrite ends_in_cons in Hend by discriminate. exact Hend.
Qed.

(** X13: the name taken from a path loses every final digit
    run.  A name that ends in digits is cut before them, and before a [p]
    that stands in front of them, whether the digits number a partition
    or the disk itself; a name that ends neither in a digit nor in a
    newline is kept as it is. *)
Theorem partition_suffix_removed :
  (forall base ds : string,
      all_in PyStr.isdigit ds = true -> ds <> "" ->
      ends_in PyStr.isdigit base = false ->
      Re.remove partition_re (base +:+ ds) = drop_p base)
  /\ (forall name : string,
        ends_in (fun c => PyStr.isdigit c || Ascii.eqb c "010") name = false ->
        Re.remove partition_re name = name).
Proof.
  split.
  - intros base ds Hds Hne Hb. unfold Re.remove.
    apply remove_go_suffix; [assumption | assumption | lia | assumption].
  - intros name Hend. apply remove_go_unchanged, Hend.
Qed.

Lemma partition_suffix_removed_witness :
  Re.remove partition_re ("nvme0n1p" +:+ "2") = drop_p "nvme0n1p"
  /\ Re.remove partition_re ("ada" +:+ "0") = drop_p "ada"
  /\ Re.remove partition_re "sda" = "sda".
Proof.
  split; [| split].
  - apply (proj1 partition_suffix_removed "nvme0n1p" "2"); [reflexivity | discriminate | reflexivity].
  - apply (proj1 partition_suffix_removed "ada" "0"); [reflexivity | discriminate | reflexivity].
  - apply (proj2 partition_suffix_removed "sda"). reflexivity.
Defined.

End Partition.
(* ===================================================================== *)
(** * The plain table *)
(* ===================================================================== *)

Section Table.

Lemma fit_row_length (headers row : list string) :
  length (fit_row headers row) = length headers.
Proof.
  rewrite fit_row_eq, length_firstn, length_app, repeat_length. lia.
Qed.

Lemma len_app (a b : string) : PyStr.len (a +:+ b) = (PyStr.len a + PyStr.len b)%nat.
Proof.
  induction a as [| c a IH]; [reflexivity |].
  rewrite string_app_cons. simpl. rewrite IH. destruct (_ && _); reflexivity.
Qed.

Lemma len_blanks (n : nat) : PyStr.len (PyStr.replicate n " ") = n.
Proof. induction n as [| n IH]; [reflexivity | simpl; rewrite IH; reflexivity]. Qed.

Lemma len_dashes (n : nat) : PyStr.len (PyStr.replicate n "-") = n.
Proof. induction n as [| n IH]; [reflexivity | simpl; rewrite IH; reflexivity]. Qed.

Lemma len_ljust (w : nat) (s : string) :
  (PyStr.len s <= w)%nat -> PyStr.len (PyStr.ljust w s) = w.
Proof. intros H. unfold PyStr.ljust. rewrite len_app, len_blanks. lia. Qed.

Lemma len_join (sep : string) (parts : list string) :
  PyStr.len (PyStr.join sep parts)
  = (sum_list (map PyStr.len parts) + PyStr.len sep * (length parts - 1))%nat.
Proof.
  induction parts as [| p parts IH]; [simpl; lia |].
  destruct parts as [| q parts]; [simpl; lia |].
  change (PyStr.join sep (p :: q :: parts)) with (p +:+ sep +:+ PyStr.join sep (q :: parts)).
  rewrite !len_app, IH. simpl. lia.
Qed.

Lemma column_width_ge (table : list (list string)) (i w : nat) (row : list string)
    (c : string) :
  column_width table i = Some w -> row ∈ table -> row !! i = Some c ->
  (PyStr.len c <= w)%nat.
Proof.
  unfold column_width. intros Hw Hrow Hc.
  destruct (mapM _ table) as [lens |] eqn:E; [| discriminate].
  injection Hw as <-. apply mapM_Some_1 in E.
  apply list_elem_of_lookup in Hrow as [j Hj].
  destruct (Forall2_lookup_l _ _ _ _ _ E Hj) as (l & Hl & Hf).
  rewrite Hc in Hf. injection Hf as <-.
  apply max_list_elem_of_le, list_elem_of_lookup. exists j. exact Hl.
Qed.

Lemma filled_lines (widths : list nat) :
  forall cells : list string,
    Forall2 (fun c w => (PyStr.len c <= w)%nat) cells widths ->
    exists cs, filled widths cells = Some cs
               /\ map PyStr.len cs = widths.
Proof.
  induction widths as [| w widths IH]; intros cells H.
  - apply Forall2_nil_inv_r in H as ->. exists []. split; reflexivity.
  - apply Forall2_cons_inv_r in H as (c & cells' & Hc & H & ->).
    destruct (IH cells' H) as (cs & Hcs & Hlen).
    exists (PyStr.ljust w c :: cs). simpl. rewrite Hcs. split; [reflexivity |].
    simpl. rewrite len_ljust, Hlen by assumption. reflexivity.
Qed.

Lemma filled_length (widths : list nat) :
  forall (cells cs : list string), filled widths cells = Some cs ->
    (length cells <= length widths)%nat.
Proof.
  induction widths as [| w widths IH]; intros cells cs H.
  - destruct cells; [simpl; lia | discriminate H].
  - destruct cells as [| c cells]; [simpl; lia |].
    simpl in H. destruct (filled widths cells) as [l |] eqn:E; [| discriminate H].
    simpl. specialize (IH _ _ E). lia.
Qed.

Lemma widths_of (headers : list string) (table : list (list string)) (widths : list nat) :
  mapM (column_width table) (seq 0 (length headers)) = Some widths ->
  length widths = length headers
  /\ (forall row, row ∈ table -> (length headers <= length row)%nat)
  /\ (forall row, row ∈ table -> length row = length headers ->
        Forall2 (fun c w => (PyStr.len c <= w)%nat) row widths).
Proof.
  intros H. pose proof (length_mapM _ _ _ H) as Hlen. rewrite length_seq in Hlen.
  apply mapM_Some_1 in H.
  split; [auto |]. split.
  - intros row Hrow.
    destruct (Nat.le_gt_cases (length headers) (length row)) as [| Hlt]; [assumption |].
    exfalso.
    assert (Hi : seq 0 (length headers) !! length row = Some (length row))
      by (apply lookup_seq; split; [reflexivity | assumption]).
    destruct (Forall2_lookup_l _ _ _ _ _ H Hi) as (w & _ & Hw).
    unfold column_width in Hw.
    destruct (mapM _ table) as [lens |] eqn:E; [| discriminate].
    apply mapM_Some_1 in E.
    apply list_elem_of_lookup in Hrow as [j Hj].
    destruct (Forall2_lookup_l _ _ _ _ _ E Hj) as (l & _ & Hf).
    rewrite (lookup_ge_None_2 row (length row)) in Hf by lia. discriminate Hf.
  - intros row Hrow Hr. apply Forall2_same_length_lookup.
    split; [lia |]. intros i c w Hc Hw.
    assert (Hi : seq 0 (length headers) !! i = Some i).
    { apply lookup_seq. split; [reflexivity |].
      apply lookup_lt_Some in Hw. lia. }
    destruct (Forall2_lookup_l _ _ _ _ _ H Hi) as (w' & Hw' & Hcw).
    rewrite Hw in Hw'. injection Hw' as <-.
    apply (column_width_ge table i w row c); assumption.
Qed.

Lemma widths_exist (headers : list string) (table : list (list string)) :
  Forall (fun row => length row = length headers) table ->
  is_Some (mapM (column_width table) (seq 0 (length headers))).
Proof.
  intros Hall. apply mapM_is_Some_2, Forall_forall. intros i Hi.
  apply elem_of_seq in Hi. unfold compose, column_width.
  assert (Hm : is_Some (mapM (fun row : list string => PyStr.len <$> row !! i) table)).
  { apply mapM_is_Some_2. eapply Forall_impl; [exact Hall |].
    intros row Hrow. unfold compose. simpl in Hrow.
    destruct (lookup_lt_is_Some_2 row i) as [c ->]; [lia | eauto]. }
  destruct Hm as [lens ->]. eauto.
Qed.

Lemma line_of (widths : list nat) (cells : list string) :
  Forall2 (fun c w => (PyStr.len c <= w)%nat) cells widths ->
  exists line, PyStr.join " | " <$> filled widths cells = Some line
               /\ PyStr.len line = line_width widths.
Proof.
  intros H. destruct (filled_lines widths cells H) as (cs & Hcs & Hlen).
  exists (PyStr.join " | " cs). rewrite Hcs. split; [reflexivity |].
  assert (Hl : length cs = length widths) by (rewrite <- Hlen, length_map; reflexivity).
  rewrite len_join, Hlen, Hl. reflexivity.
Qed.

Lemma lines_of (widths : list nat) (rows : list (list string)) :
  Forall (fun row => Forall2 (fun c w => (PyStr.len c <= w)%nat) row widths) rows ->
  exists lines,
    mapM (fun row => PyStr.join " | " <$> filled widths row) rows = Some lines
    /\ Forall (fun line => PyStr.len line = line_width widths) lines.
Proof.
  intros Hall. induction Hall as [| row rows Hrow _ (lines & Hl & Hf)].
  - exists []. split; [reflexivity | constructor].
  - destruct (line_of widths row Hrow) as (l & Hline & Hlw).
    exists (l :: lines). split; [| constructor; assumption].
    simpl. rewrite Hline. simpl. rewrite Hl. reflexivity.
Qed.

Lemma separator_width (widths : list nat) :
  PyStr.len (PyStr.join "-+-" (map (fun width => PyStr.replicate width "-") widths))
  = line_width widths.
Proof.
  rewrite len_join, map_map, length_map. unfold line_width.
  rewrite (map_ext _ (fun w => w) (fun w => len_dashes w)), map_id. reflexivity.
Qed.

(** X14: the plain table is rendered exactly when every
    row has as many cells as there are headings; a shorter or longer row
    raises [IndexError].  A rendered table is the heading line, the separator and one line
    per row, and all these lines have the same number of characters: the
    widths of the columns and three characters between two columns.
    Rows fitted to the headings are always rendered. *)
Theorem create_simple_table_rectangular (headers : list string) (rows : list (list string)) :
  (is_Some (create_simple_table headers rows)
   <-> Forall (fun row => length row = length headers) rows)
  /\ (forall table : string,
        create_simple_table headers rows = Some table ->
        exists (widths : list nat) (lines : list string),
          table = PyStr.join nl lines
          /\ length lines = S (S (length rows))
          /\ length widths = length headers
          /\ Forall (fun line => PyStr.len line = line_width widths) lines)
  /\ (forall rows_data : list (list string),
        is_Some (create_simple_table headers (map (fit_row headers) rows_data))).
Proof.
  assert (Hfwd : forall rs, Forall (fun row => length row = length headers) rs ->
            exists (widths : list nat) (lines : list string),
              create_simple_table headers rs = Some (PyStr.join nl lines)
              /\ length lines = S (S (length rs))
              /\ length widths = length headers
              /\ Forall (fun line => PyStr.len line = line_width widths) lines).
  { intros rs Hall.
    assert (Htab : Forall (fun row => length row = length headers) (rs ++ [headers]))
      by (apply Forall_app; split; [assumption | repeat constructor]).
    destruct (widths_exist headers _ Htab) as [widths Hw].
    destruct (widths_of headers _ widths Hw) as (Hlen & _ & Hle).
    destruct (line_of widths headers) as (hl & Hhl & Hhw).
    { apply Hle; [apply elem_of_app; right; constructor | reflexivity]. }
    assert (Hrows : exists lines,
              mapM (fun row => PyStr.join " | " <$> filled widths row) rs = Some lines
              /\ Forall (fun line => PyStr.len line = line_width widths) lines).
    { apply lines_of. apply Forall_forall. intros row Hrow.
      apply Hle; [apply elem_of_app; left; exact Hrow |].
      exact (proj1 (Forall_forall _ _) Hall row Hrow). }
    destruct Hrows as (lines & Hlines & Hlw).
    exists widths, (hl :: PyStr.join "-+-" (map (fun width => PyStr.replicate width "-") widths)
                       :: lines).
    split; [| split; [| split]].
    - unfold create_simple_table. rewrite Hw. simpl. rewrite Hhl. simpl.
      rewrite Hlines. reflexivity.
    - simpl. rewrite <- (length_mapM _ _ _ Hlines). reflexivity.
    - exact Hlen.
    - constructor; [exact Hhw |]. constructor; [apply separator_width | exact Hlw]. }
  assert (Hbwd : forall table, create_simple_table headers rows = Some table ->
            Forall (fun row => length row = length headers) rows).
  { intros table H. unfold create_simple_table in H.
    destruct (mapM (column_width (rows ++ [headers])) _) as [widths |] eqn:Hw;
      [| discriminate H].
    destruct (widths_of headers _ widths Hw) as (Hlen & Hge & _).
    simpl in H.
    destruct (PyStr.join " | " <$> filled widths headers) as [hl |]; [| discriminate H].
    simpl in H.
    destruct (mapM _ rows) as [lines |] eqn:Hl; [| discriminate H].
    apply mapM_Some_1 in Hl.
    apply Forall_forall. intros row Hrow.
    apply list_elem_of_lookup in Hrow as [j Hj].
    destruct (Forall2_lookup_l _ _ _ _ _ Hl Hj) as (l & _ & Hf).
    destruct (filled widths row) as [cs |] eqn:Ef; [| discriminate Hf].
    apply filled_length in Ef.
    assert (Hin : row ∈ rows ++ [headers])
      by (apply elem_of_app; left; apply list_elem_of_lookup; eauto).
    specialize (Hge row Hin). lia. }
  split; [| split].
  - split.
    + intros [table H]. apply (Hbwd table H).
    + intros Hall. destruct (Hfwd rows Hall) as (widths & lines & -> & _). eauto.
  - intros table H.
    destruct (Hfwd rows (Hbwd table H)) as (widths & lines & Heq & Hl & Hw & Hf).
    rewrite Heq in H. injection H as <-. exists widths, lines. auto.
  - intros rows_data.
    destruct (Hfwd (map (fit_row headers) rows_data)) as (widths & lines & -> & _);
      [| eauto].
    apply Forall_forall. intros row Hrow.
    apply list_elem_of_In, in_map_iff in Hrow as (r & <- & _).
    apply fit_row_length.
Qed.

End Table.
(* ===================================================================== *)
(** * The single table and the snapshot *)
(* ===================================================================== *)

Section SingleTable.

(** X15: in the single table of [--no-group] a row is never cut:
    it keeps its two increments and is filled with N/A to the eighteen
    headings.  The headings are the five leading ones and the thirteen
    attribute headings in the order of first appearance, while a row
    holds the attributes of its own class in the order of that class; the
    two orders agree for the class SAS_SSD only. *)
Theorem single_table_columns :
  (forall (name type model formatted_size pool device_class : string)
          (smart_data prev_disk : gmap string string) (row : list string),
      disk_row name type model formatted_size pool device_class smart_data prev_disk
      = Ret row ->
      fit_row ungrouped_headers row
      = row ++ repeat "N/A" (11 - length (attributes_of device_class)))
  /\ length ungrouped_headers = 18%nat
  /\ (forall device_class : string,
        In device_class (map fst DISK_TYPE_ATTRIBUTES) ->
        (firstn (length (attributes_of device_class)) all_attributes
         = map display_name (attributes_of device_class)
         <-> device_class = "SAS_SSD")).
Proof.
  split; [| split; [reflexivity |]].
  - intros name type model formatted_size pool device_class smart_data prev_disk row H.
    destruct (disk_row_cells _ _ _ _ _ _ _ _ _ H) as (ri & wi & _ & _ & ->).
    pose proof (attributes_of_length device_class) as Hn.
    rewrite fit_row_eq.
    assert (Hlen : length (([name; type; model; formatted_size; pool]
                            ++ map (cell smart_data) (attributes_of device_class))
                           ++ [ri; wi])
                   = (7 + length (attributes_of device_class))%nat).
    { rewrite !length_app, length_map. simpl. lia. }
    change (length ungrouped_headers) with 18%nat.
    rewrite Hlen.
    replace (18 - (7 + length (attributes_of device_class)))%nat
      with (11 - length (attributes_of device_class))%nat by lia.
    apply firstn_all2. rewrite length_app, repeat_length, Hlen. lia.
  - intros device_class Hin.
    assert (Hne : forall (i : nat) (a b : list string),
              String.eqb (nth i a "") (nth i b "") = false -> a <> b).
    { intros i a b Hi ->. rewrite String.eqb_refl in Hi. discriminate Hi. }
    cbn [map fst DISK_TYPE_ATTRIBUTES In] in Hin.
    destruct Hin as [<- | [<- | [<- | [<- | []]]]].
    + split; [reflexivity | intros _; vm_compute; reflexivity].
    + split; [intros H; exfalso; revert H; apply (Hne 4%nat); vm_compute; reflexivity
             | discriminate].
    + split; [intros H; exfalso; revert H; apply (Hne 2%nat); vm_compute; reflexivity
             | discriminate].
    + split; [intros H; exfalso; revert H; apply (Hne 0%nat); vm_compute; reflexivity
             | discriminate].
Qed.

Lemma single_table_columns_witness :
  fit_row ungrouped_headers
    ["nvme0n1"; "SSD"; "WD"; "1.00 TB"; "tank"; "N/A"; "N/A"; "N/A"; "N/A"; "N/A";
     "N/A"; "N/A"; "N/A"; "12.1 TB"; "N/A"; "102 GB"; "N/A"]
  = ["nvme0n1"; "SSD"; "WD"; "1.00 TB"; "tank"; "N/A"; "N/A"; "N/A"; "N/A"; "N/A";
     "N/A"; "N/A"; "N/A"; "12.1 TB"; "N/A"; "102 GB"; "N/A"]
    ++ repeat "N/A" (11 - length (attributes_of "NVME_SSD")).
Proof.
  apply (proj1 single_table_columns "nvme0n1" "SSD" "WD" "1.00 TB" "tank" "NVME_SSD"
           {[ "Data_Read" := "12.1 TB" ]} {[ "Data_Read" := "12.0 TB" ]}).
  vm_compute. reflexivity.
Defined.

End SingleTable.

Section Snapshot.

Lemma cell_counter (smart_data : gmap string string) (a : string * string * string) :
  In (attr_name a) ["Data_Read"; "Data_Written"] ->
  cell smart_data a = default "N/A" (smart_data !! attr_name a).
Proof. unfold cell, format_value. intros [<- | [<- | []]]; reflexivity. Qed.

Lemma counter_test (key : string) :
  existsb (String.eqb key) ["Data_Read"; "Data_Written"] = true
  <-> In key ["Data_Read"; "Data_Written"].
Proof.
  rewrite existsb_exists. split.
  - intros (x & Hx & E). apply String.eqb_eq in E as ->. exact Hx.
  - intros H. exists key. split; [exact H | apply String.eqb_refl].
Qed.

(** The loop that keeps the counters of a disk, over any attribute list. *)
Lemma entry_fold (smart_data : gmap string string) (key : string)
    (attrs : list (string * string * string)) :
  In key ["Data_Read"; "Data_Written"] ->
  forall entry : gmap string string,
    fold_left (fun entry a =>
                 if existsb (String.eqb (attr_name a)) ["Data_Read"; "Data_Written"]
                 then <[attr_name a := cell smart_data a]> entry else entry)
              attrs entry !! key
    = if existsb (fun a => String.eqb key (attr_name a)) attrs
      then Some (default "N/A" (smart_data !! key)) else entry !! key.
Proof.
  intros Hk. induction attrs as [| a attrs IH]; intros entry; [reflexivity |].
  cbn [fold_left]. rewrite IH.
  change (existsb (fun a0 => String.eqb key (attr_name a0)) (a :: attrs))
    with (String.eqb key (attr_name a)
          || existsb (fun a0 => String.eqb key (attr_name a0)) attrs).
  destruct (existsb (fun a0 => String.eqb key (attr_name a0)) attrs);
    [rewrite orb_true_r; reflexivity |].
  rewrite orb_false_r.
  destruct (String.eqb_spec key (attr_name a)) as [-> | Hne].
  - rewrite (proj2 (counter_test _) Hk), lookup_insert_eq, cell_counter by exact Hk.
    reflexivity.
  - destruct (existsb _ _); [| reflexivity].
    apply lookup_insert_ne. congruence.
Qed.

(** What is kept of a disk for the next run: its two counters, with N/A
    for a counter that is absent, when the class has them. *)
Lemma current_disk_entry_lookup (device_class key : string)
    (smart_data : gmap string string) :
  In key ["Data_Read"; "Data_Written"] ->
  current_disk_entry device_class smart_data !! key
  = if existsb (String.eqb device_class) ["SAS_SSD"; "SAS_HDD"; "NVME_SSD"]
    then Some (default "N/A" (smart_data !! key)) else None.
Proof.
  intros Hk. unfold current_disk_entry. rewrite (entry_fold _ _ _ Hk), lookup_empty.
  assert (He : existsb (fun a => String.eqb key (attr_name a)) (attributes_of device_class)
               = existsb (String.eqb device_class) ["SAS_SSD"; "SAS_HDD"; "NVME_SSD"]).
  { unfold attributes_of, DISK_TYPE_ATTRIBUTES. cbn [attributes_in existsb].
    destruct (String.eqb device_class "SAS_SSD");
      [destruct Hk as [<- | [<- | []]]; reflexivity |].
    destruct (String.eqb device_class "SAS_HDD");
      [destruct Hk as [<- | [<- | []]]; reflexivity |].
    destruct (String.eqb device_class "NVME_SSD");
      [destruct Hk as [<- | [<- | []]]; reflexivity |].
    destruct (String.eqb device_class "VIRTUAL");
      destruct Hk as [<- | [<- | []]]; reflexivity. }
  rewrite He. reflexivity.
Qed.

(** X16: the increment of a counter is computed against what the
    previous run kept.  For a class that has the two counters the entry of
    the previous run holds each of them, N/A standing for a counter that
    was absent; so the increment is the delta from the previous value to
    the current one when the counter is present now, and it is N/A when
    the counter is absent now, was absent then, or the class keeps no
    counters. *)
Theorem snapshot_increment (device_class key : string)
    (previous current : gmap string string) :
  In key ["Data_Read"; "Data_Written"] ->
  increment key current (current_disk_entry device_class previous)
  = (if existsb (String.eqb device_class) ["SAS_SSD"; "SAS_HDD"; "NVME_SSD"]
     then match current !! key with
          | Some new_value =>
              calculate_size_increment (default "N/A" (previous !! key)) new_value
          | None => Ret "N/A"
          end
     else Ret "N/A")
  /\ (previous !! key = None ->
      increment key current (current_disk_entry device_class previous) = Ret "N/A").
Proof.
  intros Hk. unfold increment. rewrite (current_disk_entry_lookup _ _ _ Hk).
  destruct (existsb _ _).
  - split; [destruct (current !! key); reflexivity |].
    intros ->. destruct (current !! key); [| reflexivity].
    cbn [default]. unfold calculate_size_increment.
    change (parse_size_to_bytes "N/A") with (@None float). reflexivity.
  - split; [destruct (current !! key); reflexivity |].
    intros _. destruct (current !! key); reflexivity.
Qed.

Lemma snapshot_increment_witness :
  increment "Data_Read" {[ "Data_Read" := "12.1 TB" ]}
    (current_disk_entry "SAS_HDD" {[ "Data_Read" := "12.0 TB" ]})
  = (if existsb (String.eqb "SAS_HDD") ["SAS_SSD"; "SAS_HDD"; "NVME_SSD"]
     then match ({[ "Data_Read" := "12.1 TB" ]} : gmap string string) !! "Data_Read" with
          | Some new_value =>
              calculate_size_increment
                (default "N/A"
                   (({[ "Data_Read" := "12.0 TB" ]} : gmap string string) !! "Data_Read"))
                new_value
          | None => Ret "N/A"
          end
     else Ret "N/A")
  /\ (({[ "Data_Read" := "12.0 TB" ]} : gmap string string) !! "Data_Read" = None ->
      increment "Data_Read" {[ "Data_Read" := "12.1 TB" ]}
        (current_disk_entry "SAS_HDD" {[ "Data_Read" := "12.0 TB" ]}) = Ret "N/A").
Proof.
  apply (snapshot_increment "SAS_HDD" "Data_Read"). simpl. auto.
Defined.

End Snapshot.
